(** * hapi-audit-rest: the two-phase audit pipeline

    A shallow embedding of the plugin's [register] function (the
    [onPreHandler] and [onPreResponse] extension handlers, the event
    emitter and the two stores they share) and of the record classes
    [AuditMutation], [AuditMutationBody] and [AuditAction].

    JavaScript values are a small untyped universe [JsVal]; the two
    [Map]s are finite maps keyed by endpoint strings; a handler is a
    computation over the stores that appends to a log of observable
    events and completes normally, by an early [return], or by a
    [throw].  The [try]/[catch] around each handler body is kept as it
    is written.

    A handler call is one step of a run: what the server answers to the
    internal read is an input of the step, and other requests are not
    interleaved at that [await].  The modules [utils] and [enums] are
    not among the sources; what the handlers take from them is modelled
    from the spec or left as a parameter, and says so. *)

From Stdlib Require Import ZArith Lia Ascii String List Bool.
From stdpp Require Import base gmap strings list.

Set Warnings "-register-all".

Local Open Scope string_scope.
Local Open Scope Z_scope.
Local Open Scope list_scope.

(** ** JavaScript values *)

Inductive JsVal : Type :=
| VUndefined
| VNull
| VBool (b : bool)
| VNum (n : Z)
| VStr (s : string)
| VObj (fields : list (string * JsVal))
| VStream.

(** [v == null]: true of [null] and [undefined] only. *)
Definition nullish (v : JsVal) : bool :=
  match v with
  | VUndefined | VNull => true
  | _ => false
  end.

(** [v === null]. *)
Definition strictNull (v : JsVal) : bool :=
  match v with
  | VNull => true
  | _ => false
  end.

(** Truthiness of a string: only the empty string is falsy. *)
Definition strTruthy (s : string) : bool :=
  match s with
  | EmptyString => false
  | _ => true
  end.

(** ToBoolean. *)
Definition truthy (v : JsVal) : bool :=
  match v with
  | VUndefined | VNull => false
  | VBool b => b
  | VNum n => negb (n =? 0)
  | VStr s => strTruthy s
  | VObj _ | VStream => true
  end.

(** Truthiness of an optional string property ([undefined] when absent). *)
Definition optTruthy (a : option string) : bool :=
  match a with
  | Some s => strTruthy s
  | None => false
  end.

(** First binding of a key in an object's property list. *)
Fixpoint assoc (k : string) (fields : list (string * JsVal)) : option JsVal :=
  match fields with
  | [] => None
  | (k', v) :: rest => if String.eqb k k' then Some v else assoc k rest
  end.

(** [o[k]]: a [TypeError] on [null] and [undefined], [undefined] for a
    missing property or a primitive. *)
Definition getProp (o : JsVal) (k : string) : option JsVal :=
  match o with
  | VUndefined | VNull => None
  | VObj fields => Some (default VUndefined (assoc k fields))
  | _ => Some VUndefined
  end.

(** [delete o[k]] for every [k] of [keys], on an object's property list. *)
Definition deleteKeys (keys : list string) (fields : list (string * JsVal))
  : list (string * JsVal) :=
  filter (fun kv => negb (existsb (String.eqb (fst kv)) keys)) fields.

(** ** Strings *)

Definition toLowerAscii (c : ascii) : ascii :=
  let n := nat_of_ascii c in
  if ((65 <=? n)%nat && (n <=? 90)%nat)%bool then ascii_of_nat (n + 32) else c.

Definition toUpperAscii (c : ascii) : ascii :=
  let n := nat_of_ascii c in
  if ((97 <=? n)%nat && (n <=? 122)%nat)%bool then ascii_of_nat (n - 32) else c.

Fixpoint mapString (f : ascii -> ascii) (s : string) : string :=
  match s with
  | EmptyString => EmptyString
  | String c rest => String (f c) (mapString f rest)
  end.

(** [s.toLowerCase()], which the code only ever compares with the verb
    names [get], [put], [post] and [delete]: no letter outside ASCII
    has one of their letters as its lower case, so the letter-by-letter
    mapping decides those comparisons as the platform's does. *)
Definition toLowerCase : string -> string := mapString toLowerAscii.

(** A text is ASCII when every byte of it is below 128; any other text
    holds the UTF-8 bytes of letters outside ASCII. *)
Fixpoint isAscii (s : string) : bool :=
  match s with
  | EmptyString => true
  | String c rest => (nat_of_ascii c <? 128)%nat && isAscii rest
  end.

(** ** Enumerations

    Modelled from the spec: the module [enums] is not among the sources;
    the spec names the record types MUTATION and ACTION, the outcomes
    SUCCESS and FAILURE, the mutation actions UPDATE, CREATE and DELETE
    and the default read action SEARCH. *)

Inductive EVENT_TYPE : Type := MUTATION | ACTION.
Inductive AUDIT_OUTCOME : Type := SUCCESS | FAILURE.

Definition MUTATION_UPDATE : string := "UPDATE".
Definition MUTATION_CREATE : string := "CREATE".
Definition MUTATION_DELETE : string := "DELETE".
Definition SEARCH : string := "SEARCH".

(** ** Record classes (src/dtos) *)

(** [new Date()] is not modelled: no timestamp field is kept. *)
Module AuditMutationBody.
Record input : Type := mkInput {
  entity : string;
  entityId : JsVal;
  action : option string;
  username : JsVal;
  originalValues : JsVal;
  newValues : JsVal
}.

Record t : Type := mk {
  body_entity : string;
  body_entityId : JsVal;
  body_action : option string;
  body_username : JsVal;
  body_originalValues : JsVal;
  body_newValues : JsVal
}.

(** A destructuring default applies exactly when the property is
    [undefined]. *)
Definition orDefault (v d : JsVal) : JsVal :=
  match v with
  | VUndefined => d
  | _ => v
  end.

Definition new (i : input) : t :=
  {| body_entity := entity i;
     body_entityId := entityId i;
     body_action := action i;
     body_username := username i;
     body_originalValues := orDefault (originalValues i) (VObj []);
     body_newValues := orDefault (newValues i) (VObj []) |}.
End AuditMutationBody.

Module AuditMutation.
Record input : Type := mkInput {
  method : string;
  action : option string;
  entity : string;
  entityId : JsVal;
  username : JsVal;
  outcome : option AUDIT_OUTCOME;
  application : string;
  originalValues : JsVal;
  newValues : JsVal
}.

Record t : Type := mk {
  rec_application : string;
  rec_type : EVENT_TYPE;
  rec_body : AuditMutationBody.t;
  rec_outcome : AUDIT_OUTCOME
}.

(** The [if]/[else if] chain that derives [httpAction]. *)
Definition httpAction (i : input) : option string :=
  if negb (optTruthy (action i)) && String.eqb (toLowerCase (method i)) "put"
  then Some MUTATION_UPDATE
  else if negb (optTruthy (action i)) && String.eqb (toLowerCase (method i)) "post"
  then Some MUTATION_CREATE
  else if negb (optTruthy (action i)) && String.eqb (toLowerCase (method i)) "delete"
  then Some MUTATION_DELETE
  else None.

Definition new (i : input) : t :=
  {| rec_application := application i;
     rec_type := MUTATION;
     rec_body := AuditMutationBody.new
       {| AuditMutationBody.entity := entity i;
          AuditMutationBody.action :=
            (if optTruthy (action i) then action i else httpAction i);
          AuditMutationBody.entityId := entityId i;
          AuditMutationBody.username := username i;
          AuditMutationBody.originalValues :=
            AuditMutationBody.orDefault (originalValues i) (VObj []);
          AuditMutationBody.newValues :=
            AuditMutationBody.orDefault (newValues i) (VObj []) |};
     rec_outcome := default SUCCESS (outcome i) |}.
End AuditMutation.

Module AuditAction.
(** Modelled from the spec: the class [AuditActionBody] is not among
    the sources; the spec gives an Action record's body the fields
    entity, entityId, action, username and data. *)
Record body_t : Type := mkBody {
  body_entity : string;
  body_entityId : JsVal;
  body_action : option string;
  body_username : JsVal;
  body_data : JsVal
}.

Record input : Type := mkInput {
  type : EVENT_TYPE;
  entity : string;
  entityId : JsVal;
  action : option string;
  username : JsVal;
  data : JsVal;
  outcome : option AUDIT_OUTCOME;
  application : string
}.

Record t : Type := mk {
  rec_application : string;
  rec_type : EVENT_TYPE;
  rec_body : body_t;
  rec_outcome : AUDIT_OUTCOME
}.

Definition new (i : input) : t :=
  {| rec_application := application i;
     rec_type := type i;
     rec_body :=
       {| body_entity := entity i;
          body_entityId := entityId i;
          body_action := action i;
          body_username := username i;
          body_data := AuditMutationBody.orDefault (data i) (VObj []) |};
     rec_outcome := default SUCCESS (outcome i) |}.
End AuditAction.

(** What [rec] can hold when it is not [null]. *)
Inductive AuditRecord : Type :=
| Mutation (m : AuditMutation.t)
| Action (a : AuditAction.t).

(** ** Options and registration *)

(** A subscriber of the audit channel: the built-in one that prints the
    record with [console.log], or a function supplied by the caller. *)
Inductive Subscriber : Type :=
| ConsoleLogger
| UserFunction (name : string).

(** The values an options object can hold. *)
Inductive OptVal : Type :=
| OBool (b : bool)
| ONum (n : Z)
| OStr (s : string)
| ODiff (f : JsVal -> JsVal -> JsVal * JsVal)
| OPred (p : string -> string -> bool)
| OFun (name : string).

(** The constants bound by the destructuring at the top of [register]. *)
Record Config : Type := mkConfig {
  auditGetRequests : bool;
  showErrorsOnStdErr : bool;
  diffFunc : JsVal -> JsVal -> JsVal * JsVal;
  disableCache : bool;
  clientId : string;
  sidUsernameAttribute : string;
  emitEventName : string;
  cacheExpiresIn : Z;
  isAuditable : string -> string -> bool;
  eventHanler : Subscriber
}.

Definition FIVE_MINS_MSECS : Z := 300000.
Definition ID_PARAM_DEFAULT : string := "id".
Definition pluginName : string := "hapi-audit-rest".

(** Prefix test on strings, for [path.startsWith]. *)
Fixpoint startsWith (p s : string) : bool :=
  match p, s with
  | EmptyString, _ => true
  | String a p', String b s' => if Ascii.eqb a b then startsWith p' s' else false
  | String _ _, EmptyString => false
  end.

Definition optBool (o : gmap string OptVal) (k : string) (d : bool) : bool :=
  match o !! k with
  | Some (OBool b) => b
  | _ => d
  end.

Definition optStr (o : gmap string OptVal) (k : string) (d : string) : string :=
  match o !! k with
  | Some (OStr s) => s
  | _ => d
  end.

Definition optNum (o : gmap string OptVal) (k : string) (d : Z) : Z :=
  match o !! k with
  | Some (ONum n) => n
  | _ => d
  end.

(** The destructuring of [options], key by key, with the defaults of the
    source.  [validateSchema] is outside the core; a value of the wrong
    kind is read as absent. *)
Definition readOptions (options : gmap string OptVal) : Config :=
  {| auditGetRequests := optBool options "auditGetRequests" true;
     showErrorsOnStdErr := optBool options "showErrorsOnStdErr" true;
     diffFunc :=
       match options !! "diffFunc" with
       | Some (ODiff f) => f
       | _ => fun _ _ => (VObj [], VObj [])
       end;
     disableCache := optBool options "disableCache" false;
     clientId := optStr options "clientId" "client-app";
     sidUsernameAttribute := optStr options "sidUsernameAttribute" "userName";
     emitEventName := optStr options "emitEventName" "auditing";
     cacheExpiresIn := optNum options "cacheExpiresIn" FIVE_MINS_MSECS;
     isAuditable :=
       match options !! "isAuditable" with
       | Some (OPred p) => p
       | _ => fun path _ => startsWith "/api" path
       end;
     eventHanler :=
       match options !! "eventHanler" with
       | Some (OFun name) => UserFunction name
       | _ => ConsoleLogger
       end |}.

(** The server's listener table after [server.event(emitEventName)] and
    [server.events.on(emitEventName, eventHanler)]. *)
Definition register (options : gmap string OptVal)
  : Config * list (string * Subscriber) :=
  let cfg := readOptions options in
  (cfg, [(emitEventName cfg, eventHanler cfg)]).

(** ** Requests *)

(** The route's [plugins["hapi-audit-rest"]] object; every field is
    optional and the default object is empty. *)
Record RouteAuditConfig : Type := mkRoute {
  disabled : bool;
  action : option string;
  entity : option string;
  entityKeys : option (list string);
  idParam : option string;
  getPath : option string;
  getPathId : option string;
  skipDiff : option (list string)
}.

Definition noAuditing : RouteAuditConfig :=
  {| disabled := false; action := None; entity := None; entityKeys := None;
     idParam := None; getPath := None; getPathId := None; skipDiff := None |}.

Record Response : Type := mkResponse {
  source : JsVal;
  statusCode : JsVal
}.

(** The parts of a hapi request the two handlers read.  [params] is
    always an object, given here by its property list.  [response] is
    what the business logic answers; only [onPreResponse] looks at it. *)
Record Request : Type := mkRequest {
  method : string;
  pathname : string;
  injected : JsVal;
  query : JsVal;
  params : list (string * JsVal);
  payload : JsVal;
  credentials : JsVal;
  auditing : RouteAuditConfig;
  response : Response
}.

(** ** Stores, events and the handler monad *)

Record Stores : Type := mkStores {
  oldValsCache : gmap string JsVal;
  auditValues : gmap string AuditRecord
}.

Definition emptyStores : Stores :=
  {| oldValsCache := ∅; auditValues := ∅ |}.

(** What the plugin does that can be seen from outside, in order.  The
    first three cache events record the calls on [oldValsCache], the
    fourth its replacement by a new [Map]. *)
Inductive Event : Type :=
| EvCacheGet (key : string) (found : option JsVal)
| EvCacheSet (key : string) (value : JsVal)
| EvCacheDelete (key : string)
| EvCacheClear
| EvFetch (url : string)
| EvEmit (channel : string) (rec : AuditRecord)
| EvStdErr (line : string)
| EvRequestLog (message : string).

(** What an extension handler hands back to the server: [h.continue],
    or an exception that left the handler. *)
Inductive ExtResult : Type :=
| h_continue
| h_raised (message : string).

Inductive Completion (A : Type) : Type :=
| Normal (a : A)
| Returned (r : ExtResult)
| Thrown (message : string).
Arguments Normal {A} a.
Arguments Returned {A} r.
Arguments Thrown {A} message.

Definition Audit (A : Type) : Type := Stores -> Stores * list Event * Completion A.

Definition ret {A} (a : A) : Audit A := fun st => (st, [], Normal a).

Definition bind {A B} (m : Audit A) (k : A -> Audit B) : Audit B :=
  fun st =>
    match m st with
    | (st1, ev1, Normal a) =>
        match k a st1 with
        | (st2, ev2, c) => (st2, ev1 ++ ev2, c)
        end
    | (st1, ev1, Returned r) => (st1, ev1, Returned r)
    | (st1, ev1, Thrown e) => (st1, ev1, Thrown e)
    end.

Notation "'let!' x := m 'in' k" := (bind m (fun x => k))
  (at level 10, x name, m at level 100, k at level 200).
Notation "m ;;; k" := (bind m (fun _ => k))
  (at level 100, right associativity).

Definition throw {A} (message : string) : Audit A :=
  fun st => (st, [], Thrown message).

Definition returnEarly {A} (r : ExtResult) : Audit A :=
  fun st => (st, [], Returned r).

Definition tell (e : Event) : Audit unit := fun st => (st, [e], Normal tt).

(** A property access that raises a [TypeError] on [null]/[undefined]. *)
Definition propOf (o : JsVal) (k : string) : Audit JsVal :=
  match getProp o k with
  | Some v => ret v
  | None => throw ("Cannot read properties of null (reading '" +:+ k +:+ "')")
  end.

(** [oldValsCache.get(k)]: [undefined] when the key is absent. *)
Definition cacheGet (k : string) : Audit JsVal :=
  fun st => (st, [EvCacheGet k (oldValsCache st !! k)],
             Normal (default VUndefined (oldValsCache st !! k))).

Definition cacheSet (k : string) (v : JsVal) : Audit unit :=
  fun st => ({| oldValsCache := <[k := v]> (oldValsCache st);
                auditValues := auditValues st |},
             [EvCacheSet k v], Normal tt).

Definition cacheDelete (k : string) : Audit unit :=
  fun st => ({| oldValsCache := delete k (oldValsCache st);
                auditValues := auditValues st |},
             [EvCacheDelete k], Normal tt).

(** [auditValues.get(k)]: [None] stands for [undefined]. *)
Definition pendingGet (k : string) : Audit (option AuditRecord) :=
  fun st => (st, [], Normal (auditValues st !! k)).

Definition pendingSet (k : string) (r : AuditRecord) : Audit unit :=
  fun st => ({| oldValsCache := oldValsCache st;
                auditValues := <[k := r]> (auditValues st) |},
             [], Normal tt).

Definition pendingDelete (k : string) : Audit unit :=
  fun st => ({| oldValsCache := oldValsCache st;
                auditValues := delete k (auditValues st) |},
             [], Normal tt).

(** [request.params[k]]. *)
Definition paramOf (request : Request) (k : string) : JsVal :=
  default VUndefined (assoc k (params request)).

(** ** Helpers of the module [utils]

    The module [utils] is not among the sources; each helper the
    handlers import from it is modelled from what the spec says of it. *)

(** Modelled from the spec: [isRead] of [utils] is missing; the read
    verb is GET, in any letter case as for the record class. *)
Definition isRead (m : string) : bool := String.eqb (toLowerCase m) "get".

(** Modelled from the spec: [isCreate] of [utils] is missing; the create
    verb is POST. *)
Definition isCreate (m : string) : bool := String.eqb (toLowerCase m) "post".

(** Modelled from the spec: [isUpdate] of [utils] is missing; the update
    verb is PUT. *)
Definition isUpdate (m : string) : bool := String.eqb (toLowerCase m) "put".

(** Modelled from the spec: [isDelete] of [utils] is missing; the delete
    verb is DELETE. *)
Definition isDelete (m : string) : bool := String.eqb (toLowerCase m) "delete".

(** Modelled from the spec: [isDisabled] of [utils] is missing; a route
    marks auditing disabled by its [disabled] flag. *)
Definition isDisabled (a : RouteAuditConfig) : bool := disabled a.

(** Modelled from the spec: [isLoggedIn] of [utils] is missing; a user
    is logged in when a username is present. *)
Definition isLoggedIn (username : JsVal) : bool := negb (nullish username).

(** Modelled from the spec: [getUser] of [utils] is missing; the
    username is read from the session under the configured attribute. *)
Definition getUser (request : Request) (attribute : string) : JsVal :=
  match credentials request with
  | VObj fields => default VUndefined (assoc attribute fields)
  | _ => VNull
  end.

(** Modelled from the spec: [toEndpoint] of [utils] is missing; a key is
    a verb with a path, and the canonical read endpoint uses the route's
    [getPath] when it has one. *)
Definition toEndpoint (m path : string) (getPath : option string) : string :=
  m +:+ ":" +:+ default path getPath.

(** Modelled from the spec: [isSuccessfulResponse] of [utils] is
    missing; a successful response is any 2xx status code. *)
Definition isSuccessfulResponse (code : JsVal) : bool :=
  match code with
  | VNum n => (200 <=? n) && (n <=? 299)
  | _ => false
  end.

(** Modelled from the spec: [isStream] of [utils] is missing; it tells a
    stream that cannot be materialized from a concrete object. *)
Definition isStream (v : JsVal) : bool :=
  match v with
  | VStream => true
  | _ => false
  end.

(** Modelled from the spec: [clone] of [utils] is missing; the copy of a
    value is that value. *)
Definition clone (v : JsVal) : JsVal := v.

(** Modelled from the spec: [gotResponseData] of [utils] is missing; the
    response body is preferred when there is one. *)
Definition gotResponseData (v : JsVal) : bool := negb (nullish v).

(** Modelled from the spec: [shouldAuditRequest] of [utils] is missing;
    a record is published unless the request is a read that the plugin
    injected itself or reads are not audited. *)
Definition shouldAuditRequest (m : string) (auditGet : bool) (injected : JsVal) : bool :=
  negb (isRead m && (negb auditGet || negb (nullish injected))).

(** One side of [removeProps]: an object loses the listed keys, any
    other value is left as it is. *)
Definition withoutProps (props : list string) (v : JsVal) : JsVal :=
  match v with
  | VObj fields => VObj (deleteKeys props fields)
  | _ => v
  end.

(** Modelled from the spec: [removeProps] of [utils] is missing; it
    removes the skip-listed fields from both objects, in place.  The
    pair returned here is what the two variables hold afterwards. *)
Definition removeProps (left right : JsVal) (props : option (list string))
  : JsVal * JsVal :=
  match props with
  | Some ps => (withoutProps ps left, withoutProps ps right)
  | None => (left, right)
  end.

(** What the handlers use and the core does not define: the platform's
    [JSON.parse] ([None] for a [SyntaxError]), the platform's Unicode
    upper-casing [String.prototype.toUpperCase], consulted for text
    outside ASCII, and the two entity resolvers [getEntity] and
    [getEntityId] of [utils], which are missing from the sources and of
    which the spec fixes only the interface; they are parameters of
    everything below. *)
Class Host : Type := mkHost {
  JSON_parse : string -> option JsVal;
  String_toUpperCase : string -> string;
  getEntity : option string -> string -> string;
  getEntityId : option (list string) -> JsVal -> JsVal -> JsVal
}.

(** [s.toUpperCase()]: on ASCII text the letters [a] to [z] become [A]
    to [Z] and every other character stays; on any other text the
    result is the platform's. *)
Definition toUpperCase `{Host} (s : string) : string :=
  if isAscii s then mapString toUpperAscii s else String_toUpperCase s.

Section Handlers.
Context {host : Host}.
Variable cfg : Config.

(** Modelled from the spec: [createMutation] of [utils] is missing; it
    builds a Mutation record tagged with the client id, and as no call
    passes an action, the action is left to the record class. *)
Definition createMutation (m : string) (ent : string) (eid username : JsVal)
    (orig new : JsVal) : AuditRecord :=
  Mutation (AuditMutation.new
    {| AuditMutation.method := m;
       AuditMutation.action := None;
       AuditMutation.entity := ent;
       AuditMutation.entityId := eid;
       AuditMutation.username := username;
       AuditMutation.outcome := None;
       AuditMutation.application := clientId cfg;
       AuditMutation.originalValues := orig;
       AuditMutation.newValues := new |}).

(** Modelled from the spec: [createAction] of [utils] is missing; it
    builds an Action record tagged with the client id.  The spec gives
    an Action record the type ACTION; the [type] property that the
    override passes next to [action] has no place in it. *)
Definition createAction (ent : string) (eid username data : JsVal)
    (act : option string) : AuditRecord :=
  Action (AuditAction.new
    {| AuditAction.type := ACTION;
       AuditAction.entity := ent;
       AuditAction.entityId := eid;
       AuditAction.action := act;
       AuditAction.username := username;
       AuditAction.data := data;
       AuditAction.outcome := None;
       AuditAction.application := clientId cfg |}).

Definition parseJSON (data : string) : Audit JsVal :=
  match JSON_parse data with
  | Some v => ret v
  | None => throw "Unexpected token in JSON"
  end.

(** [handleError(request, error)]. *)
Definition handleError (message : string) : list Event :=
  (if showErrorsOnStdErr cfg
   then [EvStdErr ("[" +:+ pluginName +:+ "] =======> ERROR: " +:+ message)]
   else [])
  ++ [EvRequestLog message].

(** [emitAuditEvent(rec, routeEndpoint)]. *)
Definition emitAuditEvent (rec : option AuditRecord) (routeEndpoint : string)
  : Audit unit :=
  match rec with
  | Some r =>
      tell (EvEmit (emitEventName cfg) r) ;;;
      pendingDelete routeEndpoint
  | None =>
      throw ("Cannot audit null audit record for endpoint: " +:+ routeEndpoint)
  end.

(** [fetchValues(request)]: the injected GET on the request's own
    path.  [fetched] is the payload the server answers with. *)
Definition fetchValues (request : Request) (fetched : string) : Audit string :=
  tell (EvFetch (pathname request)) ;;; ret fetched.

(** The classifier shared by both handlers: [true] when the request is
    to be skipped. *)
Definition skipAudit (request : Request) : bool :=
  isDisabled (auditing request)
  || negb (isLoggedIn (getUser request (sidUsernameAttribute cfg)))
  || negb (isAuditable cfg (pathname request) (method request)).

(** [removeProps], [diffFunc] and [createMutation] in a row, as the
    UPDATE branch of each handler has them: the skip-listed fields leave
    both objects, the configured function diffs what is left, and the
    record takes its id from the new values. *)
Definition diffedMutation (request : Request) (id oldVals newVals : JsVal)
    (skip : option (list string)) : AuditRecord :=
  let a := auditing request in
  let '(oldVals', newVals') := removeProps oldVals newVals skip in
  let '(originalValues, newValues) := diffFunc cfg oldVals' newVals' in
  createMutation (method request)
    (getEntity (entity a) (pathname request))
    (getEntityId (entityKeys a) id newVals')
    (getUser request (sidUsernameAttribute cfg))
    originalValues newValues.

(** *** The [try] block of [onPreHandler] *)
Definition preHandlerBody (request : Request) (fetched : string) : Audit unit :=
  let a := auditing request in
  let idParam' := default ID_PARAM_DEFAULT (idParam a) in
  let skipDiff' := default [] (skipDiff a) in
  let username := getUser request (sidUsernameAttribute cfg) in
  if skipAudit request || optTruthy (action a) then returnEarly h_continue
  else
    let id := paramOf request idParam' in
    let getEndpoint := toEndpoint "get" (pathname request) (getPath a) in
    let routeEndpoint := toEndpoint (method request) (pathname request) None in
    if isUpdate (method request) then
      let isProxy := isStream (payload request) in
      let newVals := if isProxy then VNull else clone (payload request) in
      let! cached :=
        (if negb (disableCache cfg) then cacheGet getEndpoint else ret VNull) in
      let! oldVals :=
        (if nullish cached
         then let! data := fetchValues request fetched in parseJSON data
         else cacheDelete getEndpoint ;;; ret cached) in
      if strictNull oldVals
      then throw ("Cannot get data before update on " +:+ routeEndpoint)
      else if isProxy
      then cacheSet getEndpoint oldVals ;;; returnEarly h_continue
      else
        pendingSet routeEndpoint
          (diffedMutation request id oldVals newVals (Some skipDiff'))
    else if isDelete (method request) then
      let! data := fetchValues request fetched in
      let originalValues := VStr data in
      let rec :=
        createMutation (method request)
          (getEntity (entity a) (pathname request))
          (getEntityId (entityKeys a) id originalValues)
          username originalValues VUndefined in
      pendingSet routeEndpoint rec
    else ret tt.

(** The [try]/[catch] and the final [return h.continue], shared in
    shape by the two handlers. *)
Definition guarded (body : Audit unit) : Stores -> Stores * list Event * ExtResult :=
  fun st =>
    match body st with
    | (st', ev, Normal _) => (st', ev, h_continue)
    | (st', ev, Returned r) => (st', ev, r)
    | (st', ev, Thrown e) => (st', ev ++ handleError e, h_continue)
    end.

Definition onPreHandler (request : Request) (fetched : string)
  : Stores -> Stores * list Event * ExtResult :=
  guarded (preHandlerBody request fetched).

(** *** The [try] block of [onPreResponse] *)

(** The first [if]: the action override for POST and PUT. *)
Definition actionOverride (request : Request) : Audit (option AuditRecord) :=
  let a := auditing request in
  let idParam' := default ID_PARAM_DEFAULT (idParam a) in
  let username := getUser request (sidUsernameAttribute cfg) in
  if optTruthy (action a)
     && (isUpdate (method request) || isCreate (method request))
     && isSuccessfulResponse (statusCode (response request))
  then
    let! id :=
      (if truthy (paramOf request idParam') then ret (paramOf request idParam')
       else propOf (payload request) idParam') in
    ret (Some (createAction
                 (getEntity (entity a) (pathname request))
                 (getEntityId (entityKeys a) id (payload request))
                 username (payload request) (action a)))
  else ret None.

(** The [if]/[else if] chain that follows it; [rec] is the value the
    first [if] left in the variable. *)
Definition byVerb (request : Request) (fetched : string)
    (rec : option AuditRecord) : Audit (option AuditRecord) :=
  let a := auditing request in
  let idParam' := default ID_PARAM_DEFAULT (idParam a) in
  let username := getUser request (sidUsernameAttribute cfg) in
  let src := source (response request) in
  let ok := isSuccessfulResponse (statusCode (response request)) in
  let routeEndpoint := toEndpoint (method request) (pathname request) None in
  let getEndpoint := toEndpoint "get" (pathname request) (getPath a) in
  if isRead (method request) && ok && nullish (injected request) then
    let id := paramOf request idParam' in
    (if truthy id && negb (disableCache cfg) && negb (isStream src)
     then cacheSet getEndpoint src else ret tt) ;;;
    ret (Some (createAction
                 (getEntity (entity a) (pathname request))
                 (getEntityId (entityKeys a) id VUndefined)
                 username (query request)
                 (if optTruthy (action a)
                  then option_map toUpperCase (action a)
                  else Some SEARCH)))
  else if isUpdate (method request) && ok then
    let id := paramOf request idParam' in
    let! oldVals := cacheGet getEndpoint in
    if isStream src then
      let! data := fetchValues request fetched in
      let! newVals := parseJSON data in
      let rec := diffedMutation request id oldVals newVals (skipDiff a) in
      cacheDelete getEndpoint ;;;
      ret (Some rec)
    else pendingGet routeEndpoint
  else if isDelete (method request) && ok then
    pendingGet routeEndpoint
  else if isCreate (method request) && ok then
    let! id :=
      (if gotResponseData src then propOf src idParam'
       else propOf (payload request) idParam') in
    let data := if gotResponseData src then src else payload request in
    ret (Some (createMutation (method request)
                 (getEntity (entity a) (pathname request))
                 (getEntityId (entityKeys a) id data)
                 username VUndefined data))
  else ret rec.

Definition preResponseBody (request : Request) (fetched : string) : Audit unit :=
  if skipAudit request then returnEarly h_continue
  else
    let routeEndpoint := toEndpoint (method request) (pathname request) None in
    let! rec0 := actionOverride request in
    let! rec := byVerb request fetched rec0 in
    if shouldAuditRequest (method request) (auditGetRequests cfg) (injected request)
    then emitAuditEvent rec routeEndpoint
    else ret tt.

Definition onPreResponse (request : Request) (fetched : string)
  : Stores -> Stores * list Event * ExtResult :=
  guarded (preResponseBody request fetched).

(** The body of the [setInterval] callback. *)
Definition sweep (st : Stores) : Stores :=
  {| oldValsCache := ∅; auditValues := auditValues st |}.

(** *** Runs

    The server calls the two handlers and the timer in some order; a
    step names the call, the request and, where the handler may issue
    its internal read, what the server answers to it. *)
Inductive Step : Type :=
| PreHandler (request : Request) (fetched : string)
| PreResponse (request : Request) (fetched : string)
| Sweep.

Definition step (s : Step) (st : Stores) : Stores * list Event :=
  match s with
  | PreHandler request fetched =>
      let '(st', ev, _) := onPreHandler request fetched st in (st', ev)
  | PreResponse request fetched =>
      let '(st', ev, _) := onPreResponse request fetched st in (st', ev)
  | Sweep => (sweep st, [EvCacheClear])
  end.

Fixpoint run (steps : list Step) (st : Stores) : Stores * list Event :=
  match steps with
  | [] => (st, [])
  | s :: rest =>
      let '(st1, ev1) := step s st in
      let '(st2, ev2) := run rest st1 in
      (st2, ev1 ++ ev2)
  end.

(** The records published on the audit channel, in order. *)
Definition emitted (ev : list Event) : list AuditRecord :=
  omap (fun e => match e with EvEmit _ r => Some r | _ => None end) ev.

(** What a listener table delivers for a log: every record emitted on
    a channel goes to each subscriber of that channel. *)
Definition delivered (listeners : list (string * Subscriber)) (ev : list Event)
  : list (Subscriber * AuditRecord) :=
  flat_map (fun e =>
    match e with
    | EvEmit channel r =>
        omap (fun l => if String.eqb (fst l) channel then Some (snd l, r) else None)
             listeners
    | _ => []
    end) ev.
End Handlers.

(** ** A concrete host and sample traffic *)

Definition dq : string := String (ascii_of_nat 34) EmptyString.

(** The JSON text [{"name":"A"}]. *)
Definition userA_json : string :=
  "{" +:+ dq +:+ "name" +:+ dq +:+ ":" +:+ dq +:+ "A" +:+ dq +:+ "}".

Definition userA : JsVal := VObj [("name", VStr "A")].
Definition userB : JsVal := VObj [("name", VStr "B")].

(** The pieces of a path between slashes. *)
Fixpoint splitSlash (s acc : string) : list string :=
  match s with
  | EmptyString => [acc]
  | String c rest =>
      if Ascii.eqb c "/"%char then acc :: splitSlash rest EmptyString
      else splitSlash rest (acc +:+ String c EmptyString)
  end.

(** Upper-casing of UTF-8 text over ASCII and the Latin-1 letters, as
    Unicode has it: the two-byte letters [à] to [þ] (lead byte 195,
    second byte 160 to 190, the division sign 183 apart) lose 32 from
    their second byte, [ß] becomes [SS], [ÿ] becomes [Ÿ] (197, 184) and
    the micro sign (194, 181) becomes the Greek capital mu (206, 156). *)
Fixpoint upperLatin1 (s : string) : string :=
  match s with
  | EmptyString => EmptyString
  | String c tl =>
      match tl with
      | EmptyString => String (toUpperAscii c) EmptyString
      | String d rest =>
          let lead := nat_of_ascii c in
          let n := nat_of_ascii d in
          if (lead =? 195)%nat && (160 <=? n)%nat && (n <=? 190)%nat
             && negb (n =? 183)%nat
          then String c (String (ascii_of_nat (n - 32)) (upperLatin1 rest))
          else if (lead =? 195)%nat && (n =? 159)%nat
          then String "S" (String "S" (upperLatin1 rest))
          else if (lead =? 195)%nat && (n =? 191)%nat
          then String (ascii_of_nat 197) (String (ascii_of_nat 184) (upperLatin1 rest))
          else if (lead =? 194)%nat && (n =? 181)%nat
          then String (ascii_of_nat 206) (String (ascii_of_nat 156) (upperLatin1 rest))
          else String (toUpperAscii c) (upperLatin1 tl)
      end
  end.

(** A host for the examples: [JSON.parse] on the three texts the
    examples use, upper-casing over ASCII and the Latin-1 letters, the
    entity taken from the route or from the path segment after [/api/],
    the id taken from the listed key fields of the data when there are
    any and from the id parameter otherwise. *)
Definition sampleHost : Host :=
  {| JSON_parse := fun s =>
       if String.eqb s userA_json then Some userA
       else if String.eqb s "null" then Some VNull
       else if String.eqb s "{}" then Some (VObj [])
       else None;
     String_toUpperCase := upperLatin1;
     getEntity := fun e path =>
       match e with
       | Some name => name
       | None => default EmptyString (splitSlash path EmptyString !! 2%nat)
       end;
     getEntityId := fun keys id data =>
       match keys, data with
       | Some ks, VObj fields =>
           match filter (fun kv => existsb (String.eqb (fst kv)) ks) fields with
           | [] => id
           | picked => VObj picked
           end
       | _, _ => id
       end |}.

Definition defaultConfig : Config := readOptions ∅.

Definition ok200 (src : JsVal) : Response := {| source := src; statusCode := VNum 200 |}.

Definition session : JsVal := VObj [("userName", VStr "alice")].

(** [PUT /api/users/42] with payload [{name:"B"}], answered 200. *)
Definition putUser : Request :=
  {| method := "put"; pathname := "/api/users/42"; injected := VUndefined;
     query := VObj []; params := [("id", VStr "42")]; payload := userB;
     credentials := session; auditing := noAuditing;
     response := ok200 userB |}.

(** [DELETE /api/users/42], answered 204. *)
Definition deleteUser : Request :=
  {| method := "delete"; pathname := "/api/users/42"; injected := VUndefined;
     query := VObj []; params := [("id", VStr "42")]; payload := VNull;
     credentials := session; auditing := noAuditing;
     response := {| source := VNull; statusCode := VNum 204 |} |}.

(** [GET /api/users/42], answered 200 with [{name:"A"}]. *)
Definition getUser42 : Request :=
  {| method := "get"; pathname := "/api/users/42"; injected := VUndefined;
     query := VObj []; params := [("id", VStr "42")]; payload := VUndefined;
     credentials := session; auditing := noAuditing;
     response := ok200 userA |}.

(** [POST /api/users] with payload [{name:"B"}], answered 200. *)
Definition postUser : Request :=
  {| method := "post"; pathname := "/api/users"; injected := VUndefined;
     query := VObj []; params := []; payload := userB;
     credentials := session; auditing := noAuditing;
     response := ok200 userB |}.

Definition withAuditing (a : RouteAuditConfig) (r : Request) : Request :=
  {| method := method r; pathname := pathname r; injected := injected r;
     query := query r; params := params r; payload := payload r;
     credentials := credentials r; auditing := a; response := response r |}.

Definition withResponse (resp : Response) (r : Request) : Request :=
  {| method := method r; pathname := pathname r; injected := injected r;
     query := query r; params := params r; payload := payload r;
     credentials := credentials r; auditing := auditing r; response := resp |}.

Definition withCredentials (c : JsVal) (r : Request) : Request :=
  {| method := method r; pathname := pathname r; injected := injected r;
     query := query r; params := params r; payload := payload r;
     credentials := c; auditing := auditing r; response := response r |}.

(** A route that declares the custom action [approve]. *)
Definition approveRoute : RouteAuditConfig :=
  {| disabled := false; action := Some "approve"; entity := None;
     entityKeys := None; idParam := None; getPath := None; getPathId := None;
     skipDiff := None |}.

(** The stores after [GET /api/users/42] has been answered with
    [{name:"A"}]. *)
Definition cachedA : Stores :=
  {| oldValsCache := {["get:/api/users/42" := userA]}; auditValues := ∅ |}.

(** A configuration whose [diffFunc] hands both sides back unchanged. *)
Definition passThroughConfig : Config :=
  readOptions {["diffFunc" := ODiff (fun o n => (o, n))]}.

(** A configuration with the cache disabled. *)
Definition noCacheConfig : Config :=
  readOptions {["disableCache" := OBool true]}.

(** [PUT /api/users/42] proxied upstream: payload and response are
    streams. *)
Definition proxiedPut : Request :=
  {| method := "put"; pathname := "/api/users/42"; injected := VUndefined;
     query := VObj []; params := [("id", VStr "42")]; payload := VStream;
     credentials := session; auditing := noAuditing;
     response := ok200 VStream |}.

(** An input of the Mutation record class with only the verb and the
    action left open. *)
Definition mutationInput (m : string) (a : option string) : AuditMutation.input :=
  {| AuditMutation.method := m; AuditMutation.action := a;
     AuditMutation.entity := "users"; AuditMutation.entityId := VStr "42";
     AuditMutation.username := VStr "alice"; AuditMutation.outcome := None;
     AuditMutation.application := "client-app";
     AuditMutation.originalValues := VUndefined;
     AuditMutation.newValues := VUndefined |}.

(** ** Predicates on computations and logs *)

(** [onlyContinues m]: when [m] leaves by [return], it returns
    [h.continue]. *)
Definition onlyContinues {A} (m : Audit A) : Prop :=
  forall st st' ev r, m st = (st', ev, Returned r) -> r = h_continue.

(** [keeps I E m]: started in stores that satisfy [I], the computation
    [m] ends, however it completes, in stores that satisfy [I], and
    every event it logs satisfies [E]. *)
Definition keeps {A} (I : Stores -> Prop) (E : Event -> Prop) (m : Audit A) : Prop :=
  forall st st' ev c, I st -> m st = (st', ev, c) -> I st' ∧ Forall E ev.

(** A record of the Mutation variant. *)
Definition isMutation (r : AuditRecord) : Prop :=
  match r with
  | Mutation _ => True
  | Action _ => False
  end.

(** The pending store holds Mutation records only. *)
Definition pendingMutations (st : Stores) : Prop :=
  map_Forall (fun _ r => isMutation r) (auditValues st).

(** An event other than the publication of a record. *)
Definition notEmit (e : Event) : Prop :=
  match e with
  | EvEmit _ _ => False
  | _ => True
  end.

(** An event that neither writes the cache nor reads it with a hit. *)
Definition quietCache (e : Event) : Prop :=
  match e with
  | EvCacheSet _ _ => False
  | EvCacheGet _ (Some _) => False
  | _ => True
  end.

(** Nothing is cached. *)
Definition cacheEmpty (st : Stores) : Prop := oldValsCache st = ∅.

(** A pre-handler call for an UPDATE whose body is a stream. *)
Definition streamedUpdate (s : Step) : bool :=
  match s with
  | PreHandler request _ => isUpdate (method request) && isStream (payload request)
  | _ => false
  end.

(** What an event does to the cache. *)
Definition replayEvent (e : Event) (c : gmap string JsVal) : gmap string JsVal :=
  match e with
  | EvCacheSet k v => <[k := v]> c
  | EvCacheDelete k => delete k c
  | EvCacheClear => ∅
  | _ => c
  end.

(** The cache after the events of a log, in order. *)
Fixpoint replay (ev : list Event) (c : gmap string JsVal) : gmap string JsVal :=
  match ev with
  | [] => c
  | e :: rest => replay rest (replayEvent e c)
  end.

(** [logged m]: the cache [m] leaves is the cache it found, changed as
    its events say. *)
Definition logged {A} (m : Audit A) : Prop :=
  forall st st' ev c,
    m st = (st', ev, c) -> oldValsCache st' = replay ev (oldValsCache st).

(** ** Further sample traffic and predicates *)

(** The GET that [fetchValues] injects for [/api/users/42]. *)
Definition injectedGet : Request :=
  {| method := "get"; pathname := "/api/users/42"; injected := VStr "true";
     query := VObj []; params := [("id", VStr "42")]; payload := VUndefined;
     credentials := session; auditing := noAuditing;
     response := ok200 userA |}.

(** [GET /api/users?name=A], a search with no id parameter. *)
Definition searchUsers : Request :=
  {| method := "get"; pathname := "/api/users"; injected := VUndefined;
     query := VObj [("name", VStr "A")]; params := []; payload := VUndefined;
     credentials := session; auditing := noAuditing;
     response := ok200 (VObj [("total", VNum 1)]) |}.

(** [POST /api/users] with neither a request body nor a response body. *)
Definition emptyPost : Request :=
  {| method := "post"; pathname := "/api/users"; injected := VUndefined;
     query := VObj []; params := []; payload := VNull;
     credentials := session; auditing := noAuditing;
     response := {| source := VNull; statusCode := VNum 204 |} |}.


(** The UTF-8 texts [café] and [CAFÉ]: the last letter is two bytes,
    195 then 169 for [é] and 195 then 137 for [É]. *)
Definition cafe_lower : string :=
  "caf" +:+ String (ascii_of_nat 195) (String (ascii_of_nat 169) EmptyString).

Definition cafe_upper : string :=
  "CAF" +:+ String (ascii_of_nat 195) (String (ascii_of_nat 137) EmptyString).

(** A route whose custom action is [café]. *)
Definition cafeRoute : RouteAuditConfig :=
  {| disabled := false; action := Some cafe_lower; entity := None;
     entityKeys := None; idParam := None; getPath := None; getPathId := None;
     skipDiff := None |}.

(** A null body stored under [get:/api/users/42]. *)
Definition cachedNull : Stores :=
  {| oldValsCache := {["get:/api/users/42" := VNull]}; auditValues := ∅ |}.

(** A configuration that does not audit reads. *)
Definition noGetAuditConfig : Config :=
  readOptions {["auditGetRequests" := OBool false]}.

(** A configuration that keeps errors off the standard error stream. *)
Definition silentConfig : Config :=
  readOptions {["showErrorsOnStdErr" := OBool false]}.

(** A line on the standard error stream; a message in the request log. *)
Definition isStdErr (e : Event) : bool :=
  match e with
  | EvStdErr _ => true
  | _ => false
  end.

Definition isRequestLog (e : Event) : bool :=
  match e with
  | EvRequestLog _ => true
  | _ => false
  end.

(** An event of a handler body proper: neither of the two that
    [handleError] produces. *)
Definition notErrorEvent (e : Event) : Prop :=
  isStdErr e = false ∧ isRequestLog e = false.

(** The application a record is tagged with, and its outcome. *)
Definition applicationOf (r : AuditRecord) : string :=
  match r with
  | Mutation m => AuditMutation.rec_application m
  | Action a => AuditAction.rec_application a
  end.

Definition outcomeOf (r : AuditRecord) : AUDIT_OUTCOME :=
  match r with
  | Mutation m => AuditMutation.rec_outcome m
  | Action a => AuditAction.rec_outcome a
  end.

(** A record as this plugin instance builds them: tagged with the
    configured client id, outcome SUCCESS. *)
Definition ownRecord (cfg : Config) (r : AuditRecord) : Prop :=
  applicationOf r = clientId cfg ∧ outcomeOf r = SUCCESS.

(** The stores agree with [st] outside one pending key and one cache
    key. *)
Definition agreesOutside (pendingKey cacheKey : string) (st s : Stores) : Prop :=
  (forall k, k <> pendingKey -> auditValues s !! k = auditValues st !! k)
  ∧ (forall k, k <> cacheKey -> oldValsCache s !! k = oldValsCache st !! k).

(** How many events of a log satisfy a test. *)
Definition countEvents (p : Event -> bool) (ev : list Event) : nat :=
  length (List.filter p ev).

(** A call on the cache. *)
Definition isCacheEvent (e : Event) : bool :=
  match e with
  | EvCacheGet _ _ | EvCacheSet _ _ | EvCacheDelete _ | EvCacheClear => true
  | _ => false
  end.

(** Every pending record is one of this plugin instance's own. *)
Definition pendingOwn (cfg : Config) (st : Stores) : Prop :=
  map_Forall (fun _ r => ownRecord cfg r) (auditValues st).

(** An event other than an internal read. *)
Definition notFetch (e : Event) : Prop :=
  match e with
  | EvFetch _ => False
  | _ => True
  end.

(** An internal read, if any, goes to the given path. *)
Definition fetchesOnly (path : string) (e : Event) : Prop :=
  match e with
  | EvFetch url => url = path
  | _ => True
  end.

(** A record, if any, is published on the given channel. *)
Definition emitsOn (channel : string) (e : Event) : Prop :=
  match e with
  | EvEmit c _ => c = channel
  | _ => True
  end.

(** ** Properties *)

(** *** The classifier *)

Lemma skipAudit_true `{host : Host} (cfg : Config) (request : Request) :
  disabled (auditing request) = true
  ∨ nullish (getUser request (sidUsernameAttribute cfg)) = true
  ∨ isAuditable cfg (pathname request) (method request) = false ->
  skipAudit cfg request = true.
Proof.
  unfold skipAudit, isDisabled, isLoggedIn.
  intros [H | [H | H]]; rewrite H; cbn;
    repeat (rewrite ?orb_true_r, ?orb_true_l); reflexivity.
Qed.

Lemma onPreHandler_skipped `{host : Host} cfg request fetched st :
  skipAudit cfg request = true ->
  onPreHandler cfg request fetched st = (st, [], h_continue).
Proof.
  intros H. unfold onPreHandler, guarded, preHandlerBody.
  rewrite H. reflexivity.
Qed.

Lemma onPreResponse_skipped `{host : Host} cfg request fetched st :
  skipAudit cfg request = true ->
  onPreResponse cfg request fetched st = (st, [], h_continue).
Proof.
  intros H. unfold onPreResponse, guarded, preResponseBody.
  rewrite H. reflexivity.
Qed.

(** C8.  A request of any verb whose path fails [isAuditable], or for
    which the session holds no username, or whose route has auditing
    disabled, goes through both handlers without a record being
    emitted: each handler returns [h.continue] at once, leaves both
    stores as they were and logs nothing. *)
Theorem skipped_request_emits_nothing `{host : Host}
    (cfg : Config) (request : Request) (fetched1 fetched2 : string) (st : Stores) :
  disabled (auditing request) = true
  ∨ nullish (getUser request (sidUsernameAttribute cfg)) = true
  ∨ isAuditable cfg (pathname request) (method request) = false ->
  onPreHandler cfg request fetched1 st = (st, [], h_continue)
  ∧ onPreResponse cfg request fetched2 st = (st, [], h_continue)
  ∧ emitted (snd (run cfg [PreHandler request fetched1;
                           PreResponse request fetched2] st)) = [].
Proof.
  intros H. apply skipAudit_true in H.
  pose proof (onPreHandler_skipped cfg request fetched1 st H) as E1.
  pose proof (onPreResponse_skipped cfg request fetched2 st H) as E2.
  repeat split; try assumption.
  cbn [run step]. rewrite E1, E2. reflexivity.
Qed.

(** The three reasons to skip, on GET, POST, PUT and DELETE. *)
Lemma skipped_request_emits_nothing_witness :
  Forall (fun request =>
    emitted (snd (run (host := sampleHost) defaultConfig
                    [PreHandler request userA_json;
                     PreResponse request userA_json] emptyStores)) = [])
    [withCredentials VNull getUser42;
     withCredentials VNull postUser;
     withAuditing
       {| disabled := true; action := None; entity := None; entityKeys := None;
          idParam := None; getPath := None; getPathId := None; skipDiff := None |}
       putUser;
     {| method := "delete"; pathname := "/health"; injected := VUndefined;
        query := VObj []; params := []; payload := VNull;
        credentials := session; auditing := noAuditing;
        response := ok200 VNull |}].
Proof.
  repeat apply List.Forall_cons; [ | | | | apply List.Forall_nil].
  - apply (skipped_request_emits_nothing (host := sampleHost) defaultConfig
             (withCredentials VNull getUser42) userA_json userA_json emptyStores).
    right; left; reflexivity.
  - apply (skipped_request_emits_nothing (host := sampleHost) defaultConfig
             (withCredentials VNull postUser) userA_json userA_json emptyStores).
    right; left; reflexivity.
  - apply (skipped_request_emits_nothing (host := sampleHost) defaultConfig
             _ userA_json userA_json emptyStores).
    left; reflexivity.
  - apply (skipped_request_emits_nothing (host := sampleHost) defaultConfig
             _ userA_json userA_json emptyStores).
    right; right; reflexivity.
Defined.

(** *** Early returns

    A handler body leaves its [try] block by [return] only with
    [h.continue]. *)

Lemma onlyContinues_ret {A} (a : A) : onlyContinues (ret a).
Proof. intros st st' ev r H. discriminate H. Qed.

Lemma onlyContinues_throw {A} e : onlyContinues (@throw A e).
Proof. intros st st' ev r H. discriminate H. Qed.

Lemma onlyContinues_returnEarly {A} : onlyContinues (@returnEarly A h_continue).
Proof. intros st st' ev r H. injection H as _ _ <-. reflexivity. Qed.

Lemma onlyContinues_bind {A B} (m : Audit A) (k : A -> Audit B) :
  onlyContinues m -> (forall a, onlyContinues (k a)) -> onlyContinues (bind m k).
Proof.
  intros Hm Hk st st' ev r. unfold bind.
  destruct (m st) as [[st1 ev1] [a | r1 | e]] eqn:E.
  - destruct (k a st1) as [[st2 ev2] c] eqn:E2.
    intros H. injection H as _ _ ->. exact (Hk a _ _ _ _ E2).
  - intros H. injection H as _ _ <-. exact (Hm _ _ _ _ E).
  - discriminate.
Qed.

Lemma onlyContinues_tell e : onlyContinues (tell e).
Proof. intros st st' ev r H. discriminate H. Qed.

Lemma onlyContinues_propOf o k : onlyContinues (propOf o k).
Proof.
  unfold propOf. destruct (getProp o k);
    [apply onlyContinues_ret | apply onlyContinues_throw].
Qed.

Lemma onlyContinues_cacheGet k : onlyContinues (cacheGet k).
Proof. intros st st' ev r H. discriminate H. Qed.

Lemma onlyContinues_cacheSet k v : onlyContinues (cacheSet k v).
Proof. intros st st' ev r H. discriminate H. Qed.

Lemma onlyContinues_cacheDelete k : onlyContinues (cacheDelete k).
Proof. intros st st' ev r H. discriminate H. Qed.

Lemma onlyContinues_pendingGet k : onlyContinues (pendingGet k).
Proof. intros st st' ev r H. discriminate H. Qed.

Lemma onlyContinues_pendingSet k v : onlyContinues (pendingSet k v).
Proof. intros st st' ev r H. discriminate H. Qed.

Lemma onlyContinues_pendingDelete k : onlyContinues (pendingDelete k).
Proof. intros st st' ev r H. discriminate H. Qed.

Lemma onlyContinues_parseJSON `{host : Host} data : onlyContinues (parseJSON data).
Proof.
  unfold parseJSON. destruct (JSON_parse data);
    [apply onlyContinues_ret | apply onlyContinues_throw].
Qed.

Lemma onlyContinues_fetchValues request fetched :
  onlyContinues (fetchValues request fetched).
Proof.
  apply onlyContinues_bind; [apply onlyContinues_tell |].
  intros _. apply onlyContinues_ret.
Qed.

Lemma onlyContinues_emitAuditEvent cfg rec k :
  onlyContinues (emitAuditEvent cfg rec k).
Proof.
  destruct rec; cbn [emitAuditEvent]; [| apply onlyContinues_throw].
  apply onlyContinues_bind; [apply onlyContinues_tell |].
  intros _. apply onlyContinues_pendingDelete.
Qed.

Create HintDb continues.
#[export] Hint Resolve onlyContinues_ret onlyContinues_throw
  onlyContinues_returnEarly onlyContinues_tell onlyContinues_propOf
  onlyContinues_cacheGet onlyContinues_cacheSet onlyContinues_cacheDelete
  onlyContinues_pendingGet onlyContinues_pendingSet onlyContinues_pendingDelete
  onlyContinues_parseJSON onlyContinues_fetchValues onlyContinues_emitAuditEvent
  : continues.

(** One layer of a handler body: a bind, a conditional or a pair
    pattern. *)
Ltac continues_step :=
  match goal with
  | |- onlyContinues (bind _ _) => apply onlyContinues_bind; [| intros ?]
  | |- onlyContinues (if ?b then _ else _) => destruct b
  | |- onlyContinues (let '(_, _) := ?p in _) => destruct p
  | |- onlyContinues _ => solve [auto with continues]
  end.

Lemma onlyContinues_preHandlerBody `{host : Host} cfg request fetched :
  onlyContinues (preHandlerBody cfg request fetched).
Proof. unfold preHandlerBody. cbv zeta. repeat continues_step. Qed.

Lemma onlyContinues_actionOverride `{host : Host} cfg request :
  onlyContinues (actionOverride cfg request).
Proof. unfold actionOverride. cbv zeta. repeat continues_step. Qed.

Lemma onlyContinues_byVerb `{host : Host} cfg request fetched rec :
  onlyContinues (byVerb cfg request fetched rec).
Proof. unfold byVerb. cbv zeta. repeat continues_step. Qed.

Lemma onlyContinues_preResponseBody `{host : Host} cfg request fetched :
  onlyContinues (preResponseBody cfg request fetched).
Proof.
  unfold preResponseBody. cbv zeta.
  destruct (skipAudit cfg request); [auto with continues |].
  apply onlyContinues_bind; [apply onlyContinues_actionOverride | intros rec0].
  apply onlyContinues_bind; [apply onlyContinues_byVerb | intros rec].
  repeat continues_step.
Qed.

Lemma guarded_continue cfg (body : Audit unit) st :
  onlyContinues body -> (guarded cfg body st).2 = h_continue.
Proof.
  intros H. unfold guarded.
  destruct (body st) as [[st' ev] [a | r | e]] eqn:E; cbn; try reflexivity.
  exact (H _ _ _ _ E).
Qed.

Lemma guarded_thrown cfg (body : Audit unit) st st' ev e :
  body st = (st', ev, Thrown e) ->
  guarded cfg body st = (st', ev ++ handleError cfg e, h_continue).
Proof. intros H. unfold guarded. rewrite H. reflexivity. Qed.

Lemma handleError_logs cfg e : EvRequestLog e ∈ handleError cfg e.
Proof. unfold handleError. apply elem_of_app. right. apply list_elem_of_singleton. reflexivity. Qed.

Lemma handleError_emits_nothing cfg e : emitted (handleError cfg e) = [].
Proof. unfold handleError. destruct (showErrorsOnStdErr cfg); reflexivity. Qed.

(** *** Errors stay inside the handlers *)

(** C6.  Whatever the request, the stores and the answer to the internal
    read: both extension handlers return [h.continue]; and when the
    audit logic of a handler raises an exception (with any message: a
    failed baseline fetch, a null record at emission or another error),
    the handler still returns [h.continue], keeps what was done before
    the exception and logs the message to the request log. *)
Theorem audit_errors_never_escape `{host : Host}
    (cfg : Config) (request : Request) (fetched : string) (st : Stores) :
  (onPreHandler cfg request fetched st).2 = h_continue
  ∧ (onPreResponse cfg request fetched st).2 = h_continue
  ∧ (forall st' ev e,
       preHandlerBody cfg request fetched st = (st', ev, Thrown e) ->
       onPreHandler cfg request fetched st = (st', ev ++ handleError cfg e, h_continue)
       ∧ EvRequestLog e ∈ handleError cfg e)
  ∧ (forall st' ev e,
       preResponseBody cfg request fetched st = (st', ev, Thrown e) ->
       onPreResponse cfg request fetched st = (st', ev ++ handleError cfg e, h_continue)
       ∧ EvRequestLog e ∈ handleError cfg e).
Proof.
  repeat split.
  - apply guarded_continue, onlyContinues_preHandlerBody.
  - apply guarded_continue, onlyContinues_preResponseBody.
  - apply guarded_thrown. assumption.
  - apply handleError_logs.
  - apply guarded_thrown. assumption.
  - apply handleError_logs.
Qed.

(** In the pre-handler a baseline that is not JSON and a baseline that
    is [null]; in the post-response handler a record that is [null] at
    emission. *)
Lemma audit_errors_never_escape_witness :
  onPreHandler (host := sampleHost) defaultConfig putUser "<html>" emptyStores
  = (emptyStores,
     [EvCacheGet "get:/api/users/42" None; EvFetch "/api/users/42"]
     ++ handleError defaultConfig "Unexpected token in JSON",
     h_continue)
  ∧ onPreHandler (host := sampleHost) defaultConfig putUser "null" emptyStores
    = (emptyStores,
       [EvCacheGet "get:/api/users/42" None; EvFetch "/api/users/42"]
       ++ handleError defaultConfig
            "Cannot get data before update on put:/api/users/42",
       h_continue)
  ∧ onPreResponse (host := sampleHost) defaultConfig
      (withResponse {| source := VUndefined; statusCode := VUndefined |} deleteUser)
      "<html>" emptyStores
    = (emptyStores,
       [] ++ handleError defaultConfig
               "Cannot audit null audit record for endpoint: delete:/api/users/42",
       h_continue).
Proof.
  split; [| split].
  - destruct (audit_errors_never_escape (host := sampleHost) defaultConfig
                putUser "<html>" emptyStores) as (_ & _ & H & _).
    apply (H emptyStores). reflexivity.
  - destruct (audit_errors_never_escape (host := sampleHost) defaultConfig
                putUser "null" emptyStores) as (_ & _ & H & _).
    apply (H emptyStores). reflexivity.
  - destruct (audit_errors_never_escape (host := sampleHost) defaultConfig
                (withResponse {| source := VUndefined; statusCode := VUndefined |}
                   deleteUser)
                "<html>" emptyStores) as (_ & _ & _ & H).
    apply (H emptyStores). reflexivity.
Defined.

(** *** Verbs *)

Lemma isUpdate_not_read m : isUpdate m = true -> isRead m = false.
Proof.
  unfold isUpdate, isRead. intros H. apply String.eqb_eq in H. rewrite H. reflexivity.
Qed.

Lemma isDelete_not_read m : isDelete m = true -> isRead m = false.
Proof.
  unfold isDelete, isRead. intros H. apply String.eqb_eq in H. rewrite H. reflexivity.
Qed.

Lemma isCreate_not_read m : isCreate m = true -> isRead m = false.
Proof.
  unfold isCreate, isRead. intros H. apply String.eqb_eq in H. rewrite H. reflexivity.
Qed.

Lemma isUpdate_not_delete m : isUpdate m = true -> isDelete m = false.
Proof.
  unfold isUpdate, isDelete. intros H. apply String.eqb_eq in H. rewrite H. reflexivity.
Qed.

Lemma isUpdate_not_create m : isUpdate m = true -> isCreate m = false.
Proof.
  unfold isUpdate, isCreate. intros H. apply String.eqb_eq in H. rewrite H. reflexivity.
Qed.

Lemma isDelete_not_update m : isDelete m = true -> isUpdate m = false.
Proof.
  unfold isUpdate, isDelete. intros H. apply String.eqb_eq in H. rewrite H. reflexivity.
Qed.

Lemma isDelete_not_create m : isDelete m = true -> isCreate m = false.
Proof.
  unfold isCreate, isDelete. intros H. apply String.eqb_eq in H. rewrite H. reflexivity.
Qed.

Lemma isCreate_not_update m : isCreate m = true -> isUpdate m = false.
Proof.
  unfold isCreate, isUpdate. intros H. apply String.eqb_eq in H. rewrite H. reflexivity.
Qed.

Lemma isCreate_not_delete m : isCreate m = true -> isDelete m = false.
Proof.
  unfold isCreate, isDelete. intros H. apply String.eqb_eq in H. rewrite H. reflexivity.
Qed.

Lemma shouldAudit_not_read m auditGet inj :
  isRead m = false -> shouldAuditRequest m auditGet inj = true.
Proof. unfold shouldAuditRequest. intros ->. reflexivity. Qed.

(** *** The internal read *)

(** X11.  The GET that [fetchValues] injects carries the header
    [injected]; when it comes through the two handlers it changes
    neither store and logs nothing, so the answer to it can be taken as
    given. *)
Lemma injected_read_is_inert `{host : Host} cfg request fetched st :
  isRead (method request) = true ->
  nullish (injected request) = false ->
  onPreHandler cfg request fetched st = (st, [], h_continue)
  ∧ onPreResponse cfg request fetched st = (st, [], h_continue).
Proof.
  intros Hread Hinj.
  assert (isUpdate (method request) = false) as Hupd.
  { destruct (isUpdate (method request)) eqn:E; [| reflexivity].
    rewrite (isUpdate_not_read _ E) in Hread. discriminate. }
  assert (isDelete (method request) = false) as Hdel.
  { destruct (isDelete (method request)) eqn:E; [| reflexivity].
    rewrite (isDelete_not_read _ E) in Hread. discriminate. }
  assert (isCreate (method request) = false) as Hcre.
  { destruct (isCreate (method request)) eqn:E; [| reflexivity].
    rewrite (isCreate_not_read _ E) in Hread. discriminate. }
  split.
  - unfold onPreHandler, guarded, preHandlerBody. cbv zeta.
    rewrite Hupd, Hdel. destruct (_ || _); reflexivity.
  - unfold onPreResponse, guarded, preResponseBody, actionOverride, byVerb,
      shouldAuditRequest. cbv zeta.
    rewrite Hupd, Hdel, Hcre, Hread, Hinj. cbn [orb andb negb].
    rewrite !andb_false_r, orb_true_r. cbn [andb negb].
    destruct (skipAudit cfg request); reflexivity.
Qed.

(** *** A response that is not 2xx *)

Lemma preResponse_unsuccessful `{host : Host} cfg request fetched st :
  skipAudit cfg request = false ->
  isRead (method request) = false ->
  isSuccessfulResponse (statusCode (response request)) = false ->
  onPreResponse cfg request fetched st
  = (st,
     handleError cfg ("Cannot audit null audit record for endpoint: "
                      +:+ toEndpoint (method request) (pathname request) None),
     h_continue).
Proof.
  intros Hpass Hread Hok.
  unfold onPreResponse, guarded, preResponseBody, actionOverride, byVerb.
  cbv zeta. rewrite Hpass, Hok, Hread.
  rewrite !andb_false_r. cbn [andb].
  rewrite (shouldAudit_not_read _ _ _ Hread).
  reflexivity.
Qed.

(** C10.  An UPDATE or DELETE that passes the classifier, has a record pending
    under its (verb, path) key and is answered with a status that is not
    2xx: the post-response handler emits nothing, raises the null-record
    error, which is caught and logged, and leaves the stores untouched,
    so the pending record is still there under the same key. *)
Theorem failed_response_keeps_pending `{host : Host}
    (cfg : Config) (request : Request) (fetched : string) (st : Stores)
    (rec : AuditRecord) :
  skipAudit cfg request = false ->
  isUpdate (method request) || isDelete (method request) = true ->
  isSuccessfulResponse (statusCode (response request)) = false ->
  auditValues st !! toEndpoint (method request) (pathname request) None = Some rec ->
  exists st' ev,
    onPreResponse cfg request fetched st = (st', ev, h_continue)
    ∧ emitted ev = []
    ∧ EvRequestLog ("Cannot audit null audit record for endpoint: "
                    +:+ toEndpoint (method request) (pathname request) None) ∈ ev
    ∧ auditValues st' !! toEndpoint (method request) (pathname request) None
      = Some rec
    ∧ st' = st.
Proof.
  intros Hpass Hverb Hok Hpending.
  assert (isRead (method request) = false) as Hread.
  { apply orb_true_iff in Hverb as [H | H];
      [apply isUpdate_not_read | apply isDelete_not_read]; exact H. }
  exists st, (handleError cfg ("Cannot audit null audit record for endpoint: "
                +:+ toEndpoint (method request) (pathname request) None)).
  split; [apply preResponse_unsuccessful; assumption |].
  split; [apply handleError_emits_nothing |].
  split; [apply handleError_logs |].
  split; [exact Hpending | reflexivity].
Qed.

(** [PUT /api/users/42]: the pre-handler stores the record, the business
    logic answers 500. *)
Lemma failed_response_keeps_pending_witness :
  exists st' ev,
    onPreResponse (host := sampleHost) defaultConfig
      (withResponse {| source := VUndefined; statusCode := VNum 500 |} putUser)
      userA_json
      (onPreHandler (host := sampleHost) defaultConfig putUser userA_json
         emptyStores).1.1
    = (st', ev, h_continue)
    ∧ emitted ev = []
    ∧ EvRequestLog "Cannot audit null audit record for endpoint: put:/api/users/42" ∈ ev
    ∧ auditValues st' !! "put:/api/users/42"
      = Some (createMutation defaultConfig "put" "users" (VStr "42") (VStr "alice")
                (VObj []) (VObj []))
    ∧ st' = (onPreHandler (host := sampleHost) defaultConfig putUser userA_json
               emptyStores).1.1.
Proof.
  apply (failed_response_keeps_pending (host := sampleHost) defaultConfig
           (withResponse {| source := VUndefined; statusCode := VNum 500 |} putUser)
           userA_json
           (onPreHandler (host := sampleHost) defaultConfig putUser userA_json
              emptyStores).1.1
           (createMutation defaultConfig "put" "users" (VStr "42") (VStr "alice")
              (VObj []) (VObj []))).
  - reflexivity.
  - reflexivity.
  - reflexivity.
  - vm_compute. reflexivity.
Defined.

(** *** The action of a Mutation record *)

(** C9.  A Mutation record built with no action given takes its action
    from the HTTP verb, in any letter case: PUT gives UPDATE, POST gives
    CREATE, DELETE gives DELETE; a record built with an action given
    carries that action instead. *)
Theorem mutation_action_from_verb (i : AuditMutation.input) :
  (optTruthy (AuditMutation.action i) = false ->
   toLowerCase (AuditMutation.method i) = "put" ->
   AuditMutationBody.body_action (AuditMutation.rec_body (AuditMutation.new i))
   = Some "UPDATE")
  ∧ (optTruthy (AuditMutation.action i) = false ->
     toLowerCase (AuditMutation.method i) = "post" ->
     AuditMutationBody.body_action (AuditMutation.rec_body (AuditMutation.new i))
     = Some "CREATE")
  ∧ (optTruthy (AuditMutation.action i) = false ->
     toLowerCase (AuditMutation.method i) = "delete" ->
     AuditMutationBody.body_action (AuditMutation.rec_body (AuditMutation.new i))
     = Some "DELETE")
  ∧ (optTruthy (AuditMutation.action i) = true ->
     AuditMutationBody.body_action (AuditMutation.rec_body (AuditMutation.new i))
     = AuditMutation.action i).
Proof.
  unfold AuditMutation.new, AuditMutationBody.new, AuditMutation.httpAction.
  cbn [AuditMutation.rec_body AuditMutationBody.body_action AuditMutationBody.action].
  repeat split; intros Hact; try intros Hverb; rewrite Hact; try rewrite Hverb;
    reflexivity.
Qed.

Lemma mutation_action_from_verb_witness :
  AuditMutationBody.body_action
    (AuditMutation.rec_body (AuditMutation.new (mutationInput "PUT" None)))
  = Some "UPDATE"
  ∧ AuditMutationBody.body_action
      (AuditMutation.rec_body (AuditMutation.new (mutationInput "post" None)))
    = Some "CREATE"
  ∧ AuditMutationBody.body_action
      (AuditMutation.rec_body (AuditMutation.new (mutationInput "delete" (Some ""))))
    = Some "DELETE"
  ∧ AuditMutationBody.body_action
      (AuditMutation.rec_body (AuditMutation.new (mutationInput "put" (Some "approve"))))
    = Some "approve".
Proof.
  split; [| split; [| split]].
  - apply (proj1 (mutation_action_from_verb (mutationInput "PUT" None)));
      reflexivity.
  - apply (proj1 (proj2 (mutation_action_from_verb (mutationInput "post" None))));
      reflexivity.
  - apply (proj1 (proj2 (proj2
      (mutation_action_from_verb (mutationInput "delete" (Some ""))))));
      reflexivity.
  - apply (proj2 (proj2 (proj2
      (mutation_action_from_verb (mutationInput "put" (Some "approve"))))));
      reflexivity.
Defined.

(** *** The subscriber *)

Lemma delivered_to_listener listeners ev sub rec :
  (sub, rec) ∈ delivered listeners ev ->
  exists channel, (channel, sub) ∈ listeners ∧ EvEmit channel rec ∈ ev.
Proof.
  unfold delivered. intros H.
  apply list_elem_of_In, in_flat_map in H as (e & Hin & H).
  apply list_elem_of_In in Hin.
  destruct e; try (destruct H; fail).
  apply list_elem_of_In, list_elem_of_omap in H as ([c s] & Hl & H).
  cbn in H. destruct (String.eqb c channel) eqn:E; [| discriminate].
  apply String.eqb_eq in E. subst c. injection H as -> ->.
  exists channel. split; assumption.
Qed.

Lemma delivered_emit channel sub rec :
  delivered [(channel, sub)] [EvEmit channel rec] = [(sub, rec)].
Proof. cbn. rewrite String.eqb_refl. reflexivity. Qed.

(** C5, on the code.  [register] reads the subscriber from the key
    [eventHanler]: an options object that supplies a function under
    [eventHandler] (and nothing under [eventHanler]) gets the built-in
    console logger registered on the audit channel, and no emitted
    record is ever delivered to the supplied function.  With no
    subscriber option at all the console logger is registered too, and
    it is the key [eventHanler] that delivers to a supplied function. *)
Theorem eventHandler_option_is_not_read
    (options : gmap string OptVal) (name : string) :
  options !! "eventHanler" = None ->
  (register (<["eventHandler" := OFun name]> options)).2
  = [(emitEventName (readOptions options), ConsoleLogger)]
  ∧ (forall ev rec,
       (UserFunction name, rec)
       ∉ delivered (register (<["eventHandler" := OFun name]> options)).2 ev)
  ∧ (register options).2 = [(emitEventName (readOptions options), ConsoleLogger)]
  ∧ (forall rec,
       delivered (register (<["eventHanler" := OFun name]> options)).2
         [EvEmit (emitEventName (readOptions options)) rec]
       = [(UserFunction name, rec)]).
Proof.
  intros Hnone.
  assert ((register (<["eventHandler" := OFun name]> options)).2
          = [(emitEventName (readOptions options), ConsoleLogger)]) as E.
  { unfold register, readOptions, optStr. cbn [snd emitEventName eventHanler].
    rewrite !lookup_insert_ne by discriminate. rewrite Hnone. reflexivity. }
  split; [exact E |]. split; [| split].
  - intros ev rec Hin. rewrite E in Hin.
    apply delivered_to_listener in Hin as (channel & Hl & _).
    apply list_elem_of_singleton in Hl. discriminate Hl.
  - unfold register, readOptions. cbn [snd emitEventName eventHanler].
    rewrite Hnone. reflexivity.
  - intros rec.
    unfold register, readOptions, optStr. cbn [snd emitEventName eventHanler].
    rewrite lookup_insert_eq, lookup_insert_ne by discriminate.
    apply delivered_emit.
Qed.

(** The options object [{ eventHandler: auditSink }]. *)
Lemma eventHandler_option_is_not_read_witness :
  (register {["eventHandler" := OFun "auditSink"]}).2 = [("auditing", ConsoleLogger)]
  ∧ (forall ev rec,
       (UserFunction "auditSink", rec)
       ∉ delivered (register {["eventHandler" := OFun "auditSink"]}).2 ev).
Proof.
  destruct (eventHandler_option_is_not_read ∅ "auditSink") as (H1 & H2 & _).
  - reflexivity.
  - split; [exact H1 | exact H2].
Defined.

(** *** Invariants of handler bodies *)

Section Keeps.
Variable I : Stores -> Prop.
Variable E : Event -> Prop.

Lemma keeps_ret {A} (a : A) : keeps I E (ret a).
Proof. intros st st' ev c HI H. injection H as <- <- _. split; [assumption | constructor]. Qed.

Lemma keeps_throw {A} e : keeps I E (@throw A e).
Proof. intros st st' ev c HI H. injection H as <- <- _. split; [assumption | constructor]. Qed.

Lemma keeps_returnEarly {A} r : keeps I E (@returnEarly A r).
Proof. intros st st' ev c HI H. injection H as <- <- _. split; [assumption | constructor]. Qed.

Lemma keeps_bind {A B} (m : Audit A) (k : A -> Audit B) :
  keeps I E m -> (forall a, keeps I E (k a)) -> keeps I E (bind m k).
Proof.
  intros Hm Hk st st' ev c HI. unfold bind.
  destruct (m st) as [[st1 ev1] [a | r1 | e]] eqn:Em.
  - destruct (Hm _ _ _ _ HI Em) as [HI1 HE1].
    destruct (k a st1) as [[st2 ev2] c2] eqn:Ek.
    destruct (Hk a _ _ _ _ HI1 Ek) as [HI2 HE2].
    intros H. injection H as <- <- _.
    split; [assumption | apply Forall_app; split; assumption].
  - intros H. injection H as <- <- _. exact (Hm _ _ _ _ HI Em).
  - intros H. injection H as <- <- _. exact (Hm _ _ _ _ HI Em).
Qed.

Lemma keeps_tell e : E e -> keeps I E (tell e).
Proof.
  intros He st st' ev c HI H. injection H as <- <- _.
  split; [assumption | repeat constructor; assumption].
Qed.

Lemma keeps_propOf o k : keeps I E (propOf o k).
Proof. unfold propOf. destruct (getProp o k); [apply keeps_ret | apply keeps_throw]. Qed.

Lemma keeps_parseJSON `{host : Host} data : keeps I E (parseJSON data).
Proof. unfold parseJSON. destruct (JSON_parse data); [apply keeps_ret | apply keeps_throw]. Qed.

Lemma keeps_fetchValues request fetched :
  E (EvFetch (pathname request)) -> keeps I E (fetchValues request fetched).
Proof.
  intros He. apply keeps_bind; [apply keeps_tell; exact He |].
  intros _. apply keeps_ret.
Qed.

Lemma keeps_cacheGet k :
  (forall st, I st -> E (EvCacheGet k (oldValsCache st !! k))) ->
  keeps I E (cacheGet k).
Proof.
  intros He st st' ev c HI H. injection H as <- <- _.
  split; [assumption | repeat constructor; apply He; assumption].
Qed.

Lemma keeps_cacheSet k v :
  E (EvCacheSet k v) ->
  (forall st, I st -> I {| oldValsCache := <[k := v]> (oldValsCache st);
                           auditValues := auditValues st |}) ->
  keeps I E (cacheSet k v).
Proof.
  intros He Hst st st' ev c HI H. injection H as <- <- _.
  split; [apply Hst; assumption | repeat constructor; assumption].
Qed.

Lemma keeps_cacheDelete k :
  E (EvCacheDelete k) ->
  (forall st, I st -> I {| oldValsCache := delete k (oldValsCache st);
                           auditValues := auditValues st |}) ->
  keeps I E (cacheDelete k).
Proof.
  intros He Hst st st' ev c HI H. injection H as <- <- _.
  split; [apply Hst; assumption | repeat constructor; assumption].
Qed.

Lemma keeps_pendingGet k : keeps I E (pendingGet k).
Proof. intros st st' ev c HI H. injection H as <- <- _. split; [assumption | constructor]. Qed.

Lemma keeps_pendingSet k r :
  (forall st, I st -> I {| oldValsCache := oldValsCache st;
                           auditValues := <[k := r]> (auditValues st) |}) ->
  keeps I E (pendingSet k r).
Proof.
  intros Hst st st' ev c HI H. injection H as <- <- _.
  split; [apply Hst; assumption | constructor].
Qed.

Lemma keeps_pendingDelete k :
  (forall st, I st -> I {| oldValsCache := oldValsCache st;
                           auditValues := delete k (auditValues st) |}) ->
  keeps I E (pendingDelete k).
Proof.
  intros Hst st st' ev c HI H. injection H as <- <- _.
  split; [apply Hst; assumption | constructor].
Qed.

Lemma keeps_emitAuditEvent cfg rec k :
  (forall r, rec = Some r -> E (EvEmit (emitEventName cfg) r)) ->
  (forall st, I st -> I {| oldValsCache := oldValsCache st;
                           auditValues := delete k (auditValues st) |}) ->
  keeps I E (emitAuditEvent cfg rec k).
Proof.
  intros He Hst. destruct rec as [r |]; cbn [emitAuditEvent]; [| apply keeps_throw].
  apply keeps_bind; [apply keeps_tell, He; reflexivity |].
  intros _. apply keeps_pendingDelete, Hst.
Qed.

Lemma keeps_guarded cfg (body : Audit unit) st st' ev r :
  (forall e, Forall E (handleError cfg e)) ->
  keeps I E body -> I st -> guarded cfg body st = (st', ev, r) ->
  I st' ∧ Forall E ev.
Proof.
  intros Herr Hbody HI. unfold guarded.
  destruct (body st) as [[st1 ev1] [a | r1 | e]] eqn:Eb;
    destruct (Hbody _ _ _ _ HI Eb) as [HI1 HE1];
    intros H; injection H as <- <- _; split; try assumption.
  apply Forall_app; split; [assumption | apply Herr].
Qed.
End Keeps.

(** One layer of a handler body, for [keeps]. *)
Ltac keeps_step :=
  match goal with
  | |- keeps _ _ (bind _ _) => apply keeps_bind; [| intros ?]
  | |- keeps _ _ (if ?b then _ else _) => destruct b eqn:?
  | |- keeps _ _ (let '(_, _) := ?p in _) => destruct p
  | |- keeps _ _ (ret _) => apply keeps_ret
  | |- keeps _ _ (throw _) => apply keeps_throw
  | |- keeps _ _ (returnEarly _) => apply keeps_returnEarly
  | |- keeps _ _ (propOf _ _) => apply keeps_propOf
  | |- keeps _ _ (parseJSON _) => apply keeps_parseJSON
  | |- keeps _ _ (pendingGet _) => apply keeps_pendingGet
  | |- keeps _ _ (fetchValues _ _) => apply keeps_fetchValues
  | |- keeps _ _ (cacheGet _) => apply keeps_cacheGet
  | |- keeps _ _ (cacheSet _ _) => apply keeps_cacheSet
  | |- keeps _ _ (cacheDelete _) => apply keeps_cacheDelete
  | |- keeps _ _ (pendingSet _ _) => apply keeps_pendingSet
  | |- keeps _ _ (pendingDelete _) => apply keeps_pendingDelete
  | |- keeps _ _ (emitAuditEvent _ _ _) => apply keeps_emitAuditEvent
  end.

(** *** Where records are emitted *)

Lemma emitted_app ev1 ev2 : emitted (ev1 ++ ev2) = emitted ev1 ++ emitted ev2.
Proof. unfold emitted. apply omap_app. Qed.

Lemma emitted_notEmit ev : Forall notEmit ev -> emitted ev = [].
Proof.
  induction 1 as [| e ev He _ IH]; [reflexivity |].
  destruct e; cbn in *; try exact IH. contradiction.
Qed.

(** The action override touches neither store and logs nothing. *)
Lemma actionOverride_frame `{host : Host} cfg request st st' ev c :
  actionOverride cfg request st = (st', ev, c) -> st' = st ∧ ev = [].
Proof.
  unfold actionOverride. cbv zeta.
  destruct (_ && _ && _).
  - unfold bind, propOf.
    destruct (truthy _); cbn.
    + intros H. injection H as <- <- _. split; reflexivity.
    + destruct (getProp _ _); cbn; intros H; injection H as <- <- _;
        split; reflexivity.
  - intros H. injection H as <- <- _. split; reflexivity.
Qed.

(** Nothing is emitted while the record is being chosen. *)
Lemma byVerb_notEmit `{host : Host} cfg request fetched rec :
  keeps (fun _ => True) notEmit (byVerb cfg request fetched rec).
Proof.
  unfold byVerb. cbv zeta.
  repeat keeps_step; cbn; auto.
Qed.

(** In the UPDATE and CREATE branches the record comes from the verb
    alone: the value the action override left in [rec] is not read. *)
Lemma byVerb_overwrites `{host : Host} cfg request fetched rec0 :
  isUpdate (method request) || isCreate (method request) = true ->
  isSuccessfulResponse (statusCode (response request)) = true ->
  byVerb cfg request fetched rec0 = byVerb cfg request fetched None.
Proof.
  intros Hverb Hok. unfold byVerb. cbv zeta. rewrite Hok.
  apply orb_true_iff in Hverb as [H | H].
  - rewrite H, (isUpdate_not_read _ H). reflexivity.
  - rewrite H, (isCreate_not_read _ H), (isCreate_not_update _ H),
      (isCreate_not_delete _ H). reflexivity.
Qed.

(** A record leaves those two branches either freshly built as a
    Mutation record or taken from the pending store. *)
Lemma byVerb_source `{host : Host} cfg request fetched rec0 st st' ev r :
  isUpdate (method request) || isCreate (method request) = true ->
  isSuccessfulResponse (statusCode (response request)) = true ->
  byVerb cfg request fetched rec0 st = (st', ev, Normal (Some r)) ->
  isMutation r
  ∨ auditValues st !! toEndpoint (method request) (pathname request) None = Some r.
Proof.
  intros Hverb Hok. unfold byVerb. cbv zeta. rewrite Hok.
  apply orb_true_iff in Hverb as [H | H].
  - rewrite H, (isUpdate_not_read _ H). cbn [andb].
    destruct (isStream (source (response request))).
    + unfold bind, cacheGet, fetchValues, tell, parseJSON, cacheDelete, ret, throw.
      cbn. destruct (JSON_parse fetched); cbn; [| discriminate].
      unfold diffedMutation.
      destruct (removeProps _ _ _) as [o n].
      destruct (diffFunc cfg o n) as [o' n']. cbn.
      intros E. injection E as _ _ <-. left. exact Logic.I.
    + unfold bind, cacheGet, pendingGet. cbn.
      intros E. injection E as _ _ E. right. exact E.
  - rewrite H, (isCreate_not_read _ H), (isCreate_not_update _ H),
      (isCreate_not_delete _ H). cbn [andb].
    unfold bind, propOf, ret, throw.
    destruct (gotResponseData _); destruct (getProp _ _); cbn;
      try discriminate; intros E; injection E as _ _ <-; left; exact Logic.I.
Qed.

(** What the post-response handler publishes for a CREATE or UPDATE
    answered 2xx never comes from the action override. *)
Lemma emitted_record_source `{host : Host} cfg request fetched st r :
  skipAudit cfg request = false ->
  isUpdate (method request) || isCreate (method request) = true ->
  isSuccessfulResponse (statusCode (response request)) = true ->
  r ∈ emitted (onPreResponse cfg request fetched st).1.2 ->
  isMutation r
  ∨ auditValues st !! toEndpoint (method request) (pathname request) None = Some r.
Proof.
  intros Hpass Hverb Hok.
  assert (isRead (method request) = false) as Hread.
  { apply orb_true_iff in Hverb as [H | H];
      [apply isUpdate_not_read | apply isCreate_not_read]; exact H. }
  unfold onPreResponse, guarded, preResponseBody. cbv zeta.
  rewrite Hpass, (shouldAudit_not_read _ _ _ Hread). unfold bind at 1.
  destruct (actionOverride cfg request st) as [[st0 ev0] c0] eqn:E0.
  destruct (actionOverride_frame _ _ _ _ _ _ E0) as [-> ->].
  destruct c0 as [rec0 | r0 | e0]; cbn [fst snd app emitted omap];
    try (intros Hin; inversion Hin; fail).
  - unfold bind at 1.
    destruct (byVerb cfg request fetched rec0 st) as [[st1 ev1] c1] eqn:E1.
    destruct (byVerb_notEmit cfg request fetched rec0 _ _ _ _ Logic.I E1) as [_ Hev1].
    apply emitted_notEmit in Hev1.
    destruct c1 as [[r' |] | r1 | e1]; cbn [fst snd emitAuditEvent bind tell
                                            pendingDelete throw app];
      rewrite ?emitted_app, ?Hev1, ?handleError_emits_nothing; cbn;
      try (intros Hin; inversion Hin; fail).
    intros Hin. apply list_elem_of_singleton in Hin. subst r'.
    exact (byVerb_source cfg request fetched rec0 st st1 ev1 r Hverb Hok E1).
  - rewrite handleError_emits_nothing. intros Hin. inversion Hin.
Qed.

(** Closes the side conditions of [keeps pendingMutations]: only
    Mutation records are ever put into the pending store. *)
Ltac pending_side :=
  unfold pendingMutations in *; cbn [auditValues] in *;
  try tauto;
  try (intros ? ?; first
         [ apply map_Forall_insert_2; [exact Logic.I | assumption]
         | apply map_Forall_delete; assumption ]).

Lemma diffedMutation_isMutation `{host : Host} cfg request id o n skip :
  isMutation (diffedMutation cfg request id o n skip).
Proof.
  unfold diffedMutation. cbv zeta.
  destruct (removeProps o n skip) as [o' n'].
  destruct (diffFunc cfg o' n') as [a b]. exact Logic.I.
Qed.

Lemma preHandlerBody_pendingMutations `{host : Host} cfg request fetched :
  keeps pendingMutations (fun _ => True) (preHandlerBody cfg request fetched).
Proof.
  unfold preHandlerBody. cbv zeta.
  repeat keeps_step; pending_side.
  intros st Hst. apply map_Forall_insert_2;
    [apply diffedMutation_isMutation | assumption].
Qed.

Lemma preResponseBody_pendingMutations `{host : Host} cfg request fetched :
  keeps pendingMutations (fun _ => True) (preResponseBody cfg request fetched).
Proof.
  unfold preResponseBody, actionOverride, byVerb. cbv zeta.
  repeat keeps_step; pending_side.
Qed.

Lemma run_pendingMutations `{host : Host} cfg steps st :
  pendingMutations st -> pendingMutations (run cfg steps st).1.
Proof.
  revert st. induction steps as [| s steps IH]; intros st Hst; [exact Hst |].
  cbn [run].
  assert (pendingMutations (step cfg s st).1) as H1.
  { destruct s as [request fetched | request fetched |]; cbn [step].
    - unfold onPreHandler.
      destruct (guarded cfg (preHandlerBody cfg request fetched) st)
        as [[st' ev] r] eqn:E. cbn [fst].
      eapply (keeps_guarded pendingMutations (fun _ => True));
        [ | apply preHandlerBody_pendingMutations | exact Hst | exact E].
      intros e. apply Forall_forall. intros; exact Logic.I.
    - unfold onPreResponse.
      destruct (guarded cfg (preResponseBody cfg request fetched) st)
        as [[st' ev] r] eqn:E. cbn [fst].
      eapply (keeps_guarded pendingMutations (fun _ => True));
        [ | apply preResponseBody_pendingMutations | exact Hst | exact E].
      intros e. apply Forall_forall. intros; exact Logic.I.
    - exact Hst. }
  destruct (step cfg s st) as [st1 ev1]. cbn [fst] in H1.
  specialize (IH st1 H1).
  destruct (run cfg steps st1) as [st2 ev2]. exact IH.
Qed.

Lemma getProp_not_nullish v k : nullish v = false -> exists x, getProp v k = Some x.
Proof. destruct v; cbn; try discriminate; intros _; eexists; reflexivity. Qed.

(** A CREATE on a route with a custom action, answered 2xx, with a
    payload: one Mutation record with the action CREATE is published. *)
Lemma preResponse_create_action `{host : Host} cfg request fetched st :
  skipAudit cfg request = false ->
  optTruthy (action (auditing request)) = true ->
  isCreate (method request) = true ->
  isSuccessfulResponse (statusCode (response request)) = true ->
  nullish (payload request) = false ->
  exists m,
    emitted (onPreResponse cfg request fetched st).1.2 = [Mutation m]
    ∧ AuditMutationBody.body_action (AuditMutation.rec_body m) = Some "CREATE".
Proof.
  intros Hpass Hact Hcre Hok Hpayload.
  pose proof (isCreate_not_read _ Hcre) as Hread.
  unfold onPreResponse, guarded, preResponseBody, actionOverride, byVerb.
  cbv zeta.
  rewrite Hpass, Hact, Hok, Hcre, Hread, (isCreate_not_update _ Hcre),
    (isCreate_not_delete _ Hcre), (shouldAudit_not_read _ _ _ Hread).
  cbn [andb orb].
  set (k := default ID_PARAM_DEFAULT (idParam (auditing request))).
  destruct (getProp_not_nullish _ k Hpayload) as [x Hx].
  assert (exists y,
            (if gotResponseData (source (response request))
             then propOf (source (response request)) k
             else propOf (payload request) k) = ret y) as [y Hy].
  { unfold gotResponseData, propOf.
    destruct (nullish (source (response request))) eqn:Hs; cbn [negb].
    - rewrite Hx. eexists; reflexivity.
    - destruct (getProp_not_nullish _ k Hs) as [z ->]. eexists; reflexivity. }
  rewrite Hy.
  assert (exists z,
            (if truthy (paramOf request k) then ret (paramOf request k)
             else propOf (payload request) k) = ret z) as [z Hz].
  { destruct (truthy (paramOf request k)); [eexists; reflexivity |].
    unfold propOf. rewrite Hx. eexists; reflexivity. }
  rewrite Hz.
  unfold bind, ret, emitAuditEvent, tell, pendingDelete. cbn.
  eexists. split; [reflexivity |].
  cbn. unfold AuditMutation.httpAction. cbn.
  unfold isCreate in Hcre. apply String.eqb_eq in Hcre. rewrite Hcre. reflexivity.
Qed.

(** An UPDATE on such a route, answered 2xx with a body that is not a
    stream, nothing pending under its key: nothing is published. *)
Lemma preResponse_update_action `{host : Host} cfg request fetched st :
  skipAudit cfg request = false ->
  isUpdate (method request) = true ->
  isSuccessfulResponse (statusCode (response request)) = true ->
  isStream (source (response request)) = false ->
  auditValues st !! toEndpoint (method request) (pathname request) None = None ->
  emitted (onPreResponse cfg request fetched st).1.2 = [].
Proof.
  intros Hpass Hupd Hok Hsrc Hnone.
  pose proof (isUpdate_not_read _ Hupd) as Hread.
  unfold onPreResponse, guarded, preResponseBody, byVerb. cbv zeta.
  rewrite Hpass, Hok, Hupd, Hread, Hsrc, (shouldAudit_not_read _ _ _ Hread).
  cbn [andb]. unfold bind at 1.
  destruct (actionOverride cfg request st) as [[st0 ev0] c0] eqn:E0.
  destruct (actionOverride_frame _ _ _ _ _ _ E0) as [-> ->].
  destruct c0 as [rec0 | r0 | e0]; cbn [fst snd app].
  - unfold bind, cacheGet, pendingGet. cbn. rewrite Hnone. cbn.
    apply handleError_emits_nothing.
  - reflexivity.
  - apply handleError_emits_nothing.
Qed.

(** C1, on the code.  In the stores reached by any sequence of handler
    calls and sweeps from the empty stores, take a CREATE or UPDATE on a
    route that declares a custom action, with a session user, an
    auditable path and a 2xx response.  The Action record built by the
    override is overwritten by the verb branch that follows it: whatever
    the post-response handler publishes is a Mutation record, never an
    Action record.  A CREATE with a payload publishes one Mutation
    record with the action CREATE; an UPDATE whose response is not a
    stream, with nothing pending under its key, publishes nothing. *)
Theorem action_override_is_overwritten `{host : Host}
    (cfg : Config) (steps : list Step) (request : Request) (fetched : string) :
  skipAudit cfg request = false ->
  optTruthy (action (auditing request)) = true ->
  isUpdate (method request) || isCreate (method request) = true ->
  isSuccessfulResponse (statusCode (response request)) = true ->
  (forall r,
     r ∈ emitted (onPreResponse cfg request fetched
                    (run cfg steps emptyStores).1).1.2 ->
     exists m, r = Mutation m)
  ∧ (isCreate (method request) = true ->
     nullish (payload request) = false ->
     exists m,
       emitted (onPreResponse cfg request fetched
                  (run cfg steps emptyStores).1).1.2 = [Mutation m]
       ∧ AuditMutationBody.body_action (AuditMutation.rec_body m) = Some "CREATE")
  ∧ (isUpdate (method request) = true ->
     isStream (source (response request)) = false ->
     auditValues (run cfg steps emptyStores).1
       !! toEndpoint (method request) (pathname request) None = None ->
     emitted (onPreResponse cfg request fetched
                (run cfg steps emptyStores).1).1.2 = []).
Proof.
  intros Hpass Hact Hverb Hok. split; [| split].
  - intros r Hin.
    assert (isMutation r) as Hr.
    { destruct (emitted_record_source cfg request fetched _ r Hpass Hverb Hok Hin)
        as [Hm | Hpending]; [exact Hm |].
      pose proof (run_pendingMutations cfg steps emptyStores) as Hinv.
      unfold pendingMutations at 2 in Hinv.
      apply (map_Forall_lookup_1 _ _ _ _ (Hinv (map_Forall_empty _)) Hpending). }
    destruct r as [m | a]; [exists m; reflexivity | contradiction Hr].
  - intros Hcre Hpayload. apply preResponse_create_action; assumption.
  - intros Hupd Hsrc Hnone. apply preResponse_update_action; assumption.
Qed.

(** [POST /api/users] and [PUT /api/users/42] on a route with the
    action [approve], both answered 200, nothing pending. *)
Lemma action_override_is_overwritten_witness :
  (exists m,
     emitted (onPreResponse (host := sampleHost) defaultConfig
                (withAuditing approveRoute postUser) userA_json
                (run (host := sampleHost) defaultConfig [] emptyStores).1).1.2
     = [Mutation m]
     ∧ AuditMutationBody.body_action (AuditMutation.rec_body m) = Some "CREATE")
  ∧ emitted (onPreResponse (host := sampleHost) defaultConfig
               (withAuditing approveRoute putUser) userA_json
               (run (host := sampleHost) defaultConfig
                  [PreHandler (withAuditing approveRoute putUser) userA_json]
                  emptyStores).1).1.2
    = [].
Proof.
  split.
  - destruct (action_override_is_overwritten (host := sampleHost) defaultConfig []
                (withAuditing approveRoute postUser) userA_json)
      as (_ & H & _); [reflexivity | reflexivity | reflexivity | reflexivity |].
    apply H; reflexivity.
  - destruct (action_override_is_overwritten (host := sampleHost) defaultConfig
                [PreHandler (withAuditing approveRoute putUser) userA_json]
                (withAuditing approveRoute putUser) userA_json)
      as (_ & _ & H); [reflexivity | reflexivity | reflexivity | reflexivity |].
    apply H; reflexivity.
Defined.

(** What is published instead: a Mutation record with the action CREATE
    for the POST, and nothing but the null-record error for the PUT. *)
Lemma action_override_examples :
  emitted (onPreResponse (host := sampleHost) defaultConfig
             (withAuditing approveRoute postUser) userA_json emptyStores).1.2
  = [createMutation defaultConfig "post" "users" VUndefined (VStr "alice")
       VUndefined userB]
  ∧ (onPreResponse (host := sampleHost) defaultConfig
       (withAuditing approveRoute putUser) userA_json emptyStores).1.2
    = EvCacheGet "get:/api/users/42" None
      :: handleError defaultConfig
           "Cannot audit null audit record for endpoint: put:/api/users/42"
  ∧ actionOverride (host := sampleHost) defaultConfig
      (withAuditing approveRoute postUser) emptyStores
    = (emptyStores, [],
       Normal (Some (createAction defaultConfig "users" VUndefined (VStr "alice")
                       userB (Some "approve")))).
Proof. repeat split. Qed.

(** *** The two phases of a DELETE and of an UPDATE *)

Lemma nullish_strictNull v : nullish v = false -> strictNull v = false.
Proof. destruct v; cbn; congruence. Qed.

Lemma orDefault_idem v d :
  AuditMutationBody.orDefault (AuditMutationBody.orDefault v d) d
  = AuditMutationBody.orDefault v d.
Proof. destruct v; try reflexivity. destruct d; reflexivity. Qed.

(** The pre-handler of a DELETE: one internal read, whose payload goes
    into the pending record as it arrived. *)
Lemma preHandler_delete `{host : Host} cfg request fetched st :
  skipAudit cfg request = false ->
  optTruthy (action (auditing request)) = false ->
  isDelete (method request) = true ->
  onPreHandler cfg request fetched st
  = ({| oldValsCache := oldValsCache st;
        auditValues :=
          <[toEndpoint (method request) (pathname request) None :=
              createMutation cfg (method request)
                (getEntity (entity (auditing request)) (pathname request))
                (getEntityId (entityKeys (auditing request))
                   (paramOf request (default ID_PARAM_DEFAULT (idParam (auditing request))))
                   (VStr fetched))
                (getUser request (sidUsernameAttribute cfg))
                (VStr fetched) VUndefined]> (auditValues st) |},
     [EvFetch (pathname request)], h_continue).
Proof.
  intros Hpass Hact Hdel.
  unfold onPreHandler, guarded, preHandlerBody. cbv zeta.
  rewrite Hpass, Hact, Hdel, (isDelete_not_update _ Hdel). reflexivity.
Qed.

(** The pre-handler of an UPDATE with a concrete body, baseline found in
    the cache. *)
Lemma preHandler_update_cached `{host : Host} cfg request fetched st b :
  skipAudit cfg request = false ->
  optTruthy (action (auditing request)) = false ->
  isUpdate (method request) = true ->
  isStream (payload request) = false ->
  disableCache cfg = false ->
  oldValsCache st !! toEndpoint "get" (pathname request) (getPath (auditing request))
  = Some b ->
  nullish b = false ->
  onPreHandler cfg request fetched st
  = ({| oldValsCache :=
          delete (toEndpoint "get" (pathname request) (getPath (auditing request)))
                 (oldValsCache st);
        auditValues :=
          <[toEndpoint (method request) (pathname request) None :=
              diffedMutation cfg request
                (paramOf request (default ID_PARAM_DEFAULT (idParam (auditing request))))
                b (payload request)
                (Some (default [] (skipDiff (auditing request))))]> (auditValues st) |},
     [EvCacheGet (toEndpoint "get" (pathname request) (getPath (auditing request)))
        (Some b);
      EvCacheDelete (toEndpoint "get" (pathname request) (getPath (auditing request)))],
     h_continue).
Proof.
  intros Hpass Hact Hupd Hbody Hcache Hhit Hb.
  unfold onPreHandler, guarded, preHandlerBody. cbv zeta.
  rewrite Hpass, Hact, Hupd, Hbody, Hcache. cbn [orb negb].
  unfold bind at 1. unfold cacheGet at 1. rewrite Hhit.
  cbn [default from_option id]. unfold id.
  rewrite Hb. unfold bind, cacheDelete, ret. cbn.
  rewrite (nullish_strictNull _ Hb). reflexivity.
Qed.

(** The same with the baseline read from the server: the cache is
    disabled, or has nothing usable under the read endpoint. *)
Lemma preHandler_update_fetched `{host : Host} cfg request fetched st b :
  skipAudit cfg request = false ->
  optTruthy (action (auditing request)) = false ->
  isUpdate (method request) = true ->
  isStream (payload request) = false ->
  disableCache cfg = true
  ∨ nullish (default VUndefined
               (oldValsCache st
                  !! toEndpoint "get" (pathname request) (getPath (auditing request))))
    = true ->
  JSON_parse fetched = Some b ->
  strictNull b = false ->
  exists ev,
    onPreHandler cfg request fetched st
    = ({| oldValsCache := oldValsCache st;
          auditValues :=
            <[toEndpoint (method request) (pathname request) None :=
                diffedMutation cfg request
                  (paramOf request (default ID_PARAM_DEFAULT (idParam (auditing request))))
                  b (payload request)
                  (Some (default [] (skipDiff (auditing request))))]> (auditValues st) |},
       ev, h_continue)
    ∧ emitted ev = [].
Proof.
  intros Hpass Hact Hupd Hbody Hmiss Hparse Hb.
  unfold onPreHandler, guarded, preHandlerBody. cbv zeta.
  rewrite Hpass, Hact, Hupd, Hbody. cbn [orb].
  destruct (disableCache cfg) eqn:Hcache; cbn [negb].
  - unfold bind, ret, fetchValues, tell, parseJSON. cbn.
    rewrite Hparse. cbn. rewrite Hb. cbn. eexists. split; reflexivity.
  - destruct Hmiss as [Hmiss | Hmiss]; [discriminate |].
    unfold bind, cacheGet, ret, fetchValues, tell, parseJSON. cbn.
    rewrite Hmiss. cbn. rewrite Hparse. cbn. rewrite Hb. cbn.
    eexists. split; reflexivity.
Qed.

(** The post-response handler of a DELETE, or of an UPDATE whose
    response is not a stream, with a record pending: that record is
    published and leaves the store. *)
Lemma preResponse_pending `{host : Host} cfg request fetched st rec :
  skipAudit cfg request = false ->
  optTruthy (action (auditing request)) = false ->
  isDelete (method request) = true
  ∨ (isUpdate (method request) = true
     ∧ isStream (source (response request)) = false) ->
  isSuccessfulResponse (statusCode (response request)) = true ->
  auditValues st !! toEndpoint (method request) (pathname request) None = Some rec ->
  exists ev,
    onPreResponse cfg request fetched st
    = ({| oldValsCache := oldValsCache st;
          auditValues :=
            delete (toEndpoint (method request) (pathname request) None)
                   (auditValues st) |},
       ev, h_continue)
    ∧ emitted ev = [rec].
Proof.
  intros Hpass Hact Hverb Hok Hpending.
  unfold onPreResponse, guarded, preResponseBody, actionOverride, byVerb.
  cbv zeta. rewrite Hpass, Hact, Hok. cbn [andb].
  destruct Hverb as [Hdel | [Hupd Hsrc]].
  - rewrite Hdel, (isDelete_not_update _ Hdel), (isDelete_not_read _ Hdel),
      (shouldAudit_not_read _ _ _ (isDelete_not_read _ Hdel)).
    unfold bind, ret, pendingGet. cbn. rewrite Hpending. cbn.
    eexists. split; reflexivity.
  - rewrite Hupd, (isUpdate_not_read _ Hupd), Hsrc,
      (shouldAudit_not_read _ _ _ (isUpdate_not_read _ Hupd)).
    unfold bind, ret, pendingGet, cacheGet. cbn. rewrite Hpending. cbn.
    eexists. split; reflexivity.
Qed.

(** The post-response handler of a DELETE with a record pending, in
    full: nothing but the publication of that record. *)
Lemma preResponse_delete_pending `{host : Host} cfg request fetched st rec :
  skipAudit cfg request = false ->
  isDelete (method request) = true ->
  isSuccessfulResponse (statusCode (response request)) = true ->
  auditValues st !! toEndpoint (method request) (pathname request) None = Some rec ->
  onPreResponse cfg request fetched st
  = ({| oldValsCache := oldValsCache st;
        auditValues :=
          delete (toEndpoint (method request) (pathname request) None)
                 (auditValues st) |},
     [EvEmit (emitEventName cfg) rec], h_continue).
Proof.
  intros Hpass Hdel Hok Hpending.
  pose proof (isDelete_not_read _ Hdel) as Hread.
  unfold onPreResponse, guarded, preResponseBody, actionOverride, byVerb.
  cbv zeta.
  rewrite Hpass, Hok, Hdel, Hread, (isDelete_not_update _ Hdel),
    (isDelete_not_create _ Hdel), (shouldAudit_not_read _ _ _ Hread).
  cbn [andb orb]. rewrite andb_false_r. cbn [andb].
  unfold bind, ret, pendingGet. cbn. rewrite Hpending. reflexivity.
Qed.

Lemma run_two `{host : Host} cfg s1 s2 st :
  run cfg [s1; s2] st
  = ((step cfg s2 (step cfg s1 st).1).1,
     (step cfg s1 st).2 ++ (step cfg s2 (step cfg s1 st).1).2).
Proof.
  cbn [run]. destruct (step cfg s1 st) as [st1 ev1]. cbn [fst snd].
  destruct (step cfg s2 st1) as [st2 ev2]. cbn [fst snd].
  rewrite app_nil_r. reflexivity.
Qed.

Lemma mutation_fields cfg m ent eid user orig new :
  exists r,
    createMutation cfg m ent eid user orig new = Mutation r
    ∧ AuditMutation.rec_type r = MUTATION
    ∧ AuditMutation.rec_outcome r = SUCCESS
    ∧ AuditMutationBody.body_action (AuditMutation.rec_body r)
      = AuditMutation.httpAction
          {| AuditMutation.method := m; AuditMutation.action := None;
             AuditMutation.entity := ent; AuditMutation.entityId := eid;
             AuditMutation.username := user; AuditMutation.outcome := None;
             AuditMutation.application := clientId cfg;
             AuditMutation.originalValues := orig;
             AuditMutation.newValues := new |}
    ∧ AuditMutationBody.body_originalValues (AuditMutation.rec_body r)
      = AuditMutationBody.orDefault orig (VObj [])
    ∧ AuditMutationBody.body_newValues (AuditMutation.rec_body r)
      = AuditMutationBody.orDefault new (VObj []).
Proof.
  eexists. split; [reflexivity |].
  cbn. rewrite !orDefault_idem. repeat split; reflexivity.
Qed.


Lemma httpAction_update i :
  AuditMutation.action i = None ->
  isUpdate (AuditMutation.method i) = true ->
  AuditMutation.httpAction i = Some "UPDATE".
Proof.
  unfold isUpdate, AuditMutation.httpAction. intros -> H.
  apply String.eqb_eq in H. rewrite H. reflexivity.
Qed.




(** The record of that DELETE, in full. *)
Lemma delete_record_example :
  emitted (run (host := sampleHost) defaultConfig
             [PreHandler deleteUser userA_json; PreResponse deleteUser userA_json]
             emptyStores).2
  = [Mutation
       {| AuditMutation.rec_application := "client-app";
          AuditMutation.rec_type := MUTATION;
          AuditMutation.rec_body :=
            {| AuditMutationBody.body_entity := "users";
               AuditMutationBody.body_entityId := VStr "42";
               AuditMutationBody.body_action := Some "DELETE";
               AuditMutationBody.body_username := VStr "alice";
               AuditMutationBody.body_originalValues := VStr userA_json;
               AuditMutationBody.body_newValues := VObj [] |};
          AuditMutation.rec_outcome := SUCCESS |}].
Proof. reflexivity. Qed.

Lemma diffedMutation_fields `{host : Host} cfg request id b p skip :
  exists m,
    diffedMutation cfg request id b p (Some skip) = Mutation m
    ∧ AuditMutation.rec_type m = MUTATION
    ∧ AuditMutationBody.body_action (AuditMutation.rec_body m)
      = (if isUpdate (method request) then Some "UPDATE"
         else AuditMutationBody.body_action (AuditMutation.rec_body m))
    ∧ AuditMutationBody.body_originalValues (AuditMutation.rec_body m)
      = AuditMutationBody.orDefault
          (diffFunc cfg (withoutProps skip b) (withoutProps skip p)).1 (VObj [])
    ∧ AuditMutationBody.body_newValues (AuditMutation.rec_body m)
      = AuditMutationBody.orDefault
          (diffFunc cfg (withoutProps skip b) (withoutProps skip p)).2 (VObj []).
Proof.
  unfold diffedMutation. cbv zeta. cbn [removeProps].
  destruct (diffFunc cfg (withoutProps skip b) (withoutProps skip p)) as [o n].
  match goal with
  | |- context [createMutation ?c ?m ?e ?i ?u ?o ?n] =>
      destruct (mutation_fields c m e i u o n) as (r & Er & Hty & _ & Ha & Ho & Hn)
  end.
  exists r. split; [exact Er |]. split; [exact Hty |]. split; [| split; assumption].
  destruct (isUpdate (method request)) eqn:Hupd; [| reflexivity].
  rewrite Ha. apply httpAction_update; [reflexivity | exact Hupd].
Qed.

(** C2, as the code has it.  An UPDATE with a concrete body and a
    response that is not a stream, passing the classifier on a route without a
    custom action, answered 2xx, whose baseline [b] comes from the cache
    or from the internal read: over its two phases exactly one record is
    emitted, a Mutation record with the action UPDATE, whose
    [originalValues] and [newValues] are the two results of the
    configured [diffFunc] on the baseline without the skip-listed fields
    and the payload without the skip-listed fields (an [undefined]
    result reads as the empty object).  When the configured [diffFunc]
    is a pass-through they are that baseline and that payload
    themselves. *)
Theorem update_emits_one_mutation `{host : Host}
    (cfg : Config) (request : Request) (fetched1 fetched2 : string) (st : Stores)
    (b : JsVal) :
  skipAudit cfg request = false ->
  optTruthy (action (auditing request)) = false ->
  isUpdate (method request) = true ->
  isStream (payload request) = false ->
  isStream (source (response request)) = false ->
  isSuccessfulResponse (statusCode (response request)) = true ->
  (disableCache cfg = false
   ∧ oldValsCache st
       !! toEndpoint "get" (pathname request) (getPath (auditing request)) = Some b
   ∧ nullish b = false)
  ∨ ((disableCache cfg = true
      ∨ nullish (default VUndefined
                   (oldValsCache st
                      !! toEndpoint "get" (pathname request)
                           (getPath (auditing request)))) = true)
     ∧ JSON_parse fetched1 = Some b
     ∧ strictNull b = false) ->
  exists m,
    emitted (run cfg [PreHandler request fetched1; PreResponse request fetched2] st).2
    = [Mutation m]
    ∧ AuditMutationBody.body_action (AuditMutation.rec_body m) = Some "UPDATE"
    ∧ AuditMutationBody.body_originalValues (AuditMutation.rec_body m)
      = AuditMutationBody.orDefault
          (diffFunc cfg
             (withoutProps (default [] (skipDiff (auditing request))) b)
             (withoutProps (default [] (skipDiff (auditing request)))
                (payload request))).1
          (VObj [])
    ∧ AuditMutationBody.body_newValues (AuditMutation.rec_body m)
      = AuditMutationBody.orDefault
          (diffFunc cfg
             (withoutProps (default [] (skipDiff (auditing request))) b)
             (withoutProps (default [] (skipDiff (auditing request)))
                (payload request))).2
          (VObj [])
    ∧ ((forall o n, diffFunc cfg o n = (o, n)) ->
       b <> VUndefined -> payload request <> VUndefined ->
       AuditMutationBody.body_originalValues (AuditMutation.rec_body m)
       = withoutProps (default [] (skipDiff (auditing request))) b
       ∧ AuditMutationBody.body_newValues (AuditMutation.rec_body m)
         = withoutProps (default [] (skipDiff (auditing request))) (payload request)).
Proof.
  intros Hpass Hact Hupd Hbody Hsrc Hok Hbase.
  destruct (diffedMutation_fields cfg request
              (paramOf request (default ID_PARAM_DEFAULT (idParam (auditing request))))
              b (payload request) (default [] (skipDiff (auditing request))))
    as (m & Em & _ & Ha & Ho & Hn).
  rewrite Hupd in Ha.
  assert (exists st1 ev1,
            onPreHandler cfg request fetched1 st = (st1, ev1, h_continue)
            ∧ emitted ev1 = []
            ∧ auditValues st1 !! toEndpoint (method request) (pathname request) None
              = Some (Mutation m)) as (st1 & ev1 & E1 & Hev1 & Hpending).
  { destruct Hbase as [(Hcache & Hhit & Hb) | (Hmiss & Hparse & Hb)].
    - rewrite (preHandler_update_cached cfg request fetched1 st b
                 Hpass Hact Hupd Hbody Hcache Hhit Hb).
      do 2 eexists. split; [reflexivity |]. split; [reflexivity |].
      cbn [auditValues]. rewrite Em. apply lookup_insert_eq.
    - destruct (preHandler_update_fetched cfg request fetched1 st b
                  Hpass Hact Hupd Hbody Hmiss Hparse Hb) as (ev & E & Hev).
      rewrite E. do 2 eexists. split; [reflexivity |]. split; [exact Hev |].
      cbn [auditValues]. rewrite Em. apply lookup_insert_eq. }
  destruct (preResponse_pending cfg request fetched2 st1 (Mutation m)
              Hpass Hact (or_intror (conj Hupd Hsrc)) Hok Hpending)
    as (ev2 & E2 & Hev2).
  rewrite run_two. cbn [step]. rewrite E1. cbn [fst snd]. rewrite E2. cbn [fst snd].
  rewrite emitted_app, Hev1, Hev2.
  exists m. split; [reflexivity |]. split; [exact Ha |].
  split; [exact Ho |]. split; [exact Hn |].
  intros Hthrough Hb Hp. rewrite Hthrough in Ho, Hn. cbn [fst snd] in Ho, Hn.
  split.
  - rewrite Ho. destruct b; try reflexivity. contradiction.
  - rewrite Hn. destruct (payload request); try reflexivity. contradiction.
Qed.

(** The spec's example, [PUT /api/users/42] with the cached baseline
    [{name:"A"}], the payload [{name:"B"}] and no skip list, under a
    pass-through [diffFunc]; and the same request with the cache
    disabled, the baseline read from the server. *)
Lemma update_emits_one_mutation_witness :
  (exists m,
     emitted (run (host := sampleHost) passThroughConfig
                [PreHandler putUser userA_json; PreResponse putUser userA_json]
                cachedA).2
     = [Mutation m]
     ∧ AuditMutationBody.body_action (AuditMutation.rec_body m) = Some "UPDATE"
     ∧ AuditMutationBody.body_originalValues (AuditMutation.rec_body m) = userA
     ∧ AuditMutationBody.body_newValues (AuditMutation.rec_body m) = userB)
  ∧ (exists m,
       emitted (run (host := sampleHost) noCacheConfig
                  [PreHandler putUser userA_json; PreResponse putUser userA_json]
                  cachedA).2
       = [Mutation m]
       ∧ AuditMutationBody.body_action (AuditMutation.rec_body m) = Some "UPDATE"
       ∧ AuditMutationBody.body_originalValues (AuditMutation.rec_body m) = VObj []
       ∧ AuditMutationBody.body_newValues (AuditMutation.rec_body m) = VObj []).
Proof.
  split.
  - destruct (update_emits_one_mutation (host := sampleHost) passThroughConfig
                putUser userA_json userA_json cachedA userA)
      as (m & E & Ha & Ho & Hn & _); try reflexivity.
    + left. repeat split; reflexivity.
    + exists m. repeat split; assumption.
  - destruct (update_emits_one_mutation (host := sampleHost) noCacheConfig
                putUser userA_json userA_json cachedA userA)
      as (m & E & Ha & Ho & Hn & _); try reflexivity.
    + right. split; [left; reflexivity | split; reflexivity].
    + exists m. repeat split; assumption.
Defined.

(** The spec's example under the default options: the default
    [diffFunc] answers two empty objects whatever it is given, so the
    record carries neither the baseline nor the payload. *)
Lemma update_record_counterexample :
  (~ exists m,
       emitted (run (host := sampleHost) defaultConfig
                  [PreHandler putUser userA_json; PreResponse putUser userA_json]
                  cachedA).2
       = [Mutation m]
       ∧ AuditMutationBody.body_originalValues (AuditMutation.rec_body m)
         = withoutProps [] userA)
  ∧ (~ exists m,
         emitted (run (host := sampleHost) defaultConfig
                    [PreHandler putUser userA_json; PreResponse putUser userA_json]
                    cachedA).2
         = [Mutation m]
         ∧ AuditMutationBody.body_newValues (AuditMutation.rec_body m)
           = withoutProps [] (payload putUser)).
Proof.
  split; intros (m & E & H); vm_compute in E; injection E as <-;
    vm_compute in H; discriminate H.
Qed.

(** *** The cache when it is disabled *)

Lemma handleError_quiet cfg e : Forall quietCache (handleError cfg e).
Proof. unfold handleError. destruct (showErrorsOnStdErr cfg); repeat constructor. Qed.

(** Closes the side conditions of [keeps cacheEmpty quietCache]. *)
Ltac quiet_side :=
  unfold cacheEmpty in *; cbn [oldValsCache quietCache] in *;
  try tauto;
  try (intros ? ->; rewrite ?lookup_empty, ?delete_empty; cbn; tauto).

Lemma preHandlerBody_quiet `{host : Host} cfg request fetched :
  disableCache cfg = true ->
  isUpdate (method request) && isStream (payload request) = false ->
  keeps cacheEmpty quietCache (preHandlerBody cfg request fetched).
Proof.
  intros Hoff Hplain. unfold preHandlerBody. cbv zeta. rewrite Hoff. cbn [negb].
  repeat keeps_step; quiet_side.
  all: repeat match goal with
       | H : isUpdate _ = true |- _ => rewrite H in Hplain; clear H
       | H : isStream (payload _) = true |- _ => rewrite H in Hplain; clear H
       end; discriminate Hplain.
Qed.

Lemma preResponseBody_quiet `{host : Host} cfg request fetched :
  disableCache cfg = true ->
  keeps cacheEmpty quietCache (preResponseBody cfg request fetched).
Proof.
  intros Hoff. unfold preResponseBody, actionOverride, byVerb. cbv zeta.
  rewrite Hoff. cbn [negb]. rewrite !andb_false_r. cbn [andb].
  repeat keeps_step; quiet_side.
Qed.

Lemma step_quiet `{host : Host} cfg s st :
  disableCache cfg = true ->
  streamedUpdate s = false ->
  cacheEmpty st ->
  cacheEmpty (step cfg s st).1 ∧ Forall quietCache (step cfg s st).2.
Proof.
  intros Hoff Hplain Hempty. destruct s as [request fetched | request fetched |].
  - cbn [step]. unfold onPreHandler.
    destruct (guarded cfg (preHandlerBody cfg request fetched) st)
      as [[st' ev] r] eqn:E. cbn [fst snd].
    eapply keeps_guarded; [apply handleError_quiet | | exact Hempty | exact E].
    apply preHandlerBody_quiet; assumption.
  - cbn [step]. unfold onPreResponse.
    destruct (guarded cfg (preResponseBody cfg request fetched) st)
      as [[st' ev] r] eqn:E. cbn [fst snd].
    eapply keeps_guarded; [apply handleError_quiet | | exact Hempty | exact E].
    apply preResponseBody_quiet; assumption.
  - cbn. split; [reflexivity | repeat constructor].
Qed.

Lemma run_quiet `{host : Host} cfg steps st :
  disableCache cfg = true ->
  Forall (fun s => streamedUpdate s = false) steps ->
  cacheEmpty st ->
  cacheEmpty (run cfg steps st).1 ∧ Forall quietCache (run cfg steps st).2.
Proof.
  intros Hoff Hplain. revert st.
  induction Hplain as [| s steps Hs _ IH]; intros st Hempty.
  - cbn. split; [assumption | constructor].
  - cbn [run].
    destruct (step_quiet cfg s st Hoff Hs Hempty) as [H1 HE1].
    destruct (step cfg s st) as [st1 ev1]. cbn [fst snd] in H1, HE1.
    destruct (IH st1 H1) as [H2 HE2].
    destruct (run cfg steps st1) as [st2 ev2]. cbn [fst snd] in *.
    split; [assumption | apply Forall_app; split; assumption].
Qed.

(** With the cache disabled the pre-handler asks the server first. *)
Lemma preHandler_fetches_first `{host : Host} cfg request fetched st :
  disableCache cfg = true ->
  skipAudit cfg request = false ->
  optTruthy (action (auditing request)) = false ->
  isUpdate (method request) || isDelete (method request) = true ->
  exists tail,
    (onPreHandler cfg request fetched st).1.2 = EvFetch (pathname request) :: tail.
Proof.
  intros Hoff Hpass Hact Hverb.
  unfold onPreHandler, guarded, preHandlerBody. cbv zeta.
  rewrite Hpass, Hact, Hoff. cbn [orb negb].
  destruct (isUpdate (method request)) eqn:Hupd.
  - unfold bind at 1. unfold ret at 1. cbn [app].
    cbn [nullish]. unfold bind at 1. unfold bind at 1.
    unfold fetchValues, bind, tell, ret. cbn.
    destruct (parseJSON fetched st) as [[st1 ev1] c1].
    destruct c1 as [v | r | e]; cbn.
    + match goal with
      | |- context [(if ?b then _ else _) st1] => destruct b
      end; cbn; [eexists; reflexivity |].
      match goal with
      | |- context [(if ?b then _ else _) st1] => destruct b
      end; cbn; eexists; reflexivity.
    + eexists; reflexivity.
    + eexists; reflexivity.
  - cbn [orb] in Hverb. rewrite Hverb. cbn. eexists; reflexivity.
Qed.

(** C3, as the code has it.  With [disableCache] set, starting from an
    empty cache, over any sequence of handler calls and timer sweeps in
    which no UPDATE has a streamed body: the cache stays empty, it is
    never written and no [get] on it hits; and in any stores the
    pre-handler of an UPDATE or DELETE that passes the classifier on a route
    without a custom action starts by the internal read. *)
Theorem disabled_cache_stays_unused `{host : Host}
    (cfg : Config) (steps : list Step) (st : Stores) :
  disableCache cfg = true ->
  oldValsCache st = ∅ ->
  Forall (fun s => streamedUpdate s = false) steps ->
  oldValsCache (run cfg steps st).1 = ∅
  ∧ Forall quietCache (run cfg steps st).2
  ∧ (forall request fetched st0,
       skipAudit cfg request = false ->
       optTruthy (action (auditing request)) = false ->
       isUpdate (method request) || isDelete (method request) = true ->
       exists tail,
         (onPreHandler cfg request fetched st0).1.2
         = EvFetch (pathname request) :: tail).
Proof.
  intros Hoff Hempty Hplain.
  destruct (run_quiet cfg steps st Hoff Hplain Hempty) as [H1 H2].
  split; [exact H1 |]. split; [exact H2 |].
  intros request fetched st0 Hpass Hact Hverb.
  apply preHandler_fetches_first; assumption.
Qed.

(** A GET, a PUT and a DELETE on [/api/users/42], cache disabled. *)
Lemma disabled_cache_stays_unused_witness :
  oldValsCache
    (run (host := sampleHost) noCacheConfig
       [PreHandler getUser42 userA_json; PreResponse getUser42 userA_json;
        PreHandler putUser userA_json; PreResponse putUser userA_json;
        Sweep;
        PreHandler deleteUser userA_json; PreResponse deleteUser userA_json]
       emptyStores).1 = ∅
  ∧ Forall quietCache
      (run (host := sampleHost) noCacheConfig
         [PreHandler getUser42 userA_json; PreResponse getUser42 userA_json;
          PreHandler putUser userA_json; PreResponse putUser userA_json;
          Sweep;
          PreHandler deleteUser userA_json; PreResponse deleteUser userA_json]
         emptyStores).2
  ∧ (exists tail,
       (onPreHandler (host := sampleHost) noCacheConfig putUser userA_json cachedA).1.2
       = EvFetch "/api/users/42" :: tail).
Proof.
  destruct (disabled_cache_stays_unused (host := sampleHost) noCacheConfig
              [PreHandler getUser42 userA_json; PreResponse getUser42 userA_json;
               PreHandler putUser userA_json; PreResponse putUser userA_json;
               Sweep;
               PreHandler deleteUser userA_json; PreResponse deleteUser userA_json]
              emptyStores) as (H1 & H2 & H3).
  - reflexivity.
  - reflexivity.
  - repeat (apply List.Forall_cons; [reflexivity |]). apply List.Forall_nil.
  - split; [exact H1 |]. split; [exact H2 |].
    apply (H3 putUser userA_json cachedA); reflexivity.
Defined.

(** A proxied PUT with the cache disabled: the pre-handler writes the
    fetched baseline into the cache and the post-response handler reads
    it back with a hit. *)
Lemma disabled_cache_counterexample :
  disableCache noCacheConfig = true
  ∧ (run (host := sampleHost) noCacheConfig
       [PreHandler proxiedPut userA_json; PreResponse proxiedPut userA_json]
       emptyStores).2
    = [EvFetch "/api/users/42";
       EvCacheSet "get:/api/users/42" userA;
       EvCacheGet "get:/api/users/42" (Some userA);
       EvFetch "/api/users/42";
       EvCacheDelete "get:/api/users/42";
       EvEmit "auditing"
         (createMutation noCacheConfig "put" "users" (VStr "42") (VStr "alice")
            (VObj []) (VObj []))]
  ∧ ~ Forall quietCache
        (run (host := sampleHost) noCacheConfig
           [PreHandler proxiedPut userA_json; PreResponse proxiedPut userA_json]
           emptyStores).2.
Proof.
  split; [reflexivity |]. split; [reflexivity |].
  intros H. vm_compute in H.
  apply Forall_cons in H as [_ H]. apply Forall_cons in H as [H _]. exact H.
Qed.

(** *** The log accounts for the cache *)

Lemma replay_app ev1 ev2 c : replay (ev1 ++ ev2) c = replay ev2 (replay ev1 c).
Proof. revert c. induction ev1 as [| e ev1 IH]; intros c; cbn; [reflexivity | apply IH]. Qed.

Lemma replay_absent ev c k :
  c !! k = None ->
  (forall v, EvCacheSet k v ∉ ev) ->
  replay ev c !! k = None.
Proof.
  revert c. induction ev as [| e ev IH]; intros c Hc Hno; [exact Hc |].
  cbn [replay]. apply IH.
  - destruct e; cbn [replayEvent]; try exact Hc.
    + destruct (decide (key = k)) as [-> | Hne].
      * exfalso. apply (Hno value). apply list_elem_of_here.
      * rewrite lookup_insert_ne by exact Hne. exact Hc.
    + destruct (decide (key = k)) as [-> | Hne].
      * apply lookup_delete_eq.
      * rewrite lookup_delete_ne by exact Hne. exact Hc.
    + apply lookup_empty.
  - intros v Hin. apply (Hno v). apply list_elem_of_further. exact Hin.
Qed.

Lemma logged_ret {A} (a : A) : logged (ret a).
Proof. intros st st' ev c H. injection H as <- <- _. reflexivity. Qed.

Lemma logged_throw {A} e : logged (@throw A e).
Proof. intros st st' ev c H. injection H as <- <- _. reflexivity. Qed.

Lemma logged_returnEarly {A} r : logged (@returnEarly A r).
Proof. intros st st' ev c H. injection H as <- <- _. reflexivity. Qed.

Lemma logged_bind {A B} (m : Audit A) (k : A -> Audit B) :
  logged m -> (forall a, logged (k a)) -> logged (bind m k).
Proof.
  intros Hm Hk st st' ev c. unfold bind.
  destruct (m st) as [[st1 ev1] [a | r1 | e]] eqn:Em.
  - destruct (k a st1) as [[st2 ev2] c2] eqn:Ek.
    intros H. injection H as <- <- _.
    rewrite replay_app, <- (Hm _ _ _ _ Em). exact (Hk a _ _ _ _ Ek).
  - intros H. injection H as <- <- _. exact (Hm _ _ _ _ Em).
  - intros H. injection H as <- <- _. exact (Hm _ _ _ _ Em).
Qed.

Lemma logged_tell e : (forall c, replayEvent e c = c) -> logged (tell e).
Proof.
  intros He st st' ev c H. injection H as <- <- _. cbn. rewrite He. reflexivity.
Qed.

Lemma logged_propOf o k : logged (propOf o k).
Proof. unfold propOf. destruct (getProp o k); [apply logged_ret | apply logged_throw]. Qed.

Lemma logged_parseJSON `{host : Host} data : logged (parseJSON data).
Proof. unfold parseJSON. destruct (JSON_parse data); [apply logged_ret | apply logged_throw]. Qed.

Lemma logged_fetchValues request fetched : logged (fetchValues request fetched).
Proof.
  apply logged_bind; [apply logged_tell; reflexivity |].
  intros _. apply logged_ret.
Qed.

Lemma logged_cacheGet k : logged (cacheGet k).
Proof. intros st st' ev c H. injection H as <- <- _. reflexivity. Qed.

Lemma logged_cacheSet k v : logged (cacheSet k v).
Proof. intros st st' ev c H. injection H as <- <- _. reflexivity. Qed.

Lemma logged_cacheDelete k : logged (cacheDelete k).
Proof. intros st st' ev c H. injection H as <- <- _. reflexivity. Qed.

Lemma logged_pendingGet k : logged (pendingGet k).
Proof. intros st st' ev c H. injection H as <- <- _. reflexivity. Qed.

Lemma logged_pendingSet k r : logged (pendingSet k r).
Proof. intros st st' ev c H. injection H as <- <- _. reflexivity. Qed.

Lemma logged_pendingDelete k : logged (pendingDelete k).
Proof. intros st st' ev c H. injection H as <- <- _. reflexivity. Qed.

Lemma logged_emitAuditEvent cfg rec k : logged (emitAuditEvent cfg rec k).
Proof.
  destruct rec; cbn [emitAuditEvent]; [| apply logged_throw].
  apply logged_bind; [apply logged_tell; reflexivity |].
  intros _. apply logged_pendingDelete.
Qed.

Create HintDb logged.
#[export] Hint Resolve logged_ret logged_throw logged_returnEarly logged_propOf
  logged_parseJSON logged_fetchValues logged_cacheGet logged_cacheSet
  logged_cacheDelete logged_pendingGet logged_pendingSet logged_pendingDelete
  logged_emitAuditEvent : logged.

Ltac logged_step :=
  match goal with
  | |- logged (bind _ _) => apply logged_bind; [| intros ?]
  | |- logged (if ?b then _ else _) => destruct b
  | |- logged _ => solve [auto with logged]
  end.

Lemma logged_preHandlerBody `{host : Host} cfg request fetched :
  logged (preHandlerBody cfg request fetched).
Proof. unfold preHandlerBody. cbv zeta. repeat logged_step. Qed.

Lemma logged_preResponseBody `{host : Host} cfg request fetched :
  logged (preResponseBody cfg request fetched).
Proof.
  unfold preResponseBody, actionOverride, byVerb. cbv zeta. repeat logged_step.
Qed.

Lemma replay_handleError cfg e c : replay (handleError cfg e) c = c.
Proof. unfold handleError. destruct (showErrorsOnStdErr cfg); reflexivity. Qed.

Lemma logged_guarded cfg (body : Audit unit) st :
  logged body ->
  oldValsCache (guarded cfg body st).1.1
  = replay (guarded cfg body st).1.2 (oldValsCache st).
Proof.
  intros Hbody. unfold guarded.
  destruct (body st) as [[st' ev] [a | r | e]] eqn:E; cbn [fst snd];
    rewrite ?replay_app, ?replay_handleError; exact (Hbody _ _ _ _ E).
Qed.

Lemma logged_step_of `{host : Host} cfg s st :
  oldValsCache (step cfg s st).1 = replay (step cfg s st).2 (oldValsCache st).
Proof.
  destruct s as [request fetched | request fetched |]; cbn [step].
  - pose proof (logged_guarded cfg _ st (logged_preHandlerBody cfg request fetched)) as H.
    unfold onPreHandler.
    destruct (guarded cfg (preHandlerBody cfg request fetched) st) as [[st' ev] r].
    exact H.
  - pose proof (logged_guarded cfg _ st (logged_preResponseBody cfg request fetched)) as H.
    unfold onPreResponse.
    destruct (guarded cfg (preResponseBody cfg request fetched) st) as [[st' ev] r].
    exact H.
  - reflexivity.
Qed.

Lemma logged_run `{host : Host} cfg steps st :
  oldValsCache (run cfg steps st).1 = replay (run cfg steps st).2 (oldValsCache st).
Proof.
  revert st. induction steps as [| s steps IH]; intros st; [reflexivity |].
  cbn [run]. pose proof (logged_step_of cfg s st) as H1.
  destruct (step cfg s st) as [st1 ev1]. cbn [fst snd] in H1.
  pose proof (IH st1) as H2.
  destruct (run cfg steps st1) as [st2 ev2]. cbn [fst snd] in *.
  rewrite replay_app, <- H1. exact H2.
Qed.

(** *** Eviction at consumption *)

(** The pre-handler of an UPDATE that finds its baseline in the cache:
    the entry is deleted right after the hit; a streamed body then puts
    the baseline back for the second phase. *)
Lemma preHandler_update_hit `{host : Host} cfg request fetched st b :
  disableCache cfg = false ->
  skipAudit cfg request = false ->
  optTruthy (action (auditing request)) = false ->
  isUpdate (method request) = true ->
  oldValsCache st !! toEndpoint "get" (pathname request) (getPath (auditing request))
  = Some b ->
  nullish b = false ->
  (onPreHandler cfg request fetched st).1.2
  = EvCacheGet (toEndpoint "get" (pathname request) (getPath (auditing request)))
      (Some b)
    :: EvCacheDelete (toEndpoint "get" (pathname request) (getPath (auditing request)))
    :: (if isStream (payload request)
        then [EvCacheSet
                (toEndpoint "get" (pathname request) (getPath (auditing request))) b]
        else []).
Proof.
  intros Hcache Hpass Hact Hupd Hhit Hb.
  unfold onPreHandler, guarded, preHandlerBody. cbv zeta.
  rewrite Hpass, Hact, Hupd, Hcache. cbn [orb negb].
  unfold bind at 1. unfold cacheGet at 1. rewrite Hhit.
  cbn [default from_option id]. unfold id.
  rewrite Hb. unfold bind, cacheDelete, ret. cbn.
  rewrite (nullish_strictNull _ Hb).
  destruct (isStream (payload request)); reflexivity.
Qed.

(** The pre-handler of an UPDATE that finds nothing under the read
    endpoint: a miss, then the internal read. *)
Lemma preHandler_update_miss `{host : Host} cfg request fetched st :
  disableCache cfg = false ->
  skipAudit cfg request = false ->
  optTruthy (action (auditing request)) = false ->
  isUpdate (method request) = true ->
  oldValsCache st !! toEndpoint "get" (pathname request) (getPath (auditing request))
  = None ->
  exists tail,
    (onPreHandler cfg request fetched st).1.2
    = EvCacheGet (toEndpoint "get" (pathname request) (getPath (auditing request)))
        None
      :: EvFetch (pathname request) :: tail.
Proof.
  intros Hcache Hpass Hact Hupd Hmiss.
  unfold onPreHandler, guarded, preHandlerBody. cbv zeta.
  rewrite Hpass, Hact, Hupd, Hcache. cbn [orb negb].
  unfold bind at 1. unfold cacheGet at 1. rewrite Hmiss.
  cbn [default from_option nullish]. 
  unfold bind at 1. unfold bind at 1.
  unfold fetchValues, bind, tell, ret. cbn.
  destruct (parseJSON fetched st) as [[st1 ev1] c1].
  destruct c1 as [v | r | e]; cbn.
  - match goal with
    | |- context [(if ?b then _ else _) st1] => destruct b
    end; cbn; [eexists; reflexivity |].
    match goal with
    | |- context [(if ?b then _ else _) st1] => destruct b
    end; cbn; eexists; reflexivity.
  - eexists; reflexivity.
  - eexists; reflexivity.
Qed.

(** C7.  With the cache enabled, an UPDATE that passes the classifier on a
    route without a custom action and finds a baseline under its
    canonical read endpoint (as a GET leaves one there) deletes the
    entry right after the hit.  Whatever calls and sweeps follow, as long
    as nothing writes that endpoint again after the deletion, a later
    UPDATE on the same read endpoint misses the cache and turns to the
    internal read. *)
Theorem consumed_baseline_is_evicted `{host : Host}
    (cfg : Config) (st : Stores) (b : JsVal)
    (request1 : Request) (fetched1 : string)
    (mid : list Step)
    (request2 : Request) (fetched2 : string) :
  disableCache cfg = false ->
  skipAudit cfg request1 = false ->
  optTruthy (action (auditing request1)) = false ->
  isUpdate (method request1) = true ->
  oldValsCache st !! toEndpoint "get" (pathname request1) (getPath (auditing request1))
  = Some b ->
  nullish b = false ->
  skipAudit cfg request2 = false ->
  optTruthy (action (auditing request2)) = false ->
  isUpdate (method request2) = true ->
  toEndpoint "get" (pathname request2) (getPath (auditing request2))
  = toEndpoint "get" (pathname request1) (getPath (auditing request1)) ->
  exists tail,
    (onPreHandler cfg request1 fetched1 st).1.2
    = EvCacheGet (toEndpoint "get" (pathname request1) (getPath (auditing request1)))
        (Some b)
      :: EvCacheDelete
           (toEndpoint "get" (pathname request1) (getPath (auditing request1)))
      :: tail
    ∧ (isStream (payload request1) = false ->
       tail = []
       ∧ oldValsCache (onPreHandler cfg request1 fetched1 st).1.1
           !! toEndpoint "get" (pathname request1) (getPath (auditing request1))
         = None)
    ∧ ((forall v,
          EvCacheSet (toEndpoint "get" (pathname request1) (getPath (auditing request1))) v
          ∉ tail ++ (run cfg mid (onPreHandler cfg request1 fetched1 st).1.1).2) ->
       exists tail2,
         (onPreHandler cfg request2 fetched2
            (run cfg mid (onPreHandler cfg request1 fetched1 st).1.1).1).1.2
         = EvCacheGet
             (toEndpoint "get" (pathname request1) (getPath (auditing request1))) None
           :: EvFetch (pathname request2) :: tail2).
Proof.
  intros Hcache Hpass1 Hact1 Hupd1 Hhit Hb Hpass2 Hact2 Hupd2 Hsame.
  set (ep := toEndpoint "get" (pathname request1) (getPath (auditing request1))) in *.
  pose proof (preHandler_update_hit cfg request1 fetched1 st b
                Hcache Hpass1 Hact1 Hupd1 Hhit Hb) as Hev. fold ep in Hev.
  pose proof (logged_guarded cfg _ st (logged_preHandlerBody cfg request1 fetched1))
    as Hlog.
  fold (onPreHandler cfg request1 fetched1) in Hlog.
  destruct (onPreHandler cfg request1 fetched1 st) as [[st1 ev1] r1].
  cbn [fst snd] in *. subst ev1. cbn [replay replayEvent] in Hlog.
  eexists. split; [reflexivity |]. split.
  - intros Hbody. rewrite Hbody. split; [reflexivity |].
    rewrite Hlog, Hbody. cbn [replay]. apply lookup_delete_eq.
  - intros Hno.
    pose proof (logged_run cfg mid st1) as Hmid.
    destruct (run cfg mid st1) as [st2 ev2]. cbn [fst snd] in *.
    assert (oldValsCache st2 !! ep = None) as Hgone.
    { rewrite Hmid, Hlog, <- replay_app.
      apply replay_absent; [apply lookup_delete_eq | exact Hno]. }
    rewrite <- Hsame in Hgone |- *.
    apply preHandler_update_miss; assumption.
Qed.

(** A GET on [/api/users/42] leaves its response body in the cache and
    publishes a SEARCH action. *)
Lemma get_fills_cache :
  run (host := sampleHost) defaultConfig
    [PreHandler getUser42 userA_json; PreResponse getUser42 userA_json] emptyStores
  = (cachedA,
     [EvCacheSet "get:/api/users/42" userA;
      EvEmit "auditing"
        (createAction defaultConfig "users" (VStr "42") (VStr "alice") (VObj [])
           (Some "SEARCH"))]).
Proof. vm_compute. reflexivity. Qed.

(** After that GET: a PUT consumes the baseline; its second phase, a
    sweep and a DELETE follow; the next PUT has to read the baseline from
    the server. *)
Lemma consumed_baseline_is_evicted_witness :
  (onPreHandler (host := sampleHost) defaultConfig putUser userA_json cachedA).1.2
  = [EvCacheGet "get:/api/users/42" (Some userA); EvCacheDelete "get:/api/users/42"]
  ∧ exists tail2,
      (onPreHandler (host := sampleHost) defaultConfig putUser userA_json
         (run (host := sampleHost) defaultConfig
            [PreResponse putUser userA_json; Sweep;
             PreHandler deleteUser userA_json; PreResponse deleteUser userA_json]
            (onPreHandler (host := sampleHost) defaultConfig putUser userA_json
               cachedA).1.1).1).1.2
      = EvCacheGet "get:/api/users/42" None :: EvFetch "/api/users/42" :: tail2.
Proof.
  destruct (consumed_baseline_is_evicted (host := sampleHost) defaultConfig cachedA
              userA putUser userA_json
              [PreResponse putUser userA_json; Sweep;
               PreHandler deleteUser userA_json; PreResponse deleteUser userA_json]
              putUser userA_json)
    as (tail & Hev & Hplain & Hlater); try reflexivity.
  destruct (Hplain eq_refl) as [-> _].
  split; [exact Hev |].
  apply Hlater. intros v Hin. vm_compute in Hin.
  repeat (apply elem_of_cons in Hin as [Hin | Hin]; [discriminate Hin |]).
  inversion Hin.
Defined.

(** ** Further properties of the handlers *)

(** *** Reads *)

(** What the post-response handler does with a GET answered 2xx that
    the plugin did not inject itself. *)
Lemma preResponse_read `{host : Host} cfg request fetched st :
  skipAudit cfg request = false ->
  isRead (method request) = true ->
  isSuccessfulResponse (statusCode (response request)) = true ->
  nullish (injected request) = true ->
  oldValsCache (onPreResponse cfg request fetched st).1.1
  = (if truthy (paramOf request (default ID_PARAM_DEFAULT (idParam (auditing request))))
        && negb (disableCache cfg)
        && negb (isStream (source (response request)))
     then <[toEndpoint "get" (pathname request) (getPath (auditing request)) :=
              source (response request)]> (oldValsCache st)
     else oldValsCache st)
  ∧ auditValues (onPreResponse cfg request fetched st).1.1
    = (if auditGetRequests cfg
       then delete (toEndpoint (method request) (pathname request) None)
                   (auditValues st)
       else auditValues st)
  ∧ (onPreResponse cfg request fetched st).1.2
    = (if truthy (paramOf request (default ID_PARAM_DEFAULT (idParam (auditing request))))
          && negb (disableCache cfg)
          && negb (isStream (source (response request)))
       then [EvCacheSet (toEndpoint "get" (pathname request) (getPath (auditing request)))
               (source (response request))]
       else [])
      ++ (if auditGetRequests cfg
          then [EvEmit (emitEventName cfg)
                  (createAction cfg
                     (getEntity (entity (auditing request)) (pathname request))
                     (getEntityId (entityKeys (auditing request))
                        (paramOf request
                           (default ID_PARAM_DEFAULT (idParam (auditing request))))
                        VUndefined)
                     (getUser request (sidUsernameAttribute cfg))
                     (query request)
                     (if optTruthy (action (auditing request))
                      then option_map toUpperCase (action (auditing request))
                      else Some SEARCH))]
          else []).
Proof.
  intros Hpass Hread Hok Hinj.
  assert (isUpdate (method request) = false) as Hupd.
  { destruct (isUpdate (method request)) eqn:E; [| reflexivity].
    rewrite (isUpdate_not_read _ E) in Hread. discriminate. }
  assert (isCreate (method request) = false) as Hcre.
  { destruct (isCreate (method request)) eqn:E; [| reflexivity].
    rewrite (isCreate_not_read _ E) in Hread. discriminate. }
  unfold onPreResponse, guarded, preResponseBody, actionOverride, byVerb,
    shouldAuditRequest. cbv zeta.
  rewrite Hpass, Hread, Hok, Hinj, Hupd, Hcre. cbn [andb orb negb].
  rewrite andb_false_r, orb_false_r, negb_involutive. cbn [andb].
  destruct (truthy _ && negb (disableCache cfg) && negb (isStream _));
    destruct (auditGetRequests cfg); repeat split.
Qed.

(** Upper-casing, letter by letter: the codes 97 to 122 of [a] to [z]
    lose 32, every other character stays. *)
Lemma toUpperAscii_letter c :
  (97 <= nat_of_ascii c <= 122)%nat ->
  nat_of_ascii (toUpperAscii c) = (nat_of_ascii c - 32)%nat.
Proof.
  intros [Hlo Hhi]. unfold toUpperAscii. cbv zeta.
  destruct (Nat.leb_spec 97 (nat_of_ascii c)); [| lia].
  destruct (Nat.leb_spec (nat_of_ascii c) 122); [| lia].
  cbn [andb]. apply nat_ascii_embedding. lia.
Qed.

Lemma toUpperAscii_other c :
  (nat_of_ascii c < 97 \/ 122 < nat_of_ascii c)%nat ->
  toUpperAscii c = c.
Proof.
  intros Hout. unfold toUpperAscii. cbv zeta.
  destruct (Nat.leb_spec 97 (nat_of_ascii c)); [| reflexivity].
  destruct (Nat.leb_spec (nat_of_ascii c) 122); [lia | reflexivity].
Qed.

(** On ASCII text [toUpperCase] is that mapping, whatever the platform
    does elsewhere; the result has the length of the text and is ASCII
    again. *)
Lemma toUpperCase_ascii `{host : Host} s :
  isAscii s = true -> toUpperCase s = mapString toUpperAscii s.
Proof. intros Hs. unfold toUpperCase. rewrite Hs. reflexivity. Qed.

Lemma mapString_length f s : String.length (mapString f s) = String.length s.
Proof. induction s as [| c s IH]; cbn; [reflexivity | rewrite IH; reflexivity]. Qed.

Lemma toUpperCase_stays_ascii s :
  isAscii s = true -> isAscii (mapString toUpperAscii s) = true.
Proof.
  induction s as [| c s IH]; cbn [isAscii mapString]; [reflexivity |].
  intros Hs. apply andb_prop in Hs as [Hc Hs]. rewrite (IH Hs), andb_true_r.
  apply Nat.ltb_lt in Hc. apply Nat.ltb_lt.
  destruct (Nat.le_gt_cases 97 (nat_of_ascii c)) as [Hlo | Hlo].
  - destruct (Nat.le_gt_cases (nat_of_ascii c) 122) as [Hhi | Hhi].
    + rewrite (toUpperAscii_letter c (conj Hlo Hhi)). lia.
    + rewrite (toUpperAscii_other c (or_intror Hhi)). exact Hc.
  - rewrite (toUpperAscii_other c (or_introl Hlo)). exact Hc.
Qed.

(** The sample platform on the two texts of the examples. *)
Lemma toUpperCase_examples :
  toUpperCase (H := sampleHost) "approve" = "APPROVE"
  ∧ toUpperCase (H := sampleHost) "get-Users_42" = "GET-USERS_42"
  ∧ isAscii cafe_lower = false
  ∧ toUpperCase (H := sampleHost) cafe_lower = cafe_upper.
Proof. repeat split. Qed.

(** X1.  A GET that passes the classifier, is answered 2xx and was not
    injected by the plugin, with reads audited: the post-response handler
    publishes exactly one Action record, whose action is SEARCH when the
    route has no (or an empty) action and the route's action in upper
    case otherwise, and whose data is the query.  Upper case is what
    [toUpperCase] gives: for an ASCII action the letters [a] to [z]
    mapped to [A] to [Z] one by one, for any other text the platform's
    Unicode mapping.  The handler logs no error; and the response body
    is stored under the read endpoint exactly when the id parameter is
    truthy, the cache is enabled and the body is not a stream, the cache
    being left as it was otherwise. *)
Theorem read_publishes_action_and_caches `{host : Host}
    (cfg : Config) (request : Request) (fetched : string) (st : Stores) :
  skipAudit cfg request = false ->
  isRead (method request) = true ->
  isSuccessfulResponse (statusCode (response request)) = true ->
  nullish (injected request) = true ->
  auditGetRequests cfg = true ->
  (exists a,
     emitted (onPreResponse cfg request fetched st).1.2 = [Action a]
     ∧ AuditAction.body_action (AuditAction.rec_body a)
       = (if optTruthy (action (auditing request))
          then option_map toUpperCase (action (auditing request))
          else Some "SEARCH")
     ∧ (forall act,
          action (auditing request) = Some act ->
          act <> EmptyString ->
          isAscii act = true ->
          AuditAction.body_action (AuditAction.rec_body a)
          = Some (mapString toUpperAscii act))
     ∧ AuditAction.body_data (AuditAction.rec_body a)
       = AuditMutationBody.orDefault (query request) (VObj []))
  ∧ Forall notErrorEvent (onPreResponse cfg request fetched st).1.2
  ∧ (truthy (paramOf request (default ID_PARAM_DEFAULT (idParam (auditing request))))
     = true ->
     disableCache cfg = false ->
     isStream (source (response request)) = false ->
     oldValsCache (onPreResponse cfg request fetched st).1.1
       !! toEndpoint "get" (pathname request) (getPath (auditing request))
     = Some (source (response request)))
  ∧ (truthy (paramOf request (default ID_PARAM_DEFAULT (idParam (auditing request))))
     = false
     ∨ disableCache cfg = true
     ∨ isStream (source (response request)) = true ->
     oldValsCache (onPreResponse cfg request fetched st).1.1 = oldValsCache st).
Proof.
  intros Hpass Hread Hok Hinj Haudit.
  destruct (preResponse_read cfg request fetched st Hpass Hread Hok Hinj)
    as (Hcache & _ & Hev).
  rewrite Haudit in Hev. rewrite Hev, Hcache.
  split; [| split; [| split]].
  - eexists. split.
    + rewrite emitted_app.
      destruct (_ && _ && _); cbn; reflexivity.
    + split; [reflexivity |]. split; [| reflexivity].
      intros act Hact Hne Hascii. cbn. rewrite Hact. cbn [optTruthy option_map].
      destruct act as [| c rest]; [contradiction Hne; reflexivity |].
      cbn [strTruthy]. rewrite (toUpperCase_ascii _ Hascii). reflexivity.
  - apply Forall_app. split.
    + destruct (_ && _ && _); repeat constructor.
    + repeat constructor.
  - intros -> -> ->. cbn. apply lookup_insert_eq.
  - intros [-> | [-> | ->]]; cbn; rewrite ?andb_false_r; reflexivity.
Qed.

(** [GET /api/users/42] fills the cache; the search [GET /api/users],
    which has no id parameter, does not, and is recorded as SEARCH; on
    a route with the action [approve] the record says [APPROVE], and on
    one with the action [café] it says [CAFÉ]. *)
Lemma read_publishes_action_and_caches_witness :
  oldValsCache (onPreResponse (host := sampleHost) defaultConfig getUser42
                  userA_json emptyStores).1.1
    !! "get:/api/users/42" = Some userA
  ∧ oldValsCache (onPreResponse (host := sampleHost) defaultConfig searchUsers
                    userA_json emptyStores).1.1 = ∅
  ∧ (exists a,
       emitted (onPreResponse (host := sampleHost) defaultConfig searchUsers
                  userA_json emptyStores).1.2 = [Action a]
       ∧ AuditAction.body_action (AuditAction.rec_body a) = Some "SEARCH"
       ∧ AuditAction.body_data (AuditAction.rec_body a) = VObj [("name", VStr "A")])
  ∧ (exists a,
       emitted (onPreResponse (host := sampleHost) defaultConfig
                  (withAuditing approveRoute getUser42) userA_json emptyStores).1.2
       = [Action a]
       ∧ AuditAction.body_action (AuditAction.rec_body a) = Some "APPROVE")
  ∧ (exists a,
       emitted (onPreResponse (host := sampleHost) defaultConfig
                  (withAuditing cafeRoute getUser42) userA_json emptyStores).1.2
       = [Action a]
       ∧ AuditAction.body_action (AuditAction.rec_body a) = Some cafe_upper).
Proof.
  split; [| split; [| split; [| split]]].
  - destruct (read_publishes_action_and_caches (host := sampleHost) defaultConfig
                getUser42 userA_json emptyStores) as (_ & _ & H & _);
      [reflexivity | reflexivity | reflexivity | reflexivity | reflexivity |].
    apply H; reflexivity.
  - destruct (read_publishes_action_and_caches (host := sampleHost) defaultConfig
                searchUsers userA_json emptyStores) as (_ & _ & _ & H);
      [reflexivity | reflexivity | reflexivity | reflexivity | reflexivity |].
    apply H. left. reflexivity.
  - destruct (read_publishes_action_and_caches (host := sampleHost) defaultConfig
                searchUsers userA_json emptyStores) as ((a & E & Ha & _ & Hd) & _);
      [reflexivity | reflexivity | reflexivity | reflexivity | reflexivity |].
    exists a. split; [exact E |]. split; [exact Ha | exact Hd].
  - destruct (read_publishes_action_and_caches (host := sampleHost) defaultConfig
                (withAuditing approveRoute getUser42) userA_json emptyStores)
      as ((a & E & _ & Ha & _) & _);
      [reflexivity | reflexivity | reflexivity | reflexivity | reflexivity |].
    exists a. split; [exact E |].
    apply (Ha "approve"); [reflexivity | discriminate | reflexivity].
  - destruct (read_publishes_action_and_caches (host := sampleHost) defaultConfig
                (withAuditing cafeRoute getUser42) userA_json emptyStores)
      as ((a & E & Ha & _) & _);
      [reflexivity | reflexivity | reflexivity | reflexivity | reflexivity |].
    exists a. split; [exact E | exact Ha].
Defined.

(** X2.  With [auditGetRequests] off, a GET that passes the classifier,
    is answered 2xx and was not injected by the plugin publishes nothing
    and raises no error (the null-record error of the other verbs does
    not occur), leaves the pending store as it was, and still stores its
    response body under the read endpoint when the id parameter is
    truthy, the cache is enabled and the body is not a stream. *)
Theorem unaudited_read_still_caches `{host : Host}
    (cfg : Config) (request : Request) (fetched : string) (st : Stores) :
  skipAudit cfg request = false ->
  isRead (method request) = true ->
  isSuccessfulResponse (statusCode (response request)) = true ->
  nullish (injected request) = true ->
  auditGetRequests cfg = false ->
  emitted (onPreResponse cfg request fetched st).1.2 = []
  ∧ Forall notErrorEvent (onPreResponse cfg request fetched st).1.2
  ∧ auditValues (onPreResponse cfg request fetched st).1.1 = auditValues st
  ∧ (truthy (paramOf request (default ID_PARAM_DEFAULT (idParam (auditing request))))
     = true ->
     disableCache cfg = false ->
     isStream (source (response request)) = false ->
     oldValsCache (onPreResponse cfg request fetched st).1.1
       !! toEndpoint "get" (pathname request) (getPath (auditing request))
     = Some (source (response request))).
Proof.
  intros Hpass Hread Hok Hinj Haudit.
  destruct (preResponse_read cfg request fetched st Hpass Hread Hok Hinj)
    as (Hcache & Hpending & Hev).
  rewrite Haudit in Hev, Hpending. rewrite Hev, Hcache, Hpending, app_nil_r.
  split; [| split; [| split]].
  - destruct (_ && _ && _); reflexivity.
  - destruct (_ && _ && _); repeat constructor.
  - reflexivity.
  - intros -> -> ->. cbn. apply lookup_insert_eq.
Qed.

Lemma unaudited_read_still_caches_witness :
  emitted (onPreResponse (host := sampleHost) noGetAuditConfig getUser42
             userA_json emptyStores).1.2 = []
  ∧ oldValsCache (onPreResponse (host := sampleHost) noGetAuditConfig getUser42
                    userA_json emptyStores).1.1
      !! "get:/api/users/42" = Some userA.
Proof.
  destruct (unaudited_read_still_caches (host := sampleHost) noGetAuditConfig
              getUser42 userA_json emptyStores) as (H1 & _ & _ & H2);
    [reflexivity | reflexivity | reflexivity | reflexivity | reflexivity |].
  split; [exact H1 | apply H2; reflexivity].
Defined.

(** *** A read followed by an update *)

(** The pre-handler of an UPDATE with a concrete body that finds a null
    or undefined entry under the read endpoint: the lookup counts as a
    miss, the baseline is read from the server, and the cache is not
    touched again, so the entry stays. *)
Lemma preHandler_update_null_entry `{host : Host} cfg request fetched st b :
  disableCache cfg = false ->
  skipAudit cfg request = false ->
  optTruthy (action (auditing request)) = false ->
  isUpdate (method request) = true ->
  isStream (payload request) = false ->
  oldValsCache st !! toEndpoint "get" (pathname request) (getPath (auditing request))
  = Some b ->
  nullish b = true ->
  oldValsCache (onPreHandler cfg request fetched st).1.1 = oldValsCache st
  ∧ exists tail,
      (onPreHandler cfg request fetched st).1.2
      = EvCacheGet (toEndpoint "get" (pathname request) (getPath (auditing request)))
          (Some b)
        :: EvFetch (pathname request) :: tail
      ∧ Forall (fun e => isCacheEvent e = false) tail.
Proof.
  intros Hcache Hpass Hact Hupd Hbody Hhit Hb.
  unfold onPreHandler, guarded, preHandlerBody. cbv zeta.
  rewrite Hpass, Hact, Hupd, Hbody, Hcache. cbn [orb negb].
  unfold bind, cacheGet, fetchValues, tell, ret, parseJSON. cbn.
  rewrite Hhit. cbn. rewrite Hb. cbn.
  destruct (JSON_parse fetched) as [v |].
  - cbn. destruct (strictNull v); cbn.
    + split; [reflexivity |]. eexists. split; [reflexivity |].
      unfold handleError. destruct (showErrorsOnStdErr cfg); repeat constructor.
    + split; [reflexivity |]. eexists. split; [reflexivity |]. constructor.
  - unfold throw. cbn.
    split; [reflexivity |]. eexists. split; [reflexivity |].
    unfold handleError. destruct (showErrorsOnStdErr cfg); repeat constructor.
Qed.

(** X3.  With the cache enabled, a GET that passes the classifier, is
    answered 2xx, was not injected, has a truthy id parameter and a body
    that is not a stream stores that body under the read endpoint,
    whatever it is.  An UPDATE with a concrete body that passes the
    classifier on a route without a custom action and comes next on the
    same read endpoint then goes one of two ways.  When the stored body
    is neither null nor undefined, the pre-handler takes it as its
    baseline: it hits the cache, deletes the entry and issues no
    internal read, and the record it leaves pending carries the results
    of [diffFunc] on that body and the payload, each without the
    skip-listed fields.  When the stored body is null or undefined, the
    lookup counts as a miss: the pre-handler issues the internal read,
    makes no further cache call, and the entry stays in the cache. *)
Theorem cached_read_is_the_baseline `{host : Host}
    (cfg : Config) (st : Stores)
    (read : Request) (fetched1 : string)
    (update : Request) (fetched2 : string) :
  disableCache cfg = false ->
  skipAudit cfg read = false ->
  isRead (method read) = true ->
  isSuccessfulResponse (statusCode (response read)) = true ->
  nullish (injected read) = true ->
  truthy (paramOf read (default ID_PARAM_DEFAULT (idParam (auditing read)))) = true ->
  isStream (source (response read)) = false ->
  skipAudit cfg update = false ->
  optTruthy (action (auditing update)) = false ->
  isUpdate (method update) = true ->
  isStream (payload update) = false ->
  toEndpoint "get" (pathname update) (getPath (auditing update))
  = toEndpoint "get" (pathname read) (getPath (auditing read)) ->
  oldValsCache (onPreResponse cfg read fetched1 st).1.1
    !! toEndpoint "get" (pathname read) (getPath (auditing read))
  = Some (source (response read))
  ∧ (nullish (source (response read)) = false ->
     (onPreHandler cfg update fetched2 (onPreResponse cfg read fetched1 st).1.1).1.2
     = [EvCacheGet (toEndpoint "get" (pathname read) (getPath (auditing read)))
          (Some (source (response read)));
        EvCacheDelete (toEndpoint "get" (pathname read) (getPath (auditing read)))]
     ∧ oldValsCache
         (onPreHandler cfg update fetched2 (onPreResponse cfg read fetched1 st).1.1).1.1
         !! toEndpoint "get" (pathname read) (getPath (auditing read)) = None
     ∧ exists m,
         auditValues
           (onPreHandler cfg update fetched2
              (onPreResponse cfg read fetched1 st).1.1).1.1
           !! toEndpoint (method update) (pathname update) None = Some (Mutation m)
         ∧ AuditMutationBody.body_originalValues (AuditMutation.rec_body m)
           = AuditMutationBody.orDefault
               (diffFunc cfg
                  (withoutProps (default [] (skipDiff (auditing update)))
                     (source (response read)))
                  (withoutProps (default [] (skipDiff (auditing update)))
                     (payload update))).1
               (VObj [])
         ∧ AuditMutationBody.body_newValues (AuditMutation.rec_body m)
           = AuditMutationBody.orDefault
               (diffFunc cfg
                  (withoutProps (default [] (skipDiff (auditing update)))
                     (source (response read)))
                  (withoutProps (default [] (skipDiff (auditing update)))
                     (payload update))).2
               (VObj []))
  ∧ (nullish (source (response read)) = true ->
     oldValsCache
       (onPreHandler cfg update fetched2 (onPreResponse cfg read fetched1 st).1.1).1.1
       !! toEndpoint "get" (pathname read) (getPath (auditing read))
     = Some (source (response read))
     ∧ exists tail,
         (onPreHandler cfg update fetched2
            (onPreResponse cfg read fetched1 st).1.1).1.2
         = EvCacheGet (toEndpoint "get" (pathname read) (getPath (auditing read)))
             (Some (source (response read)))
           :: EvFetch (pathname update) :: tail
         ∧ Forall (fun e => isCacheEvent e = false) tail).
Proof.
  intros Hcache Hpass1 Hread Hok Hinj Hid Hsrc Hpass2 Hact Hupd Hbody Hsame.
  destruct (preResponse_read cfg read fetched1 st Hpass1 Hread Hok Hinj)
    as (Hc & _ & _).
  rewrite Hid, Hcache, Hsrc in Hc. cbn [andb negb] in Hc.
  assert (oldValsCache (onPreResponse cfg read fetched1 st).1.1
            !! toEndpoint "get" (pathname update) (getPath (auditing update))
          = Some (source (response read))) as Hhit.
  { rewrite Hc, Hsame. apply lookup_insert_eq. }
  split; [rewrite <- Hsame; exact Hhit |]. split.
  - intros Hnn.
    rewrite (preHandler_update_cached cfg update fetched2 _ _
               Hpass2 Hact Hupd Hbody Hcache Hhit Hnn).
    cbn [fst snd oldValsCache auditValues]. rewrite Hsame.
    split; [reflexivity |]. split; [apply lookup_delete_eq |].
    destruct (diffedMutation_fields cfg update
                (paramOf update (default ID_PARAM_DEFAULT (idParam (auditing update))))
                (source (response read)) (payload update)
                (default [] (skipDiff (auditing update))))
      as (m & Em & _ & _ & Ho & Hn).
    exists m. rewrite Em. split; [apply lookup_insert_eq |]. split; assumption.
  - intros Hnull.
    destruct (preHandler_update_null_entry cfg update fetched2 _ _
                Hcache Hpass2 Hact Hupd Hbody Hhit Hnull)
      as (Hkeep & tail & Hev & Htail).
    rewrite Hkeep, Hev, <- Hsame. split; [exact Hhit |].
    exists tail. split; [reflexivity | exact Htail].
Qed.

(** [GET /api/users/42] then [PUT /api/users/42], pass-through
    [diffFunc]: answered [{name:"A"}], the GET provides the baseline;
    answered [null], it leaves an entry that the PUT passes over for
    the internal read, and that stays. *)
Lemma cached_read_is_the_baseline_witness :
  ((onPreHandler (host := sampleHost) passThroughConfig putUser "<html>"
      (onPreResponse (host := sampleHost) passThroughConfig getUser42 "<html>"
         emptyStores).1.1).1.2
   = [EvCacheGet "get:/api/users/42" (Some userA); EvCacheDelete "get:/api/users/42"]
   ∧ exists m,
       auditValues
         (onPreHandler (host := sampleHost) passThroughConfig putUser "<html>"
            (onPreResponse (host := sampleHost) passThroughConfig getUser42 "<html>"
               emptyStores).1.1).1.1
         !! "put:/api/users/42" = Some (Mutation m)
       ∧ AuditMutationBody.body_originalValues (AuditMutation.rec_body m) = userA
       ∧ AuditMutationBody.body_newValues (AuditMutation.rec_body m) = userB)
  ∧ (onPreResponse (host := sampleHost) passThroughConfig
       (withResponse (ok200 VNull) getUser42) "<html>" emptyStores).1.1
    = cachedNull
  ∧ oldValsCache
      (onPreHandler (host := sampleHost) passThroughConfig putUser userA_json
         cachedNull).1.1
      !! "get:/api/users/42" = Some VNull
  ∧ exists tail,
      (onPreHandler (host := sampleHost) passThroughConfig putUser userA_json
         cachedNull).1.2
      = EvCacheGet "get:/api/users/42" (Some VNull) :: EvFetch "/api/users/42" :: tail.
Proof.
  split; [| split; [reflexivity |]].
  - destruct (cached_read_is_the_baseline (host := sampleHost) passThroughConfig
                emptyStores getUser42 "<html>" putUser "<html>")
      as (_ & Hhit & _);
      [reflexivity | reflexivity | reflexivity | reflexivity | reflexivity
       | reflexivity | reflexivity | reflexivity | reflexivity | reflexivity
       | reflexivity | reflexivity |].
    destruct (Hhit eq_refl) as (Hev & _ & m & Hm & Ho & Hn).
    split; [exact Hev |]. exists m. split; [exact Hm |]. split; [exact Ho | exact Hn].
  - destruct (cached_read_is_the_baseline (host := sampleHost) passThroughConfig
                emptyStores (withResponse (ok200 VNull) getUser42) "<html>"
                putUser userA_json)
      as (_ & _ & Hmiss);
      [reflexivity | reflexivity | reflexivity | reflexivity | reflexivity
       | reflexivity | reflexivity | reflexivity | reflexivity | reflexivity
       | reflexivity | reflexivity |].
    destruct (Hmiss eq_refl) as (Hkeep & tail & Hev & _).
    split; [exact Hkeep |]. exists tail. exact Hev.
Defined.

(** *** A proxied update *)






(** *** Creation *)

Lemma preHandler_other_verb `{host : Host} cfg request fetched st :
  isUpdate (method request) = false ->
  isDelete (method request) = false ->
  onPreHandler cfg request fetched st = (st, [], h_continue).
Proof.
  intros Hupd Hdel. unfold onPreHandler, guarded, preHandlerBody. cbv zeta.
  rewrite Hupd, Hdel. destruct (_ || _); reflexivity.
Qed.

(** X5.  A CREATE that passes the classifier on a route without a custom
    action and is answered 2xx, with a response body or else a request
    body to take the data from: the pre-handler does nothing (no internal
    read, no pending record); the post-response handler publishes exactly
    one Mutation record with the action CREATE, whose [newValues] is the
    response body when there is one and the request payload otherwise,
    and whose [originalValues] is the empty object. *)
Theorem create_emits_one_mutation `{host : Host}
    (cfg : Config) (request : Request) (fetched1 fetched2 : string) (st : Stores) :
  skipAudit cfg request = false ->
  optTruthy (action (auditing request)) = false ->
  isCreate (method request) = true ->
  isSuccessfulResponse (statusCode (response request)) = true ->
  nullish (source (response request)) = false
  ∨ nullish (payload request) = false ->
  onPreHandler cfg request fetched1 st = (st, [], h_continue)
  ∧ exists m,
      emitted (run cfg [PreHandler request fetched1; PreResponse request fetched2] st).2
      = [Mutation m]
      ∧ AuditMutationBody.body_action (AuditMutation.rec_body m) = Some "CREATE"
      ∧ AuditMutationBody.body_newValues (AuditMutation.rec_body m)
        = (if nullish (source (response request))
           then payload request
           else source (response request))
      ∧ AuditMutationBody.body_originalValues (AuditMutation.rec_body m) = VObj [].
Proof.
  intros Hpass Hact Hcre Hok Hdata.
  pose proof (isCreate_not_read _ Hcre) as Hread.
  pose proof (preHandler_other_verb cfg request fetched1 st
                (isCreate_not_update _ Hcre) (isCreate_not_delete _ Hcre)) as Hpre.
  split; [exact Hpre |].
  rewrite run_two. cbn [step]. rewrite Hpre. cbn [fst snd app].
  remember (onPreResponse cfg request fetched2 st) as res eqn:E.
  unfold onPreResponse, guarded, preResponseBody, actionOverride, byVerb in E.
  cbv zeta in E.
  rewrite Hpass, Hact, Hok, Hcre, Hread, (isCreate_not_update _ Hcre),
    (isCreate_not_delete _ Hcre), (shouldAudit_not_read _ _ _ Hread) in E.
  cbn [andb orb] in E. unfold gotResponseData in E.
  set (k := default ID_PARAM_DEFAULT (idParam (auditing request))) in *.
  destruct (nullish (source (response request))) eqn:Hsrc; cbn [negb] in E.
  - destruct Hdata as [Hdata | Hdata]; [discriminate |].
    destruct (getProp_not_nullish _ k Hdata) as [x Hx].
    unfold bind, ret, propOf, emitAuditEvent, tell, pendingDelete in E.
    rewrite Hx in E. cbn in E. subst res. cbn.
    eexists. split; [reflexivity |]. cbn.
    unfold AuditMutation.httpAction. cbn.
    unfold isCreate in Hcre. apply String.eqb_eq in Hcre. rewrite Hcre. cbn.
    split; [reflexivity |]. split; [| reflexivity].
    destruct (payload request); try reflexivity; discriminate.
  - destruct (getProp_not_nullish _ k Hsrc) as [x Hx].
    unfold bind, ret, propOf, emitAuditEvent, tell, pendingDelete in E.
    rewrite Hx in E. cbn in E. subst res. cbn.
    eexists. split; [reflexivity |]. cbn.
    unfold AuditMutation.httpAction. cbn.
    unfold isCreate in Hcre. apply String.eqb_eq in Hcre. rewrite Hcre. cbn.
    split; [reflexivity |]. split; [| reflexivity].
    destruct (source (response request)); try reflexivity; discriminate.
Qed.

(** [POST /api/users] answered with the created user, and the same
    request answered with no body. *)
Lemma create_emits_one_mutation_witness :
  (exists m,
     emitted (run (host := sampleHost) defaultConfig
                [PreHandler postUser userA_json; PreResponse postUser userA_json]
                emptyStores).2
     = [Mutation m]
     ∧ AuditMutationBody.body_newValues (AuditMutation.rec_body m) = userB)
  ∧ (exists m,
       emitted (run (host := sampleHost) defaultConfig
                  [PreHandler
                     (withResponse {| source := VNull; statusCode := VNum 201 |}
                        postUser) userA_json;
                   PreResponse
                     (withResponse {| source := VNull; statusCode := VNum 201 |}
                        postUser) userA_json]
                  emptyStores).2
       = [Mutation m]
       ∧ AuditMutationBody.body_newValues (AuditMutation.rec_body m) = userB).
Proof.
  split.
  - destruct (create_emits_one_mutation (host := sampleHost) defaultConfig postUser
                userA_json userA_json emptyStores) as (_ & m & E & _ & Hn & _);
      [reflexivity | reflexivity | reflexivity | reflexivity | left; reflexivity |].
    exists m. split; [exact E | exact Hn].
  - destruct (create_emits_one_mutation (host := sampleHost) defaultConfig
                (withResponse {| source := VNull; statusCode := VNum 201 |} postUser)
                userA_json userA_json emptyStores) as (_ & m & E & _ & Hn & _);
      [reflexivity | reflexivity | reflexivity | reflexivity | right; reflexivity |].
    exists m. split; [exact E | exact Hn].
Defined.

(** X6.  A CREATE that passes the classifier on a route without a custom
    action and is answered 2xx with neither a response body nor a
    request body: reading the id off the missing payload raises an
    error inside the post-response handler, which is caught and logged;
    no record is published and both stores stay as they were. *)
Theorem create_without_data_is_not_audited `{host : Host}
    (cfg : Config) (request : Request) (fetched : string) (st : Stores) :
  skipAudit cfg request = false ->
  optTruthy (action (auditing request)) = false ->
  isCreate (method request) = true ->
  isSuccessfulResponse (statusCode (response request)) = true ->
  nullish (source (response request)) = true ->
  nullish (payload request) = true ->
  exists message,
    onPreResponse cfg request fetched st = (st, handleError cfg message, h_continue)
    ∧ emitted (handleError cfg message) = []
    ∧ EvRequestLog message ∈ handleError cfg message.
Proof.
  intros Hpass Hact Hcre Hok Hsrc Hpayload.
  pose proof (isCreate_not_read _ Hcre) as Hread.
  unfold onPreResponse, guarded, preResponseBody, actionOverride, byVerb.
  cbv zeta.
  rewrite Hpass, Hact, Hok, Hcre, Hread, (isCreate_not_update _ Hcre),
    (isCreate_not_delete _ Hcre), (shouldAudit_not_read _ _ _ Hread).
  cbn [andb orb]. unfold gotResponseData. rewrite Hsrc. cbn [negb].
  assert (getProp (payload request)
            (default ID_PARAM_DEFAULT (idParam (auditing request))) = None) as Hx.
  { destruct (payload request); try discriminate; reflexivity. }
  unfold bind, ret, propOf, throw. rewrite Hx. cbn.
  eexists. split; [reflexivity |].
  split; [apply handleError_emits_nothing | apply handleError_logs].
Qed.

Lemma create_without_data_is_not_audited_witness :
  exists message,
    onPreResponse (host := sampleHost) defaultConfig emptyPost userA_json emptyStores
    = (emptyStores, handleError defaultConfig message, h_continue)
    ∧ emitted (handleError defaultConfig message) = []
    ∧ EvRequestLog message ∈ handleError defaultConfig message.
Proof.
  apply (create_without_data_is_not_audited (host := sampleHost) defaultConfig
           emptyPost userA_json emptyStores); reflexivity.
Defined.

(** *** What a handler call can touch *)

(** Closes the side conditions of [keeps (agreesOutside _ _ _) notEmit]. *)
Ltac footprint_side :=
  unfold agreesOutside in *; cbn [auditValues oldValsCache notEmit] in *;
  try tauto;
  try (intros ? [? ?]; split; intros ? ?;
       rewrite ?lookup_insert_ne, ?lookup_delete_ne by congruence; auto).

Lemma preHandlerBody_footprint `{host : Host} cfg request fetched st :
  keeps (agreesOutside (toEndpoint (method request) (pathname request) None)
           (toEndpoint "get" (pathname request) (getPath (auditing request))) st)
        notEmit (preHandlerBody cfg request fetched).
Proof.
  unfold preHandlerBody. cbv zeta.
  repeat keeps_step; footprint_side.
Qed.

Lemma handleError_notEmit cfg e : Forall notEmit (handleError cfg e).
Proof. unfold handleError. destruct (showErrorsOnStdErr cfg); repeat constructor. Qed.

Lemma agreesOutside_refl pk ck st : agreesOutside pk ck st st.
Proof. split; intros; reflexivity. Qed.

Lemma pre_handler_emits_nothing `{host : Host} cfg request fetched st :
  emitted (onPreHandler cfg request fetched st).1.2 = [].
Proof.
  unfold onPreHandler.
  destruct (guarded cfg (preHandlerBody cfg request fetched) st)
    as [[st' ev] r] eqn:E. cbn [fst snd].
  destruct (keeps_guarded _ notEmit cfg _ st st' ev r
              (handleError_notEmit cfg)
              (preHandlerBody_footprint cfg request fetched st)
              (agreesOutside_refl _ _ st) E) as [_ Hev].
  apply emitted_notEmit. exact Hev.
Qed.

(** X7.  Whatever the request and the stores, the pre-handler publishes
    nothing, and the only entries it can change are the pending record
    under the request's own (verb, path) key and the cache entry under
    the request's read endpoint. *)
Theorem pre_handler_footprint `{host : Host}
    (cfg : Config) (request : Request) (fetched : string) (st : Stores) :
  emitted (onPreHandler cfg request fetched st).1.2 = []
  ∧ (forall k,
       k <> toEndpoint (method request) (pathname request) None ->
       auditValues (onPreHandler cfg request fetched st).1.1 !! k
       = auditValues st !! k)
  ∧ (forall k,
       k <> toEndpoint "get" (pathname request) (getPath (auditing request)) ->
       oldValsCache (onPreHandler cfg request fetched st).1.1 !! k
       = oldValsCache st !! k).
Proof.
  unfold onPreHandler.
  destruct (guarded cfg (preHandlerBody cfg request fetched) st)
    as [[st' ev] r] eqn:E. cbn [fst snd].
  destruct (keeps_guarded _ notEmit cfg _ st st' ev r
              (handleError_notEmit cfg)
              (preHandlerBody_footprint cfg request fetched st)
              (agreesOutside_refl _ _ st) E) as [[Hp Hc] Hev].
  split; [apply emitted_notEmit; exact Hev |]. split; assumption.
Qed.

(** While the record is being chosen the pending store is only read,
    and in the cache only the read endpoint can change. *)
Lemma byVerb_footprint `{host : Host} cfg request fetched rec st :
  keeps (fun s =>
           auditValues s = auditValues st
           ∧ forall k,
               k <> toEndpoint "get" (pathname request) (getPath (auditing request)) ->
               oldValsCache s !! k = oldValsCache st !! k)
        notEmit (byVerb cfg request fetched rec).
Proof.
  unfold byVerb. cbv zeta.
  repeat keeps_step; cbn [auditValues oldValsCache notEmit]; try tauto;
    intros ? [? ?]; (split; [assumption |]); intros ? ?;
    rewrite ?lookup_insert_ne, ?lookup_delete_ne by congruence; auto.
Qed.

(** X8.  Whatever the request and the stores, one call of the
    post-response handler publishes at most one record; when it
    publishes, the pending entry under the request's (verb, path) key is
    gone afterwards, and when it publishes nothing the pending store is
    exactly as before; it never changes a pending entry under another
    key, nor a cache entry other than the one under the request's read
    endpoint. *)
Theorem post_response_footprint `{host : Host}
    (cfg : Config) (request : Request) (fetched : string) (st : Stores) :
  (length (emitted (onPreResponse cfg request fetched st).1.2) <= 1)%nat
  ∧ (emitted (onPreResponse cfg request fetched st).1.2 <> [] ->
     auditValues (onPreResponse cfg request fetched st).1.1
     = delete (toEndpoint (method request) (pathname request) None) (auditValues st))
  ∧ (emitted (onPreResponse cfg request fetched st).1.2 = [] ->
     auditValues (onPreResponse cfg request fetched st).1.1 = auditValues st)
  ∧ (forall k,
       k <> toEndpoint "get" (pathname request) (getPath (auditing request)) ->
       oldValsCache (onPreResponse cfg request fetched st).1.1 !! k
       = oldValsCache st !! k).
Proof.
  assert (forall (P : Prop), ([] : list AuditRecord) <> [] -> P) as Hnil.
  { intros P H. exfalso. apply H. reflexivity. }
  destruct (onPreResponse cfg request fetched st) as [[st' ev] r] eqn:E.
  cbn [fst snd].
  unfold onPreResponse, guarded, preResponseBody in E. cbv zeta in E.
  destruct (skipAudit cfg request).
  { cbn in E. injection E as <- <- _. cbn.
    repeat split; try reflexivity; try lia; try (intros Hne; exact (Hnil _ Hne)); try (intros _; reflexivity). }
  unfold bind at 1 in E.
  destruct (actionOverride cfg request st) as [[st0 ev0] c0] eqn:E0.
  destruct (actionOverride_frame _ _ _ _ _ _ E0) as [-> ->].
  destruct c0 as [rec0 | r0 | e0]; cbn [fst snd app] in E.
  2: { injection E as <- <- _. cbn.
       repeat split; try reflexivity; try lia; try (intros Hne; exact (Hnil _ Hne)); try (intros _; reflexivity). }
  2: { injection E as <- <- _. rewrite handleError_emits_nothing. cbn.
       repeat split; try reflexivity; try lia; try (intros Hne; exact (Hnil _ Hne)); try (intros _; reflexivity). }
  unfold bind at 1 in E.
  destruct (byVerb cfg request fetched rec0 st) as [[st1 ev1] c1] eqn:E1.
  destruct (byVerb_footprint cfg request fetched rec0 st _ _ _ _
              (conj eq_refl (fun _ _ => eq_refl)) E1) as [[Hp Hc] Hev1].
  apply emitted_notEmit in Hev1.
  destruct c1 as [rec | r1 | e1]; cbn [fst snd app] in E.
  - destruct (shouldAuditRequest _ _ _).
    + destruct rec as [rc |]; cbn [emitAuditEvent] in E.
      * unfold bind, tell, pendingDelete in E. cbn [fst snd app] in E.
        injection E as <- <- _.
        rewrite emitted_app, Hev1. cbn. rewrite Hp.
        repeat split; try reflexivity; try lia; try assumption.
        intros H; discriminate H.
      * unfold throw in E. cbn [fst snd app] in E. injection E as <- <- _.
        rewrite !emitted_app, Hev1, handleError_emits_nothing. cbn.
        repeat split; try lia; try assumption; try (intros Hne; exact (Hnil _ Hne)); try (intros _; assumption).
    + unfold ret in E. cbn [fst snd app] in E. injection E as <- <- _.
      rewrite app_nil_r, Hev1. cbn.
      repeat split; try lia; try assumption; try (intros Hne; exact (Hnil _ Hne)); try (intros _; assumption).
  - injection E as <- <- _. rewrite Hev1. cbn.
    repeat split; try lia; try assumption; try (intros Hne; exact (Hnil _ Hne)); try (intros _; assumption).
  - injection E as <- <- _. rewrite emitted_app, Hev1, handleError_emits_nothing. cbn.
    repeat split; try lia; try assumption; try (intros Hne; exact (Hnil _ Hne)); try (intros _; assumption).
Qed.

(** *** The sweep *)

Lemma run_app `{host : Host} cfg steps1 steps2 st :
  run cfg (steps1 ++ steps2) st
  = ((run cfg steps2 (run cfg steps1 st).1).1,
     (run cfg steps1 st).2 ++ (run cfg steps2 (run cfg steps1 st).1).2).
Proof.
  revert st. induction steps1 as [| s steps1 IH]; intros st.
  - cbn. destruct (run cfg steps2 st). reflexivity.
  - cbn [app run]. destruct (step cfg s st) as [st1 ev1].
    rewrite IH. destruct (run cfg steps1 st1) as [st2 ev2]. cbn [fst snd].
    rewrite app_assoc. reflexivity.
Qed.

(** X9.  After the timer callback has run, whatever happened before, the
    cache is empty and the pending store is as it was; with the cache
    enabled, the pre-handler of the next UPDATE that passes the
    classifier on a route without a custom action therefore misses the
    cache and turns to the internal read, even right after a GET of the
    same resource. *)
Theorem sweep_drops_every_baseline `{host : Host}
    (cfg : Config) (steps : list Step) (st : Stores)
    (request : Request) (fetched : string) :
  disableCache cfg = false ->
  skipAudit cfg request = false ->
  optTruthy (action (auditing request)) = false ->
  isUpdate (method request) = true ->
  oldValsCache (run cfg (steps ++ [Sweep]) st).1 = ∅
  ∧ auditValues (run cfg (steps ++ [Sweep]) st).1 = auditValues (run cfg steps st).1
  ∧ exists tail,
      (onPreHandler cfg request fetched (run cfg (steps ++ [Sweep]) st).1).1.2
      = EvCacheGet (toEndpoint "get" (pathname request) (getPath (auditing request)))
          None
        :: EvFetch (pathname request) :: tail.
Proof.
  intros Hcache Hpass Hact Hupd.
  rewrite run_app. cbn [fst snd run step sweep oldValsCache auditValues].
  split; [reflexivity |]. split; [reflexivity |].
  apply preHandler_update_miss; try assumption.
  cbn [oldValsCache]. apply lookup_empty.
Qed.

(** [GET /api/users/42], the sweep, [PUT /api/users/42]. *)
Lemma sweep_drops_every_baseline_witness :
  oldValsCache
    (run (host := sampleHost) defaultConfig
       [PreHandler getUser42 userA_json; PreResponse getUser42 userA_json]
       emptyStores).1
    !! "get:/api/users/42" = Some userA
  ∧ exists tail,
      (onPreHandler (host := sampleHost) defaultConfig putUser userA_json
         (run (host := sampleHost) defaultConfig
            ([PreHandler getUser42 userA_json; PreResponse getUser42 userA_json]
             ++ [Sweep])
            emptyStores).1).1.2
      = EvCacheGet "get:/api/users/42" None :: EvFetch "/api/users/42" :: tail.
Proof.
  split; [reflexivity |].
  destruct (sweep_drops_every_baseline (host := sampleHost) defaultConfig
              [PreHandler getUser42 userA_json; PreResponse getUser42 userA_json]
              emptyStores putUser userA_json) as (_ & _ & H);
    [reflexivity | reflexivity | reflexivity | reflexivity |].
  exact H.
Defined.

(** *** Where errors are reported *)

Lemma countEvents_app p ev1 ev2 :
  countEvents p (ev1 ++ ev2) = (countEvents p ev1 + countEvents p ev2)%nat.
Proof. unfold countEvents. rewrite List.filter_app, length_app. reflexivity. Qed.

Lemma countEvents_notErrorEvent ev :
  Forall notErrorEvent ev ->
  countEvents isStdErr ev = 0%nat ∧ countEvents isRequestLog ev = 0%nat.
Proof.
  induction 1 as [| e ev [H1 H2] _ [IH1 IH2]]; [split; reflexivity |].
  unfold countEvents in *. cbn [List.filter]. rewrite H1, H2. split; assumption.
Qed.

(** Closes the side conditions of [keeps (fun _ => True) notErrorEvent]. *)
Ltac plain_side :=
  cbn [notErrorEvent]; try tauto;
  try (intros; split; reflexivity); try (split; reflexivity).

Lemma preHandlerBody_reports_nothing `{host : Host} cfg request fetched :
  keeps (fun _ => True) notErrorEvent (preHandlerBody cfg request fetched).
Proof.
  unfold preHandlerBody. cbv zeta. repeat keeps_step; plain_side.
Qed.

Lemma preResponseBody_reports_nothing `{host : Host} cfg request fetched :
  keeps (fun _ => True) notErrorEvent (preResponseBody cfg request fetched).
Proof.
  unfold preResponseBody, actionOverride, byVerb. cbv zeta.
  repeat keeps_step; plain_side.
Qed.

Lemma guarded_error_counts cfg (body : Audit unit) st :
  keeps (fun _ => True) notErrorEvent body ->
  (countEvents isRequestLog (guarded cfg body st).1.2 <= 1)%nat
  ∧ countEvents isStdErr (guarded cfg body st).1.2
    = (if showErrorsOnStdErr cfg
       then countEvents isRequestLog (guarded cfg body st).1.2
       else 0%nat)
  ∧ (countEvents isRequestLog (guarded cfg body st).1.2 = 1%nat
     <-> exists st' ev e, body st = (st', ev, Thrown e)).
Proof.
  intros Hbody. unfold guarded.
  destruct (body st) as [[st' ev] c] eqn:E.
  destruct (Hbody _ _ _ _ Logic.I E) as [_ Hev].
  destruct (countEvents_notErrorEvent _ Hev) as [H1 H2].
  destruct c as [a | r | e]; cbn [fst snd];
    rewrite ?countEvents_app, ?H1, ?H2.
  - split; [lia |]. split; [destruct (showErrorsOnStdErr cfg); reflexivity |].
    split; [discriminate | intros (? & ? & ? & H); discriminate H].
  - split; [lia |]. split; [destruct (showErrorsOnStdErr cfg); reflexivity |].
    split; [discriminate | intros (? & ? & ? & H); discriminate H].
  - unfold handleError. destruct (showErrorsOnStdErr cfg); cbn.
    + split; [lia |]. split; [reflexivity |].
      split; [intros _; do 3 eexists; reflexivity | reflexivity].
    + split; [lia |]. split; [reflexivity |].
      split; [intros _; do 3 eexists; reflexivity | reflexivity].
Qed.

Lemma step_error_counts `{host : Host} cfg s st :
  countEvents isStdErr (step cfg s st).2
  = (if showErrorsOnStdErr cfg
     then countEvents isRequestLog (step cfg s st).2
     else 0%nat).
Proof.
  destruct s as [request fetched | request fetched |]; cbn [step].
  - pose proof (guarded_error_counts cfg _ st
                  (preHandlerBody_reports_nothing cfg request fetched)) as (_ & H & _).
    unfold onPreHandler.
    destruct (guarded cfg (preHandlerBody cfg request fetched) st) as [[st' ev] r].
    exact H.
  - pose proof (guarded_error_counts cfg _ st
                  (preResponseBody_reports_nothing cfg request fetched)) as (_ & H & _).
    unfold onPreResponse.
    destruct (guarded cfg (preResponseBody cfg request fetched) st) as [[st' ev] r].
    exact H.
  - cbn. destruct (showErrorsOnStdErr cfg); reflexivity.
Qed.

(** X10.  Each handler call logs at most one message to the request
    log, and logs one exactly when its audit logic raised an exception.
    Over any run, with [showErrorsOnStdErr] on every such message is
    mirrored by one line on the standard error stream, and with it off
    nothing is ever written there. *)
Theorem errors_are_mirrored_on_stderr `{host : Host}
    (cfg : Config) (steps : list Step) (request : Request) (fetched : string)
    (st : Stores) :
  (countEvents isRequestLog (onPreHandler cfg request fetched st).1.2 = 1%nat
   <-> exists st' ev e, preHandlerBody cfg request fetched st = (st', ev, Thrown e))
  ∧ (countEvents isRequestLog (onPreResponse cfg request fetched st).1.2 = 1%nat
     <-> exists st' ev e, preResponseBody cfg request fetched st = (st', ev, Thrown e))
  ∧ (countEvents isRequestLog (onPreHandler cfg request fetched st).1.2 <= 1)%nat
  ∧ (countEvents isRequestLog (onPreResponse cfg request fetched st).1.2 <= 1)%nat
  ∧ countEvents isStdErr (run cfg steps st).2
    = (if showErrorsOnStdErr cfg
       then countEvents isRequestLog (run cfg steps st).2
       else 0%nat).
Proof.
  destruct (guarded_error_counts cfg _ st
              (preHandlerBody_reports_nothing cfg request fetched)) as (H1 & _ & H2).
  destruct (guarded_error_counts cfg _ st
              (preResponseBody_reports_nothing cfg request fetched)) as (H3 & _ & H4).
  split; [exact H2 |]. split; [exact H4 |]. split; [exact H1 |]. split; [exact H3 |].
  clear. revert st. induction steps as [| s steps IH]; intros st.
  - cbn. destruct (showErrorsOnStdErr cfg); reflexivity.
  - cbn [run]. pose proof (step_error_counts cfg s st) as Hs.
    destruct (step cfg s st) as [st1 ev1]. cbn [snd] in Hs.
    specialize (IH st1). destruct (run cfg steps st1) as [st2 ev2]. cbn [snd] in *.
    rewrite !countEvents_app, Hs, IH.
    destruct (showErrorsOnStdErr cfg); reflexivity.
Qed.

(** [GET /api/users/42] as [fetchValues] injects it. *)
Lemma injected_read_is_inert_witness :
  onPreHandler (host := sampleHost) defaultConfig injectedGet userA_json cachedA
  = (cachedA, [], h_continue)
  ∧ onPreResponse (host := sampleHost) defaultConfig injectedGet userA_json cachedA
    = (cachedA, [], h_continue).
Proof.
  apply (injected_read_is_inert (host := sampleHost) defaultConfig injectedGet
           userA_json cachedA); reflexivity.
Defined.

(** *** Requests that go unaudited *)

(** The post-response handler of a DELETE answered 2xx that finds
    nothing pending under its key. *)
Lemma preResponse_delete_nothing_pending `{host : Host} cfg request fetched st :
  skipAudit cfg request = false ->
  isDelete (method request) = true ->
  isSuccessfulResponse (statusCode (response request)) = true ->
  auditValues st !! toEndpoint (method request) (pathname request) None = None ->
  onPreResponse cfg request fetched st
  = (st,
     handleError cfg ("Cannot audit null audit record for endpoint: "
                      +:+ toEndpoint (method request) (pathname request) None),
     h_continue).
Proof.
  intros Hpass Hdel Hok Hnone.
  pose proof (isDelete_not_read _ Hdel) as Hread.
  unfold onPreResponse, guarded, preResponseBody, actionOverride, byVerb.
  cbv zeta.
  rewrite Hpass, Hok, Hdel, Hread, (isDelete_not_update _ Hdel),
    (isDelete_not_create _ Hdel), (shouldAudit_not_read _ _ _ Hread).
  cbn [andb orb]. rewrite andb_false_r. cbn [andb].
  unfold bind, ret, pendingGet. cbn. rewrite Hnone. reflexivity.
Qed.

(** The same for an UPDATE whose response is not a stream. *)
Lemma preResponse_update_nothing_pending `{host : Host} cfg request fetched st :
  skipAudit cfg request = false ->
  optTruthy (action (auditing request)) = false ->
  isUpdate (method request) = true ->
  isStream (source (response request)) = false ->
  isSuccessfulResponse (statusCode (response request)) = true ->
  auditValues st !! toEndpoint (method request) (pathname request) None = None ->
  onPreResponse cfg request fetched st
  = (st,
     EvCacheGet (toEndpoint "get" (pathname request) (getPath (auditing request)))
       (oldValsCache st
          !! toEndpoint "get" (pathname request) (getPath (auditing request)))
     :: handleError cfg ("Cannot audit null audit record for endpoint: "
                         +:+ toEndpoint (method request) (pathname request) None),
     h_continue).
Proof.
  intros Hpass Hact Hupd Hsrc Hok Hnone.
  pose proof (isUpdate_not_read _ Hupd) as Hread.
  unfold onPreResponse, guarded, preResponseBody, actionOverride, byVerb.
  cbv zeta.
  rewrite Hpass, Hact, Hok, Hupd, Hread, Hsrc, (shouldAudit_not_read _ _ _ Hread).
  cbn [andb].
  unfold bind, ret, pendingGet, cacheGet. cbn. rewrite Hnone. reflexivity.
Qed.

Lemma run_cons `{host : Host} cfg s steps st :
  run cfg (s :: steps) st
  = ((run cfg steps (step cfg s st).1).1,
     (step cfg s st).2 ++ (run cfg steps (step cfg s st).1).2).
Proof.
  cbn [run]. destruct (step cfg s st) as [st1 ev1]. cbn [fst snd].
  destruct (run cfg steps st1) as [st2 ev2]. reflexivity.
Qed.

(** X12.  Two DELETE requests on the same path whose pre-handlers both
    run before either response: the second pending record replaces the
    first.  When both are then answered 2xx, what is published is what
    the second request alone would have published, one record, and the
    other request ends in the null-record error and goes unaudited. *)
Theorem pending_record_is_last_write_wins `{host : Host}
    (cfg : Config) (st : Stores)
    (first second : Request) (fetched1 fetched2 answer1 answer2 : string) :
  skipAudit cfg first = false ->
  optTruthy (action (auditing first)) = false ->
  isDelete (method first) = true ->
  isSuccessfulResponse (statusCode (response first)) = true ->
  skipAudit cfg second = false ->
  optTruthy (action (auditing second)) = false ->
  isDelete (method second) = true ->
  isSuccessfulResponse (statusCode (response second)) = true ->
  method first = method second ->
  pathname first = pathname second ->
  emitted (run cfg [PreHandler first fetched1; PreHandler second fetched2;
                    PreResponse second answer2; PreResponse first answer1] st).2
  = emitted (run cfg [PreHandler second fetched2; PreResponse second answer2] st).2
  ∧ length (emitted (run cfg [PreHandler second fetched2;
                              PreResponse second answer2] st).2) = 1%nat
  ∧ EvRequestLog ("Cannot audit null audit record for endpoint: "
                  +:+ toEndpoint (method first) (pathname first) None)
    ∈ (run cfg [PreHandler first fetched1; PreHandler second fetched2;
                PreResponse second answer2; PreResponse first answer1] st).2.
Proof.
  intros Hpass1 Hact1 Hdel1 Hok1 Hpass2 Hact2 Hdel2 Hok2 Hm Hp.
  rewrite !run_cons. cbn [run step fst snd].
  rewrite (preHandler_delete cfg first fetched1 st Hpass1 Hact1 Hdel1).
  cbn [fst snd].
  rewrite !(preHandler_delete cfg second fetched2 _ Hpass2 Hact2 Hdel2).
  cbn [fst snd auditValues oldValsCache]. rewrite Hm, Hp.
  set (key := toEndpoint (method second) (pathname second) None).
  match goal with
  | |- context [<[key := ?r]> (<[key := ?r1]> _)] => set (rec2 := r); set (rec1 := r1)
  end.
  destruct (preResponse_pending cfg second answer2
              {| oldValsCache := oldValsCache st;
                 auditValues := <[key := rec2]> (<[key := rec1]> (auditValues st)) |}
              rec2 Hpass2 Hact2 (or_introl Hdel2) Hok2)
    as (evA & EA & HevA); [cbn [auditValues]; apply lookup_insert_eq |].
  destruct (preResponse_pending cfg second answer2
              {| oldValsCache := oldValsCache st;
                 auditValues := <[key := rec2]> (auditValues st) |}
              rec2 Hpass2 Hact2 (or_introl Hdel2) Hok2)
    as (evB & EB & HevB); [cbn [auditValues]; apply lookup_insert_eq |].
  rewrite EA, EB. cbn [fst snd auditValues oldValsCache].
  rewrite (preResponse_delete_nothing_pending cfg first answer1 _ Hpass1 Hdel1 Hok1)
    by (cbn [auditValues]; rewrite Hm, Hp; apply lookup_delete_eq).
  cbn [fst snd]. rewrite !app_nil_r, !emitted_app, HevA, HevB,
    handleError_emits_nothing, Hm, Hp. fold key.
  split; [reflexivity |]. split; [reflexivity |].
  cbn [app]. apply list_elem_of_further, list_elem_of_further, elem_of_app.
  right. apply handleError_logs.
Qed.

(** Two DELETEs of [/api/users/42] in flight at once; the server
    answers the two internal reads differently. *)
Lemma pending_record_is_last_write_wins_witness :
  emitted (run (host := sampleHost) defaultConfig
             [PreHandler deleteUser userA_json; PreHandler deleteUser "{}";
              PreResponse deleteUser "{}"; PreResponse deleteUser "{}"]
             emptyStores).2
  = emitted (run (host := sampleHost) defaultConfig
               [PreHandler deleteUser "{}"; PreResponse deleteUser "{}"]
               emptyStores).2
  ∧ length (emitted (run (host := sampleHost) defaultConfig
                       [PreHandler deleteUser "{}"; PreResponse deleteUser "{}"]
                       emptyStores).2) = 1%nat.
Proof.
  destruct (pending_record_is_last_write_wins (host := sampleHost) defaultConfig
              emptyStores deleteUser deleteUser userA_json "{}" "{}" "{}")
    as (H1 & H2 & _);
    [reflexivity | reflexivity | reflexivity | reflexivity | reflexivity
     | reflexivity | reflexivity | reflexivity | reflexivity | reflexivity |].
  split; [exact H1 | exact H2].
Defined.

(** X13.  A DELETE that passes the classifier on a route that declares a
    custom action, answered 2xx, with nothing pending under its key: the
    pre-handler leaves it to the post-response handler (no internal
    read, no pending record), and the post-response handler, whose
    action override covers POST and PUT only, finds no record: nothing
    is published, the null-record error is logged and the stores stay as
    they were. *)
Theorem delete_with_custom_action_is_not_audited `{host : Host}
    (cfg : Config) (request : Request) (fetched1 fetched2 : string) (st : Stores) :
  skipAudit cfg request = false ->
  optTruthy (action (auditing request)) = true ->
  isDelete (method request) = true ->
  isSuccessfulResponse (statusCode (response request)) = true ->
  auditValues st !! toEndpoint (method request) (pathname request) None = None ->
  onPreHandler cfg request fetched1 st = (st, [], h_continue)
  ∧ run cfg [PreHandler request fetched1; PreResponse request fetched2] st
    = (st,
       handleError cfg ("Cannot audit null audit record for endpoint: "
                        +:+ toEndpoint (method request) (pathname request) None))
  ∧ emitted (run cfg [PreHandler request fetched1; PreResponse request fetched2] st).2
    = [].
Proof.
  intros Hpass Hact Hdel Hok Hnone.
  assert (onPreHandler cfg request fetched1 st = (st, [], h_continue)) as Hpre.
  { unfold onPreHandler, guarded, preHandlerBody. cbv zeta.
    rewrite Hact, orb_true_r. reflexivity. }
  split; [exact Hpre |].
  rewrite run_two. cbn [step]. rewrite Hpre. cbn [fst snd app].
  rewrite (preResponse_delete_nothing_pending cfg request fetched2 st
             Hpass Hdel Hok Hnone).
  cbn [fst snd]. split; [reflexivity | apply handleError_emits_nothing].
Qed.

(** [DELETE /api/users/42] on a route with the action [approve]. *)
Lemma delete_with_custom_action_is_not_audited_witness :
  run (host := sampleHost) defaultConfig
    [PreHandler (withAuditing approveRoute deleteUser) userA_json;
     PreResponse (withAuditing approveRoute deleteUser) userA_json] emptyStores
  = (emptyStores,
     handleError defaultConfig
       "Cannot audit null audit record for endpoint: delete:/api/users/42").
Proof.
  destruct (delete_with_custom_action_is_not_audited (host := sampleHost)
              defaultConfig (withAuditing approveRoute deleteUser)
              userA_json userA_json emptyStores) as (_ & H & _);
    [reflexivity | reflexivity | reflexivity | reflexivity | reflexivity |].
  exact H.
Defined.

(** The pre-handler of an UPDATE whose baseline cannot be had: nothing
    usable in the cache, and an internal read whose body does not parse
    or parses to [null]. *)
Lemma preHandler_update_unavailable `{host : Host} cfg request fetched st :
  skipAudit cfg request = false ->
  optTruthy (action (auditing request)) = false ->
  isUpdate (method request) = true ->
  disableCache cfg = true
  ∨ nullish (default VUndefined
               (oldValsCache st
                  !! toEndpoint "get" (pathname request) (getPath (auditing request))))
    = true ->
  JSON_parse fetched = None ∨ JSON_parse fetched = Some VNull ->
  exists ev message,
    onPreHandler cfg request fetched st = (st, ev ++ handleError cfg message, h_continue)
    ∧ Forall notErrorEvent ev
    ∧ emitted ev = [].
Proof.
  intros Hpass Hact Hupd Hmiss Hparse.
  unfold onPreHandler, guarded, preHandlerBody. cbv zeta.
  rewrite Hpass, Hact, Hupd. cbn [orb].
  destruct (disableCache cfg) eqn:Hcache; cbn [negb].
  - exists [EvFetch (pathname request)].
    unfold bind, ret, fetchValues, tell, parseJSON, throw. cbn.
    destruct Hparse as [-> | ->]; cbn;
      eexists; (split; [reflexivity |]);
      (split; [repeat constructor | reflexivity]).
  - destruct Hmiss as [Hmiss | Hmiss]; [discriminate |].
    exists [EvCacheGet (toEndpoint "get" (pathname request) (getPath (auditing request)))
              (oldValsCache st
                 !! toEndpoint "get" (pathname request) (getPath (auditing request)));
            EvFetch (pathname request)].
    unfold bind, cacheGet, ret, fetchValues, tell, parseJSON, throw. cbn.
    rewrite Hmiss. cbn.
    destruct Hparse as [-> | ->]; cbn;
      eexists; (split; [reflexivity |]);
      (split; [repeat constructor | reflexivity]).
Qed.

(** X14.  An UPDATE that passes the classifier on a route without a
    custom action, with nothing usable in the cache (or the cache
    disabled) and an internal read whose body does not parse or parses
    to [null]: the pre-handler logs the error and stores no record, so
    the post-response handler (2xx, response not a stream, nothing
    pending under the key) logs the null-record error.  Over the two
    phases nothing is published, exactly two errors are logged and both
    stores end as they began: the request goes unaudited and is not
    retried. *)
Theorem update_without_baseline_is_not_audited `{host : Host}
    (cfg : Config) (request : Request) (fetched1 fetched2 : string) (st : Stores) :
  skipAudit cfg request = false ->
  optTruthy (action (auditing request)) = false ->
  isUpdate (method request) = true ->
  isStream (source (response request)) = false ->
  isSuccessfulResponse (statusCode (response request)) = true ->
  disableCache cfg = true
  ∨ nullish (default VUndefined
               (oldValsCache st
                  !! toEndpoint "get" (pathname request) (getPath (auditing request))))
    = true ->
  JSON_parse fetched1 = None ∨ JSON_parse fetched1 = Some VNull ->
  auditValues st !! toEndpoint (method request) (pathname request) None = None ->
  (run cfg [PreHandler request fetched1; PreResponse request fetched2] st).1 = st
  ∧ emitted (run cfg [PreHandler request fetched1; PreResponse request fetched2] st).2
    = []
  ∧ countEvents isRequestLog
      (run cfg [PreHandler request fetched1; PreResponse request fetched2] st).2
    = 2%nat.
Proof.
  intros Hpass Hact Hupd Hsrc Hok Hmiss Hparse Hnone.
  destruct (preHandler_update_unavailable cfg request fetched1 st
              Hpass Hact Hupd Hmiss Hparse) as (ev & msg & E1 & Hplain & Hev).
  rewrite run_two. cbn [step]. rewrite E1. cbn [fst snd].
  rewrite (preResponse_update_nothing_pending cfg request fetched2 st
             Hpass Hact Hupd Hsrc Hok Hnone).
  cbn [fst snd]. split; [reflexivity |]. split.
  - rewrite !emitted_app, Hev, handleError_emits_nothing. cbn.
    apply handleError_emits_nothing.
  - destruct (countEvents_notErrorEvent _ Hplain) as [_ H0].
    rewrite !countEvents_app, H0.
    unfold handleError, countEvents.
    destruct (showErrorsOnStdErr cfg); reflexivity.
Qed.

(** [PUT /api/users/42] when the internal read answers an error page. *)
Lemma update_without_baseline_is_not_audited_witness :
  (run (host := sampleHost) defaultConfig
     [PreHandler putUser "<html>"; PreResponse putUser "<html>"] emptyStores).1
  = emptyStores
  ∧ emitted (run (host := sampleHost) defaultConfig
               [PreHandler putUser "<html>"; PreResponse putUser "<html>"]
               emptyStores).2 = []
  ∧ countEvents isRequestLog
      (run (host := sampleHost) defaultConfig
         [PreHandler putUser "<html>"; PreResponse putUser "<html>"] emptyStores).2
    = 2%nat.
Proof.
  apply (update_without_baseline_is_not_audited (host := sampleHost) defaultConfig
           putUser "<html>" "<html>" emptyStores);
    [reflexivity | reflexivity | reflexivity | reflexivity | reflexivity
     | right; reflexivity | left; reflexivity | reflexivity].
Defined.

(** *** Deletion and the cache *)

(** X15.  A DELETE that passes the classifier on a route without a
    custom action and is answered 2xx never calls the cache, in either
    phase: its baseline always comes from the internal read, and a
    baseline cached for the deleted resource is neither used nor
    evicted.  With the cache enabled, a later UPDATE on the same read
    endpoint still takes that cached baseline, without an internal
    read. *)
Theorem delete_bypasses_the_cache `{host : Host}
    (cfg : Config) (request : Request) (fetched1 fetched2 : string) (st : Stores)
    (update : Request) (fetched3 : string) (b : JsVal) :
  skipAudit cfg request = false ->
  optTruthy (action (auditing request)) = false ->
  isDelete (method request) = true ->
  isSuccessfulResponse (statusCode (response request)) = true ->
  oldValsCache (run cfg [PreHandler request fetched1; PreResponse request fetched2] st).1
  = oldValsCache st
  ∧ countEvents isCacheEvent
      (run cfg [PreHandler request fetched1; PreResponse request fetched2] st).2
    = 0%nat
  ∧ countEvents (fun e => match e with EvFetch _ => true | _ => false end)
      (run cfg [PreHandler request fetched1; PreResponse request fetched2] st).2
    = 1%nat
  ∧ (disableCache cfg = false ->
     skipAudit cfg update = false ->
     optTruthy (action (auditing update)) = false ->
     isUpdate (method update) = true ->
     oldValsCache st !! toEndpoint "get" (pathname update) (getPath (auditing update))
     = Some b ->
     nullish b = false ->
     (onPreHandler cfg update fetched3
        (run cfg [PreHandler request fetched1; PreResponse request fetched2] st).1).1.2
     = EvCacheGet (toEndpoint "get" (pathname update) (getPath (auditing update)))
         (Some b)
       :: EvCacheDelete (toEndpoint "get" (pathname update) (getPath (auditing update)))
       :: (if isStream (payload update)
           then [EvCacheSet
                   (toEndpoint "get" (pathname update) (getPath (auditing update))) b]
           else [])).
Proof.
  intros Hpass Hact Hdel Hok.
  rewrite run_two. cbn [step].
  rewrite (preHandler_delete cfg request fetched1 st Hpass Hact Hdel).
  cbn [fst snd].
  erewrite preResponse_delete_pending;
    [ | exact Hpass | exact Hdel | exact Hok
      | cbn [auditValues]; apply lookup_insert_eq].
  cbn [fst snd oldValsCache app].
  split; [reflexivity |]. split; [reflexivity |]. split; [reflexivity |].
  intros Hcache Hpass2 Hact2 Hupd Hhit Hb.
  apply preHandler_update_hit; assumption.
Qed.

(** [GET], [DELETE], then [PUT] on [/api/users/42]. *)
Lemma delete_bypasses_the_cache_witness :
  oldValsCache
    (run (host := sampleHost) defaultConfig
       [PreHandler deleteUser userA_json; PreResponse deleteUser userA_json]
       cachedA).1
  = oldValsCache cachedA
  ∧ (onPreHandler (host := sampleHost) defaultConfig putUser "<html>"
       (run (host := sampleHost) defaultConfig
          [PreHandler deleteUser userA_json; PreResponse deleteUser userA_json]
          cachedA).1).1.2
    = [EvCacheGet "get:/api/users/42" (Some userA);
       EvCacheDelete "get:/api/users/42"].
Proof.
  destruct (delete_bypasses_the_cache (host := sampleHost) defaultConfig deleteUser
              userA_json userA_json cachedA putUser "<html>" userA)
    as (H1 & _ & _ & H2);
    [reflexivity | reflexivity | reflexivity | reflexivity |].
  split; [exact H1 |].
  apply H2; reflexivity.
Defined.

(** *** What a published record carries *)

Lemma createMutation_own cfg m ent eid user orig new :
  ownRecord cfg (createMutation cfg m ent eid user orig new).
Proof. split; reflexivity. Qed.

Lemma createAction_own cfg ent eid user data act :
  ownRecord cfg (createAction cfg ent eid user data act).
Proof. split; reflexivity. Qed.

Lemma diffedMutation_own `{host : Host} cfg request id o n skip :
  ownRecord cfg (diffedMutation cfg request id o n skip).
Proof.
  unfold diffedMutation. cbv zeta.
  destruct (removeProps o n skip) as [o' n'].
  destruct (diffFunc cfg o' n') as [a b]. apply createMutation_own.
Qed.

Lemma actionOverride_own `{host : Host} cfg request st st' ev r :
  actionOverride cfg request st = (st', ev, Normal (Some r)) -> ownRecord cfg r.
Proof.
  unfold actionOverride. cbv zeta.
  destruct (_ && _ && _); [| discriminate].
  unfold bind, propOf, ret, throw.
  destruct (truthy _); cbn.
  - intros E. injection E as _ _ <-. apply createAction_own.
  - destruct (getProp _ _); cbn; [| discriminate].
    intros E. injection E as _ _ <-. apply createAction_own.
Qed.

Lemma byVerb_own `{host : Host} cfg request fetched rec0 st st' ev r :
  pendingOwn cfg st ->
  (forall r0, rec0 = Some r0 -> ownRecord cfg r0) ->
  byVerb cfg request fetched rec0 st = (st', ev, Normal (Some r)) ->
  ownRecord cfg r.
Proof.
  intros Hst Hrec0. unfold byVerb. cbv zeta.
  destruct (isRead (method request) && _ && _).
  { unfold bind, cacheSet, ret.
    destruct (_ && _ && _); cbn; intros E; injection E as _ _ <-;
      apply createAction_own. }
  destruct (isUpdate (method request) && _).
  { unfold bind, cacheGet. cbn.
    destruct (isStream (source (response request))).
    - unfold fetchValues, bind, tell, ret, parseJSON, throw, cacheDelete. cbn.
      destruct (JSON_parse fetched); cbn; [| discriminate].
      intros E. injection E as _ _ <-. apply diffedMutation_own.
    - unfold pendingGet. cbn. intros E. injection E as _ _ E.
      exact (map_Forall_lookup_1 _ _ _ _ Hst E). }
  destruct (isDelete (method request) && _).
  { unfold pendingGet. intros E. injection E as _ _ E.
    exact (map_Forall_lookup_1 _ _ _ _ Hst E). }
  destruct (isCreate (method request) && _).
  { unfold bind, propOf, ret, throw.
    destruct (gotResponseData _); destruct (getProp _ _); cbn;
      try discriminate; intros E; injection E as _ _ <-;
      apply createMutation_own. }
  unfold ret. intros E. injection E as _ _ E. apply Hrec0. exact E.
Qed.

Lemma preResponse_emits_own `{host : Host} cfg request fetched st r :
  pendingOwn cfg st ->
  r ∈ emitted (onPreResponse cfg request fetched st).1.2 ->
  ownRecord cfg r.
Proof.
  intros Hst.
  destruct (onPreResponse cfg request fetched st) as [[st' ev] res] eqn:E.
  cbn [fst snd].
  unfold onPreResponse, guarded, preResponseBody in E. cbv zeta in E.
  destruct (skipAudit cfg request).
  { cbn in E. injection E as _ <- _. intros H. inversion H. }
  unfold bind at 1 in E.
  destruct (actionOverride cfg request st) as [[st0 ev0] c0] eqn:E0.
  destruct (actionOverride_frame _ _ _ _ _ _ E0) as [-> ->].
  destruct c0 as [rec0 | r0 | e0]; cbn [fst snd app] in E.
  2: { injection E as _ <- _. intros H. inversion H. }
  2: { injection E as _ <- _. rewrite handleError_emits_nothing.
       intros H. inversion H. }
  unfold bind at 1 in E.
  destruct (byVerb cfg request fetched rec0 st) as [[st1 ev1] c1] eqn:E1.
  pose proof (byVerb_notEmit cfg request fetched rec0 _ _ _ _ Logic.I E1) as [_ Hev1].
  apply emitted_notEmit in Hev1.
  destruct c1 as [rec | r1 | e1]; cbn [fst snd app] in E.
  - destruct (shouldAuditRequest _ _ _).
    + destruct rec as [rc |]; cbn [emitAuditEvent] in E.
      * unfold bind, tell, pendingDelete in E. cbn [fst snd app] in E.
        injection E as _ <- _. rewrite emitted_app, Hev1. cbn.
        intros H. apply list_elem_of_singleton in H. subst rc.
        eapply byVerb_own; [exact Hst | | exact E1].
        intros r0 ->. exact (actionOverride_own _ _ _ _ _ _ E0).
      * unfold throw in E. cbn [fst snd app] in E. injection E as _ <- _.
        rewrite !emitted_app, Hev1, handleError_emits_nothing.
        intros H. inversion H.
    + unfold ret in E. cbn [fst snd app] in E. injection E as _ <- _.
      rewrite app_nil_r, Hev1. intros H. inversion H.
  - injection E as _ <- _. rewrite Hev1. intros H. inversion H.
  - injection E as _ <- _. rewrite emitted_app, Hev1, handleError_emits_nothing.
    intros H. inversion H.
Qed.

(** Closes the side conditions of [keeps (pendingOwn _)]. *)
Ltac own_side :=
  unfold pendingOwn in *; cbn [auditValues] in *;
  try tauto;
  try (intros ? ?; first
         [ apply map_Forall_insert_2;
           [first [apply createMutation_own | apply diffedMutation_own] | assumption]
         | apply map_Forall_delete; assumption ]).

Lemma preHandlerBody_pendingOwn `{host : Host} cfg request fetched :
  keeps (pendingOwn cfg) (fun _ => True) (preHandlerBody cfg request fetched).
Proof. unfold preHandlerBody. cbv zeta. repeat keeps_step; own_side. Qed.

Lemma preResponseBody_pendingOwn `{host : Host} cfg request fetched :
  keeps (pendingOwn cfg) (fun _ => True) (preResponseBody cfg request fetched).
Proof.
  unfold preResponseBody, actionOverride, byVerb. cbv zeta.
  repeat keeps_step; own_side.
Qed.

Lemma step_pendingOwn `{host : Host} cfg s st :
  pendingOwn cfg st -> pendingOwn cfg (step cfg s st).1.
Proof.
  intros Hst.
  assert (forall e, Forall (fun _ : Event => True) (handleError cfg e)) as Htriv.
  { intros e. apply Forall_forall. intros; exact Logic.I. }
  destruct s as [request fetched | request fetched |]; cbn [step].
  - unfold onPreHandler.
    destruct (guarded cfg (preHandlerBody cfg request fetched) st)
      as [[st' ev] r] eqn:E. cbn [fst].
    eapply (keeps_guarded (pendingOwn cfg) (fun _ => True));
      [exact Htriv | apply preHandlerBody_pendingOwn | exact Hst | exact E].
  - unfold onPreResponse.
    destruct (guarded cfg (preResponseBody cfg request fetched) st)
      as [[st' ev] r] eqn:E. cbn [fst].
    eapply (keeps_guarded (pendingOwn cfg) (fun _ => True));
      [exact Htriv | apply preResponseBody_pendingOwn | exact Hst | exact E].
  - exact Hst.
Qed.

(** X16.  In any run from the empty stores, every record that is
    published is tagged with the configured client id and has the outcome
    SUCCESS: no code path publishes a record with the outcome FAILURE or
    under another application name. *)
Theorem published_records_are_own `{host : Host}
    (cfg : Config) (steps : list Step) (r : AuditRecord) :
  r ∈ emitted (run cfg steps emptyStores).2 ->
  applicationOf r = clientId cfg ∧ outcomeOf r = SUCCESS.
Proof.
  assert (forall st, pendingOwn cfg st ->
            r ∈ emitted (run cfg steps st).2 -> ownRecord cfg r) as Hgen.
  { induction steps as [| s steps IH]; intros st Hst.
    - cbn. intros H. inversion H.
    - rewrite run_cons. cbn [snd]. rewrite emitted_app. intros Hin.
      apply elem_of_app in Hin as [Hin | Hin].
      + destruct s as [request fetched | request fetched |]; cbn [step] in Hin.
        * pose proof (pre_handler_emits_nothing cfg request fetched st) as Hnone.
          destruct (onPreHandler cfg request fetched st) as [[st' ev] res].
          cbn [fst snd] in *. rewrite Hnone in Hin. inversion Hin.
        * pose proof (preResponse_emits_own cfg request fetched st r Hst) as Hown.
          destruct (onPreResponse cfg request fetched st) as [[st' ev] res].
          cbn [fst snd] in *. apply Hown. exact Hin.
        * inversion Hin.
      + exact (IH _ (step_pendingOwn cfg s st Hst) Hin). }
  intros Hin. apply (Hgen emptyStores); [| exact Hin].
  unfold pendingOwn. cbn. apply map_Forall_empty.
Qed.

(** [GET /api/users/42]: the SEARCH record it publishes. *)
Lemma published_records_are_own_witness :
  applicationOf
    (createAction defaultConfig "users" (VStr "42") (VStr "alice") (VObj [])
       (Some "SEARCH"))
  = clientId defaultConfig
  ∧ outcomeOf
      (createAction defaultConfig "users" (VStr "42") (VStr "alice") (VObj [])
         (Some "SEARCH"))
    = SUCCESS.
Proof.
  apply (published_records_are_own (host := sampleHost) defaultConfig
           [PreHandler getUser42 userA_json; PreResponse getUser42 userA_json]).
  rewrite get_fills_cache. cbn. apply list_elem_of_here.
Defined.

(** *** The record class on other verbs *)

(** X17.  A Mutation record has no action (null) exactly when no
    non-empty action is given and the verb, in lower case, is none of
    put, post and delete: a PATCH or GET mutation carries a null action,
    and an empty action string counts as no action. *)
Theorem mutation_action_is_null_for_other_verbs (i : AuditMutation.input) :
  AuditMutationBody.body_action (AuditMutation.rec_body (AuditMutation.new i)) = None
  <-> optTruthy (AuditMutation.action i) = false
      ∧ toLowerCase (AuditMutation.method i) <> "put"
      ∧ toLowerCase (AuditMutation.method i) <> "post"
      ∧ toLowerCase (AuditMutation.method i) <> "delete".
Proof.
  unfold AuditMutation.new, AuditMutationBody.new, AuditMutation.httpAction.
  cbn [AuditMutation.rec_body AuditMutationBody.body_action AuditMutationBody.action].
  destruct (optTruthy (AuditMutation.action i)) eqn:Hact; cbn [negb andb].
  - split; [| intros [H _]; discriminate H].
    intros H. rewrite H in Hact. discriminate Hact.
  - destruct (String.eqb_spec (toLowerCase (AuditMutation.method i)) "put") as [E1 | N1].
    { split; [discriminate | intros (_ & H & _); contradiction]. }
    destruct (String.eqb_spec (toLowerCase (AuditMutation.method i)) "post") as [E2 | N2].
    { split; [discriminate | intros (_ & _ & H & _); contradiction]. }
    destruct (String.eqb_spec (toLowerCase (AuditMutation.method i)) "delete")
      as [E3 | N3].
    { split; [discriminate | intros (_ & _ & _ & H); contradiction]. }
    split; [intros _; repeat split; assumption | reflexivity].
Qed.

(** *** The default path filter *)

Lemma startsWith_spec p s : startsWith p s = true <-> exists rest, s = p +:+ rest.
Proof.
  revert s. induction p as [| a p IH]; intros s; cbn.
  - split; [intros _; exists s; reflexivity | reflexivity].
  - destruct s as [| b s].
    + split; [discriminate | intros [rest H]; discriminate H].
    + destruct (Ascii.eqb_spec a b) as [<- | Hne].
      * rewrite IH. split; intros [rest H]; exists rest.
        -- rewrite H. reflexivity.
        -- injection H as H. exact H.
      * split; [discriminate |]. intros [rest H]. injection H as H _.
        exfalso. apply Hne. symmetry. exact H.
Qed.

(** X18.  When the options give no [isAuditable], a request is auditable
    exactly when its path begins with [/api], whatever its method: the
    test is a plain prefix test, so it also accepts a path such as
    [/apiary] and rejects [/v1/api]. *)
Theorem default_isAuditable_is_a_prefix_test
    (options : gmap string OptVal) (path m : string) :
  options !! "isAuditable" = None ->
  isAuditable (readOptions options) path m = true
  <-> exists rest, path = "/api" +:+ rest.
Proof.
  intros Hnone. unfold readOptions. cbn [isAuditable]. rewrite Hnone.
  apply startsWith_spec.
Qed.

Lemma default_isAuditable_is_a_prefix_test_witness :
  isAuditable (readOptions ∅) "/apiary/7" "delete" = true
  ∧ ~ exists rest, "/v1/api" = "/api" +:+ rest.
Proof.
  split.
  - apply (default_isAuditable_is_a_prefix_test ∅ "/apiary/7" "delete");
      [reflexivity | exists "ary/7"; reflexivity].
  - intros H.
    apply (default_isAuditable_is_a_prefix_test ∅ "/v1/api" "get") in H;
      [discriminate H | reflexivity].
Defined.

(** *** Delivery *)

Lemma handleError_emitsOn cfg channel e : Forall (emitsOn channel) (handleError cfg e).
Proof. unfold handleError. destruct (showErrorsOnStdErr cfg); repeat constructor. Qed.

(** Closes the side conditions of [keeps (fun _ => True) (emitsOn _)]. *)
Ltac channel_side :=
  cbn [emitsOn]; try tauto; try (intros; reflexivity).

Lemma preHandlerBody_emitsOn `{host : Host} cfg request fetched :
  keeps (fun _ => True) (emitsOn (emitEventName cfg)) (preHandlerBody cfg request fetched).
Proof. unfold preHandlerBody. cbv zeta. repeat keeps_step; channel_side. Qed.

Lemma preResponseBody_emitsOn `{host : Host} cfg request fetched :
  keeps (fun _ => True) (emitsOn (emitEventName cfg))
        (preResponseBody cfg request fetched).
Proof.
  unfold preResponseBody, actionOverride, byVerb. cbv zeta.
  repeat keeps_step; channel_side.
Qed.

Lemma run_emitsOn `{host : Host} cfg steps st :
  Forall (emitsOn (emitEventName cfg)) (run cfg steps st).2.
Proof.
  revert st. induction steps as [| s steps IH]; intros st; [constructor |].
  rewrite run_cons. cbn [snd]. apply Forall_app. split; [| apply IH].
  destruct s as [request fetched | request fetched |]; cbn [step].
  - unfold onPreHandler.
    destruct (guarded cfg (preHandlerBody cfg request fetched) st)
      as [[st' ev] r] eqn:E. cbn [snd].
    eapply (keeps_guarded (fun _ => True) (emitsOn (emitEventName cfg)));
      [apply handleError_emitsOn | apply preHandlerBody_emitsOn
       | exact Logic.I | exact E].
  - unfold onPreResponse.
    destruct (guarded cfg (preResponseBody cfg request fetched) st)
      as [[st' ev] r] eqn:E. cbn [snd].
    eapply (keeps_guarded (fun _ => True) (emitsOn (emitEventName cfg)));
      [apply handleError_emitsOn | apply preResponseBody_emitsOn
       | exact Logic.I | exact E].
  - repeat constructor.
Qed.

Lemma delivered_on_channel channel sub ev :
  Forall (emitsOn channel) ev ->
  delivered [(channel, sub)] ev = map (fun r => (sub, r)) (emitted ev).
Proof.
  induction 1 as [| e ev He _ IH]; [reflexivity |].
  destruct e; cbn in *; try exact IH.
  subst channel0. rewrite String.eqb_refl. cbn. f_equal. exact IH.
Qed.

(** X19.  For the configuration and the listener table that [register]
    makes of any options object, over any run: the records delivered
    are the records published, in order, each of them once, all to the
    one subscriber that was registered (the function given as
    [eventHanler], or the console logger). *)
Theorem every_record_is_delivered_once `{host : Host}
    (options : gmap string OptVal) (steps : list Step) (st : Stores) :
  delivered (register options).2 (run (register options).1 steps st).2
  = map (fun r => (eventHanler (register options).1, r))
        (emitted (run (register options).1 steps st).2).
Proof.
  unfold register. cbn [fst snd].
  apply delivered_on_channel, run_emitsOn.
Qed.

(** *** Internal reads *)

Lemma handleError_fetchesOnly cfg path e : Forall (fetchesOnly path) (handleError cfg e).
Proof. unfold handleError. destruct (showErrorsOnStdErr cfg); repeat constructor. Qed.

Lemma handleError_notFetch cfg e : Forall notFetch (handleError cfg e).
Proof. unfold handleError. destruct (showErrorsOnStdErr cfg); repeat constructor. Qed.

(** X20.  An internal read, whenever a handler issues one, is a GET on
    the path of the request being handled.  The pre-handler issues none
    for a verb other than PUT and DELETE, and the post-response handler
    issues none for a verb other than PUT nor for a PUT whose response is
    not a stream: reads and creations never cost an extra read. *)
Theorem internal_reads_are_for_updates_and_deletes `{host : Host}
    (cfg : Config) (request : Request) (fetched : string) (st : Stores) :
  Forall (fetchesOnly (pathname request)) (onPreHandler cfg request fetched st).1.2
  ∧ Forall (fetchesOnly (pathname request)) (onPreResponse cfg request fetched st).1.2
  ∧ (isUpdate (method request) = false ->
     isDelete (method request) = false ->
     Forall notFetch (onPreHandler cfg request fetched st).1.2)
  ∧ (isUpdate (method request) && isStream (source (response request)) = false ->
     Forall notFetch (onPreResponse cfg request fetched st).1.2).
Proof.
  split; [| split; [| split]].
  - unfold onPreHandler.
    destruct (guarded cfg (preHandlerBody cfg request fetched) st)
      as [[st' ev] r] eqn:E. cbn [fst snd].
    eapply (keeps_guarded (fun _ => True) (fetchesOnly (pathname request)));
      [apply handleError_fetchesOnly | | exact Logic.I | exact E].
    unfold preHandlerBody. cbv zeta.
    repeat keeps_step; cbn [fetchesOnly]; try tauto; try (intros; reflexivity).
  - unfold onPreResponse.
    destruct (guarded cfg (preResponseBody cfg request fetched) st)
      as [[st' ev] r] eqn:E. cbn [fst snd].
    eapply (keeps_guarded (fun _ => True) (fetchesOnly (pathname request)));
      [apply handleError_fetchesOnly | | exact Logic.I | exact E].
    unfold preResponseBody, actionOverride, byVerb. cbv zeta.
    repeat keeps_step; cbn [fetchesOnly]; try tauto; try (intros; reflexivity).
  - intros Hupd Hdel.
    rewrite (preHandler_other_verb cfg request fetched st Hupd Hdel). constructor.
  - intros Hplain. unfold onPreResponse.
    destruct (guarded cfg (preResponseBody cfg request fetched) st)
      as [[st' ev] r] eqn:E. cbn [fst snd].
    eapply (keeps_guarded (fun _ => True) notFetch);
      [apply handleError_notFetch | | exact Logic.I | exact E].
    unfold preResponseBody, actionOverride, byVerb. cbv zeta.
    repeat keeps_step; cbn [notFetch]; try tauto.
    all: repeat match goal with
         | H : _ && _ = true |- _ => apply andb_true_iff in H as [? ?]
         end.
    all: repeat match goal with
         | H : isUpdate _ = true |- _ => rewrite H in Hplain; clear H
         | H : isStream (source _) = true |- _ => rewrite H in Hplain; clear H
         end; try discriminate Hplain.
Qed.
